(** * irrigation-demo: the solenoid client and the sensor-data client

    A shallow embedding of [remote_solenoid.py] and [demoPullRequests.py].
    Python code that prints, sends HTTP requests or exits is written as
    explicit state passing over a [world]; the background monitoring thread
    is a small-step machine whose steps interleave with the main thread.

    Strings are sequences of code points below 256.  Case mapping
    ([upper], [capitalize]) is modelled on the ASCII letters. *)

From Stdlib Require Import String Ascii List ZArith Lia Bool Arith.
From Stdlib Require Import DecimalString DecimalZ Sorted.
Import ListNotations.

Local Open Scope string_scope.
Local Open Scope Z_scope.

(* ------------------------------------------------------------------ *)
(** ** Python built-ins used by both programs *)

Module Py.

Definition chr (n : nat) : string := String (ascii_of_nat n) "".
Definition CR : string := chr 13.
Definition LF : string := chr 10.

(** [str(n)] for an [int]. *)
Definition str_int (z : Z) : string := NilZero.string_of_int (Z.to_int z).

(** [s * n] *)
Fixpoint repeat_str (s : string) (n : nat) : string :=
  match n with
  | O => ""
  | S k => s ++ repeat_str s k
  end.

(** [sep.join(l)] *)
Fixpoint join (sep : string) (l : list string) : string :=
  match l with
  | [] => ""
  | [x] => x
  | x :: rest => x ++ sep ++ join sep rest
  end.

Definition is_lower (c : ascii) : bool :=
  let n := nat_of_ascii c in (97 <=? n)%nat && (n <=? 122)%nat.
Definition is_upper (c : ascii) : bool :=
  let n := nat_of_ascii c in (65 <=? n)%nat && (n <=? 90)%nat.
Definition upper_char (c : ascii) : ascii :=
  if is_lower c then ascii_of_nat (nat_of_ascii c - 32) else c.
Definition lower_char (c : ascii) : ascii :=
  if is_upper c then ascii_of_nat (nat_of_ascii c + 32) else c.

Fixpoint map_str (f : ascii -> ascii) (s : string) : string :=
  match s with
  | EmptyString => EmptyString
  | String c r => String (f c) (map_str f r)
  end.

(** [s.upper()], [s.lower()], [s.capitalize()] *)
Definition upper (s : string) : string := map_str upper_char s.
Definition lower (s : string) : string := map_str lower_char s.
Definition capitalize (s : string) : string :=
  match s with
  | EmptyString => EmptyString
  | String c r => String (upper_char c) (lower r)
  end.

(** [s.center(width)]: CPython puts [pad/2 + (pad & width & 1)] fill
    characters on the left. *)
Definition center (s : string) (width : nat) : string :=
  let n := String.length s in
  if (width <=? n)%nat then s
  else
    let pad := (width - n)%nat in
    let left := (pad / 2 + (if Nat.odd pad && Nat.odd width then 1 else 0))%nat in
    repeat_str " " left ++ s ++ repeat_str " " (pad - left).

(** [f"{s:<w}"] *)
Definition ljust (s : string) (width : nat) : string :=
  s ++ repeat_str " " (width - String.length s).

(** The characters [int] skips around a literal, below code point 256. *)
Definition is_space (c : ascii) : bool :=
  let n := nat_of_ascii c in
  ((9 <=? n) && (n <=? 13) || (n =? 32) || (n =? 133) || (n =? 160))%nat.

Fixpoint lstrip (s : string) : string :=
  match s with
  | String c r => if is_space c then lstrip r else s
  | EmptyString => EmptyString
  end.

Fixpoint rstrip (s : string) : string :=
  match s with
  | EmptyString => EmptyString
  | String c r =>
      match rstrip r with
      | EmptyString => if is_space c then EmptyString else String c EmptyString
      | r' => String c r'
      end
  end.

Definition strip (s : string) : string := rstrip (lstrip s).

Definition digit_of (c : ascii) : option Z :=
  let n := nat_of_ascii c in
  if ((48 <=? n) && (n <=? 57))%nat then Some (Z.of_nat (n - 48)) else None.

(** The digits of an integer literal: one or more decimal digits, single
    underscores allowed between two digits.  [acc] is the value read so
    far and [after_digit] tells whether the previous character was a
    digit. *)
Fixpoint int_digits (s : string) (acc : Z) (after_digit : bool) : option Z :=
  match s with
  | EmptyString => if after_digit then Some acc else None
  | String c r =>
      match digit_of c with
      | Some d => int_digits r (10 * acc + d) true
      | None =>
          if (nat_of_ascii c =? 95)%nat && after_digit then
            match r with
            | EmptyString => None
            | String c' _ =>
                match digit_of c' with
                | Some _ => int_digits r acc false
                | None => None
                end
            end
          else None
      end
  end.

(** [int(s)] for a [str]; [None] is [ValueError].  The interpreter's
    limit on the number of digits of a literal is left out. *)
Definition int (s : string) : option Z :=
  match strip s with
  | String "+" r => int_digits r 0 false
  | String "-" r => option_map Z.opp (int_digits r 0 false)
  | r => int_digits r 0 false
  end.

(** [s.split(sep)] for a one-character separator. *)
Fixpoint split (sep : ascii) (s : string) : list string :=
  match s with
  | EmptyString => [EmptyString]
  | String c r =>
      if Ascii.eqb c sep then EmptyString :: split sep r
      else
        match split sep r with
        | [] => [String c EmptyString]
        | w :: ws => String c w :: ws
        end
  end.

End Py.

(* ------------------------------------------------------------------ *)
(** ** Calendar arithmetic behind [datetime] and [strftime] *)

Module Clock.

Definition is_leap (y : Z) : bool :=
  ((y mod 4 =? 0) && negb (y mod 100 =? 0)) || (y mod 400 =? 0).

Definition days_in_month (y m : Z) : Z :=
  if m =? 2 then (if is_leap y then 29 else 28)
  else if (m =? 4) || (m =? 6) || (m =? 9) || (m =? 11) then 30
  else 31.

(** Days from 1970-01-01 to the given day of the proleptic Gregorian
    calendar. *)
Definition days_from_civil (y m d : Z) : Z :=
  let y' := if m <=? 2 then y - 1 else y in
  let era := y' / 400 in
  let yoe := y' - era * 400 in
  let mp := if 2 <? m then m - 3 else m + 9 in
  let doy := (153 * mp + 2) / 5 + d - 1 in
  let doe := yoe * 365 + yoe / 4 - yoe / 100 + doy in
  era * 146097 + doe - 719468.

(** The inverse: (year, month, day) of a day number. *)
Definition civil_from_days (z : Z) : Z * Z * Z :=
  let z' := z + 719468 in
  let era := z' / 146097 in
  let doe := z' - era * 146097 in
  let yoe := (doe - doe / 1460 + doe / 36524 - doe / 146096) / 365 in
  let doy := doe - (365 * yoe + yoe / 4 - yoe / 100) in
  let mp := (5 * doy + 2) / 153 in
  let d := doy - (153 * mp + 2) / 5 + 1 in
  let m := if mp <? 10 then mp + 3 else mp - 9 in
  let y := yoe + era * 400 in
  (if m <=? 2 then y + 1 else y, m, d).

(** [datetime.min] and [datetime.max] in seconds from the epoch (the
    microseconds are dropped). *)
Definition datetime_min : Z := days_from_civil 1 1 1 * 86400.
Definition datetime_max : Z := days_from_civil 9999 12 31 * 86400 + 86399.

Definition pad2 (n : Z) : string :=
  if n <? 10 then "0" ++ Py.str_int n else Py.str_int n.
Definition pad4 (n : Z) : string :=
  if n <? 10 then "000" ++ Py.str_int n
  else if n <? 100 then "00" ++ Py.str_int n
  else if n <? 1000 then "0" ++ Py.str_int n
  else Py.str_int n.

Definition day_name (days : Z) : string :=
  nth (Z.to_nat ((days + 4) mod 7))
      ["Sun"; "Mon"; "Tue"; "Wed"; "Thu"; "Fri"; "Sat"] "".
Definition month_name (m : Z) : string :=
  nth (Z.to_nat (m - 1))
      ["Jan"; "Feb"; "Mar"; "Apr"; "May"; "Jun";
       "Jul"; "Aug"; "Sep"; "Oct"; "Nov"; "Dec"] "".

Definition hms (secs : Z) : string :=
  let sod := secs mod 86400 in
  pad2 (sod / 3600) ++ ":" ++ pad2 (sod mod 3600 / 60) ++ ":" ++ pad2 (sod mod 60).

(** [strftime("%a, %d %b %Y %H:%M:%S GMT")] of the wall-clock time [secs]
    seconds after 1970-01-01 00:00:00. *)
Definition strftime_http (secs : Z) : string :=
  let days := secs / 86400 in
  let '(y, m, d) := civil_from_days days in
  day_name days ++ ", " ++ pad2 d ++ " " ++ month_name m ++ " " ++ pad4 y
  ++ " " ++ hms secs ++ " GMT".

(** [strftime("%m-%d-%Y %H:%M:%S")] *)
Definition strftime_display (secs : Z) : string :=
  let days := secs / 86400 in
  let '(y, m, d) := civil_from_days days in
  pad2 m ++ "-" ++ pad2 d ++ "-" ++ pad4 y ++ " " ++ hms secs.

End Clock.

(* ------------------------------------------------------------------ *)
(** ** What both clients hand to the [requests] library *)

Module Http.

Inductive method := GET | POST.

Record request := mkRequest {
  req_method : method;
  req_url : string;
  req_params : list (string * string);   (* params=... : query string *)
  req_data : list (string * string);     (* data=...   : form body    *)
  req_timeout : option Z                 (* timeout=... in seconds;
                                            None: no timeout argument *)
}.

(** An exception, with the text [str(e)] gives.  A [RequestException]
    may carry the response that caused it ([e.response.text]). *)
Inductive failure :=
| RequestException (msg : string) (response_text : option string)
| OtherException (msg : string).         (* any other subclass of Exception *)

End Http.

(* ------------------------------------------------------------------ *)
(** ** remote_solenoid.py *)

Module Solenoid.
Import Http.

Definition ENTS_IP : string := "172.31.105.241".
Definition PORT : Z := 80.
Definition BASE_URL : string := "http://" ++ ENTS_IP ++ ":" ++ Py.str_int PORT.

(** *** Values that cross the HTTP boundary *)

(** A value inside the status object.  The client only prints and tests
    these values, so a JSON float is carried as the text Python prints for
    it together with its truth value, and a nested list or dict likewise
    with its type name. *)
Inductive scalar :=
| SNone
| SBool (b : bool)
| SInt (z : Z)
| SFloat (repr : string) (nonzero : bool)
| SStr (s : string)
| SNested (repr : string) (nonempty : bool) (ty : string).

(** What [response.json()] evaluates to: a dict, or some other JSON value.
    Of the latter only the truth value and the type name matter, and what
    ['current_moisture' in v] followed by [v['current_moisture']] does:
    [probe] is [None] when the membership test is false and the message
    of the [TypeError] when either of the two raises. *)
Inductive pyjson :=
| JObject (fields : list (string * scalar))
| JOther (truthy : bool) (type_name : string) (probe : option string).

Record response := mkResponse {
  status_code : Z;
  text : string;
  json : option pyjson                   (* None: [json()] raises *)
}.

Inductive http_result :=
| Responds (r : response)
| Refused (f : failure).

(** *** The process state *)

(** Where a thread running [monitor_status_continuously] stands. *)
Inductive pc :=
| PStart                                 (* before the first print *)
| PWhile                                 (* about to test [while auto_monitoring_active] *)
| PFetch                                 (* about to call get_system_status *)
| PReport (status : option pyjson)       (* about to print what was fetched *)
| PFor (i : Z)                           (* iteration [i] of the for: about to
                                            test [if not auto_monitoring_active] *)
| PSleep (i : Z)                         (* about to call time.sleep(1) *)
| PStopped                               (* the while loop was left *)
| PDone.                                 (* the target function returned *)

(** A [threading.Thread] object together with the local variables of its
    target function. *)
Record thread := mkThread {
  at_pc : pc;
  cycle_count : Z;
  check_interval : Z                     (* args=(check_interval,) *)
}.

(** [is_alive()]: true from [start()] until the target returns. *)
Definition alive (th : thread) : bool :=
  match at_pc th with
  | PDone => false
  | _ => true
  end.

Record world := mkWorld {
  auto_monitoring_active : bool;         (* global *)
  monitoring_thread : option nat;        (* global; None is Python's None *)
  threads : list thread;                 (* Thread objects, by creation order *)
  out : list string;                     (* one entry per print() call *)
  sent : list request                    (* HTTP requests issued, in order *)
}.

Definition initial : world := mkWorld false None [] [] [].

Inductive result (A : Type) :=
| Val (a : A)
| Exit (code : Z)                        (* SystemExit raised by sys.exit *)
| Raise (f : failure).
Arguments Val {A} a.
Arguments Exit {A} code.
Arguments Raise {A} f.

Definition M (A : Type) : Type := world -> result A * world.

Definition ret {A} (a : A) : M A := fun w => (Val a, w).
Definition bind {A B} (m : M A) (k : A -> M B) : M B := fun w =>
  match m w with
  | (Val a, w') => k a w'
  | (Exit c, w') => (Exit c, w')
  | (Raise f, w') => (Raise f, w')
  end.

Declare Scope py_scope.
Delimit Scope py_scope with py.
Notation "x <- m ;; k" := (bind m (fun x => k))
  (at level 61, m at next level, right associativity) : py_scope.
Notation "m ;; k" := (bind m (fun _ => k))
  (at level 61, right associativity) : py_scope.
Local Open Scope py_scope.

Definition print (s : string) : M unit := fun w =>
  (Val tt, mkWorld (auto_monitoring_active w) (monitoring_thread w)
                   (threads w) (out w ++ [s]) (sent w)).
Definition sys_exit {A} (code : Z) : M A := fun w => (Exit code, w).
Definition raise {A} (f : failure) : M A := fun w => (Raise f, w).
Definition get_active : M bool := fun w => (Val (auto_monitoring_active w), w).
Definition set_active (b : bool) : M unit := fun w =>
  (Val tt, mkWorld b (monitoring_thread w) (threads w) (out w) (sent w)).

Definition py_str (v : scalar) : string :=
  match v with
  | SNone => "None"
  | SBool true => "True"
  | SBool false => "False"
  | SInt z => Py.str_int z
  | SFloat repr _ => repr
  | SStr s => s
  | SNested repr _ _ => repr
  end.

Definition truthy (v : scalar) : bool :=
  match v with
  | SNone => false
  | SBool b => b
  | SInt z => negb (z =? 0)
  | SFloat _ nz => nz
  | SStr s => negb (String.eqb s "")
  | SNested _ ne _ => ne
  end.

Definition type_name (v : scalar) : string :=
  match v with
  | SNone => "NoneType"
  | SBool _ => "bool"
  | SInt _ => "int"
  | SFloat _ _ => "float"
  | SStr _ => "str"
  | SNested _ _ ty => ty
  end.

Definition AttributeError (ty attr : string) : failure :=
  OtherException ("'" ++ ty ++ "' object has no attribute '" ++ attr ++ "'").

(** [d.get(k, default)] *)
Fixpoint dict_get (d : list (string * scalar)) (k : string) (default : scalar)
  : scalar :=
  match d with
  | [] => default
  | (k', v) :: rest => if String.eqb k' k then v else dict_get rest k default
  end.

(** [k in d] *)
Definition dict_mem (d : list (string * scalar)) (k : string) : bool :=
  existsb (fun kv => String.eqb (fst kv) k) d.

(** [status.get(k, default)] on whatever [json()] returned. *)
Definition status_get (status : pyjson) (k : string) (default : scalar)
  : M scalar :=
  match status with
  | JObject d => ret (dict_get d k default)
  | JOther _ ty _ => raise (AttributeError ty "get")
  end.

(** [v.upper()] *)
Definition upper_of (v : scalar) : M string :=
  match v with
  | SStr s => ret (Py.upper s)
  | _ => raise (AttributeError (type_name v) "upper")
  end.

(** [if status:] for the value [get_system_status] returned. *)
Definition status_truthy (status : option pyjson) : bool :=
  match status with
  | None => false
  | Some (JObject d) => negb (Nat.eqb (List.length d) 0)
  | Some (JOther t _ _) => t
  end.

Section Network.

(** The controller and the network between: the outcome of the [n]-th
    request of the process. *)
Variable env : nat -> request -> http_result.

Definition http (r : request) : M response := fun w =>
  let w' := mkWorld (auto_monitoring_active w) (monitoring_thread w)
                    (threads w) (out w) (sent w ++ [r]) in
  match env (List.length (sent w)) r with
  | Responds resp => (Val resp, w')
  | Refused f => (Raise f, w')
  end.

Definition requests_get (url : string) (timeout : option Z) : M response :=
  http (mkRequest GET url [] [] timeout).
Definition requests_post (url : string) (params data : list (string * string))
  (timeout : option Z) : M response :=
  http (mkRequest POST url params data timeout).

(** [get_system_status]: the bare [except] swallows every failure. *)
Definition get_system_status : M (option pyjson) := fun w =>
  match requests_get (BASE_URL ++ "/status") (Some 5) w with
  | (Val response, w') =>
      if status_code response =? 200 then (Val (json response), w')
      else (Val None, w')
  | (_, w') => (Val None, w')
  end.

Definition rule60 : string := Py.repeat_str "=" 60.

Definition print_status_summary (status : option pyjson) : M unit :=
  print (Py.LF ++ rule60) ;;
  print "SYSTEM STATUS SUMMARY" ;;
  print rule60 ;;
  (if status_truthy status then
     match status with
     | Some st =>
         m <- status_get st "current_moisture" (SStr "N/A") ;;
         print ("Current Soil Humidity: " ++ py_str m ++ "%") ;;
         s <- status_get st "solenoid_state" (SStr "unknown") ;;
         su <- upper_of s ;;
         print ("Solenoid State: " ++ su) ;;
         a <- status_get st "auto_irrigation_enabled" (SBool false) ;;
         print ("Auto Irrigation: " ++ (if truthy a then "ENABLED" else "DISABLED")) ;;
         lo <- status_get st "min_threshold" (SStr "N/A") ;;
         hi <- status_get st "max_threshold" (SStr "N/A") ;;
         print ("Irrigation Thresholds: Below " ++ py_str lo ++ "% & Above "
                ++ py_str hi ++ "%") ;;
         ci <- status_get st "check_interval_seconds" (SStr "N/A") ;;
         print ("Check Interval: " ++ py_str ci ++ " seconds")
     | None => ret tt
     end
   else print "Could not fetch system status") ;;
  act <- get_active ;;
  print ("Monitoring Active: " ++ (if act then "YES" else "NO")) ;;
  print rule60.

(** *** Starting and stopping the monitor *)

Definition thread_is_alive (w : world) (t : nat) : bool :=
  match nth_error (threads w) t with
  | Some h => alive h
  | None => false
  end.

(** [monitoring_thread and monitoring_thread.is_alive()] *)
Definition monitor_alive (w : world) : bool :=
  match monitoring_thread w with
  | Some t => thread_is_alive w t
  | None => false
  end.

(** [threading.Thread(target=monitor_status_continuously,
    args=(check_interval,), daemon=True)] followed by [.start()]: the new
    thread is alive when [start] returns. *)
Definition spawn_monitor (check_interval : Z) : M unit := fun w =>
  (Val tt, mkWorld (auto_monitoring_active w)
                   (Some (List.length (threads w)))
                   (threads w ++ [mkThread PStart 0 check_interval])
                   (out w) (sent w)).

Definition start_auto_monitoring (check_interval : Z) : M unit := fun w =>
  if monitor_alive w then print "Auto monitoring is already running" w
  else
    (set_active true ;;
     spawn_monitor check_interval ;;
     print "Auto monitoring started") w.

Definition stop_auto_monitoring : M unit :=
  set_active false ;;
  print "Auto monitoring stopping...".

(** *** print_usage *)

Definition usage_message : string :=
  Py.join Py.LF [
    Py.LF ++ "Available Commands:";
    "  Basic Control:";
    "    open                 - Open solenoid indefinitely";
    "    close                - Close solenoid";
    "    timed [seconds]      - Open for specified duration";
    "    state                - Check current solenoid state";
    "";
    "  Automatic Irrigation:";
    "    auto_irrigation <min> <max> - Enable auto mode with thresholds + start monitoring";
    "    auto_on              - Enable automatic irrigation + start monitoring";
    "    auto_off             - Disable automatic irrigation + stop monitoring";
    "    set_thresholds <min> <max> - Set thresholds only";
    "    status               - Show complete system status";
    "    moisture_check       - Check current moisture reading from ESP32";
    "";
    "Examples:";
    "  python remote_solenoid.py timed 300          # Open for 5 minutes";
    "  python remote_solenoid.py auto_irrigation 50 75  # Auto mode: <50% open, >75% close";
    "  python remote_solenoid.py set_thresholds 25 55  # Update thresholds only";
    "  python remote_solenoid.py auto_on            # Enable auto irrigation";
    "  python remote_solenoid.py status             # Show system status";
    "  python remote_solenoid.py moisture_check     # Check current moisture from ESP32"
  ].

Definition print_usage : M unit := print usage_message.

(** *** send_command *)

Section Dispatch.

Variable argv : list string.             (* sys.argv *)

Definition arg (i : nat) : string := nth i argv "".
Definition argc : nat := List.length argv.

Definition CRLF : string := Py.CR ++ Py.LF.

Definition when (b : bool) (m : M unit) : M unit := if b then m else ret tt.

(** The body of the [try] block.  [response] is [None] for the commands
    that go through [get_system_status]. *)
Definition dispatch (command : string) : M (option response) :=
  if String.eqb command "open" then
    when (2 <? argc)%nat
      (print (CRLF ++ "Error: Too many arguments." ++ CRLF
              ++ "Format: python remote_solenoid.py open" ++ CRLF) ;;
       sys_exit 1) ;;
    response <- requests_post (BASE_URL ++ "/open") [] [] (Some 5) ;;
    print "Triggering solenoid" ;;
    print ("Response: " ++ text response) ;;
    ret (Some response)
  else if String.eqb command "close" then
    when (2 <? argc)%nat
      (print (CRLF ++ "Error: Too many arguments." ++ CRLF
              ++ "Format: python remote_solenoid.py close" ++ CRLF) ;;
       sys_exit 1) ;;
    response <- requests_post (BASE_URL ++ "/close") [] [] (Some 5) ;;
    print "Triggering solenoid" ;;
    print ("Response: " ++ text response) ;;
    ret (Some response)
  else if String.eqb command "timed" then
    (if (argc <? 3)%nat then
       print ("Error: Time duration not set." ++ CRLF
              ++ "Format: python remote_solenoid.py timed [seconds]." ++ CRLF) ;;
       sys_exit 1
     else if (3 <? argc)%nat then
       print ("Error: Too many arguments." ++ CRLF
              ++ "Format: python remote_solenoid.py timed [seconds]." ++ CRLF) ;;
       sys_exit 1
     else ret tt) ;;
    let setTime := [("time", arg 2)] in
    response <- requests_post (BASE_URL ++ "/timed") setTime [] (Some 5) ;;
    print ("Turning on solenoid for " ++ arg 2 ++ " seconds.") ;;
    print ("Response: " ++ text response) ;;
    ret (Some response)
  else if String.eqb command "state" then
    when (2 <? argc)%nat
      (print (CRLF ++ "Error: Too many arguments." ++ CRLF
              ++ "Format: python remote_solenoid.py state" ++ CRLF) ;;
       sys_exit 1) ;;
    response <- requests_get (BASE_URL ++ "/state") (Some 5) ;;
    print ("Current state: " ++ text response) ;;
    ret (Some response)
  else if String.eqb command "set_thresholds" then
    when (negb (argc =? 4)%nat)
      (print "Error: Usage: python remote_solenoid.py set_thresholds <min> <max>" ;;
       print "Example: python remote_solenoid.py set_thresholds 30 60" ;;
       sys_exit 1) ;;
    let min_thresh := arg 2 in
    let max_thresh := arg 3 in
    let params := [("min", min_thresh); ("max", max_thresh)] in
    response <- requests_post (BASE_URL ++ "/irrigation_setup") [] params (Some 5) ;;
    print ("Set thresholds: Min=" ++ min_thresh ++ "%, Max=" ++ max_thresh ++ "%") ;;
    print ("Response: " ++ text response) ;;
    ret (Some response)
  else if String.eqb command "auto_irrigation" then
    when (negb (argc =? 4)%nat)
      (print "Error: Usage: python remote_solenoid.py auto_irrigation <min> <max>" ;;
       print "Example: python remote_solenoid.py auto_irrigation 30 60" ;;
       sys_exit 1) ;;
    let min_thresh := arg 2 in
    let max_thresh := arg 3 in
    let params := [("min", min_thresh); ("max", max_thresh); ("enable", "true")] in
    response <- requests_post (BASE_URL ++ "/irrigation_setup") [] params (Some 5) ;;
    print ("Auto irrigation enabled: Moisture < " ++ min_thresh ++ "% → OPEN, > "
           ++ max_thresh ++ "% → CLOSE") ;;
    print ("Response: " ++ text response) ;;
    start_auto_monitoring 30 ;;
    ret (Some response)
  else if String.eqb command "auto_on" then
    response <- requests_post (BASE_URL ++ "/auto") [] [("enable", "true")] (Some 5) ;;
    print "Automatic irrigation enabled" ;;
    print ("Response: " ++ text response) ;;
    status <- get_system_status ;;
    print_status_summary status ;;
    start_auto_monitoring 30 ;;
    ret (Some response)
  else if String.eqb command "auto_off" then
    response <- requests_post (BASE_URL ++ "/auto") [] [("enable", "false")] (Some 5) ;;
    print "Automatic irrigation disabled" ;;
    print ("Response: " ++ text response) ;;
    stop_auto_monitoring ;;
    ret (Some response)
  else if String.eqb command "status" then
    status <- get_system_status ;;
    (if status_truthy status then
       match status with
       | Some st =>
           print "System Status:" ;;
           s <- status_get st "solenoid_state" (SStr "unknown") ;;
           print ("  Solenoid State: " ++ py_str s) ;;
           a <- status_get st "auto_irrigation_enabled" (SBool false) ;;
           print ("  Auto Irrigation: " ++ (if truthy a then "Enabled" else "Disabled")) ;;
           lo <- status_get st "min_threshold" (SStr "N/A") ;;
           hi <- status_get st "max_threshold" (SStr "N/A") ;;
           print ("  Irrigation Thresholds: " ++ py_str lo ++ "% - " ++ py_str hi ++ "%") ;;
           ci <- status_get st "check_interval_seconds" (SStr "N/A") ;;
           print ("  Check Interval: " ++ py_str ci ++ " seconds") ;;
           m <- status_get st "current_moisture" (SStr "N/A") ;;
           print ("  Current Moisture: " ++ py_str m ++ "%") ;;
           act <- get_active ;;
           print ("  Monitoring Active: " ++ (if act then "Yes" else "No"))
       | None => ret tt
       end
     else print "Could not fetch system status") ;;
    ret None
  else if String.eqb command "moisture_check" then
    status <- get_system_status ;;
    match status with
    | Some (JObject d) =>
        if status_truthy status && dict_mem d "current_moisture" then
          let moisture := dict_get d "current_moisture" SNone in
          print ("Current moisture from ESP32: " ++ py_str moisture ++ "%") ;;
          print_status_summary status ;;
          ret None
        else
          print "Could not fetch moisture reading from ESP32" ;;
          ret None
    | Some (JOther true _ (Some msg)) => raise (OtherException msg)
    | _ =>
        print "Could not fetch moisture reading from ESP32" ;;
        ret None
    end
  else
    print ("Error: Unknown command '" ++ command ++ "'") ;;
    print_usage ;;
    sys_exit 1.

(** After the dispatch: [if response is not None: ...] *)
Definition check_response (response : option response) : M unit :=
  match response with
  | Some r =>
      if negb (status_code r =? 200) then
        print ("Error: Server responded with status " ++ Py.str_int (status_code r)) ;;
        print ("Response: " ++ text r)
      else print ("Response: " ++ text r)
  | None => ret tt
  end.

(** [send_command]: [SystemExit] is not an [Exception] and passes both
    handlers. *)
Definition send_command (command : string) : M unit := fun w =>
  match (response <- dispatch command ;; check_response response) w with
  | (Raise (RequestException e _), w') =>
      (print ("Error: Could not connect to ESP32 at " ++ ENTS_IP) ;;
       print ("Details: " ++ e)) w'
  | (Raise (OtherException e), w') => print ("Unexpected error: " ++ e) w'
  | r => r
  end.

(** The script body up to the dispatch.  The loop that afterwards keeps
    the main thread alive while monitoring is active is not part of it. *)
Definition main : M unit :=
  if (argc <? 2)%nat then
    print "Error: No solenoid command received." ;;
    print_usage ;;
    sys_exit 1
  else send_command (arg 1).

End Dispatch.

(** *** monitor_status_continuously, one statement at a time *)

Inductive label :=
| LStart                                 (* printed the starting line *)
| LTest                                  (* read the flag *)
| LFetch                                 (* called get_system_status *)
| LReport                                (* printed the status of a cycle *)
| LSleep                                 (* slept one second *)
| LStop.                                 (* printed the stopped line, returned *)

Definition status_print_interval : Z := 5.

(** The part of the loop body that prints, with its [except Exception]. *)
Definition report (cycle_count : Z) (status : option pyjson) : M unit := fun w =>
  let body :=
    if status_truthy status then
      if cycle_count mod status_print_interval =? 0 then
        print_status_summary status
      else
        match status with
        | Some st =>
            m <- status_get st "current_moisture" (SStr "N/A") ;;
            s <- status_get st "solenoid_state" (SStr "unknown") ;;
            su <- upper_of s ;;
            print ("Cycle " ++ Py.str_int cycle_count ++ ": Moisture=" ++ py_str m
                   ++ "%, Solenoid=" ++ su)
        | None => ret tt
        end
    else
      print ("Cycle " ++ Py.str_int cycle_count ++ ": Could not fetch system status")
  in
  match body w with
  | (Raise (RequestException e _), w')
  | (Raise (OtherException e), w') =>
      print ("Cycle " ++ Py.str_int cycle_count ++ ": Error - " ++ e) w'
  | r => r
  end.

Definition world_of {A} (r : result A * world) : world := snd r.

(** One statement of the thread: the label of what it did, its new local
    state and the new process state.  A thread that has returned does
    nothing. *)
Definition monitor_step (th : thread) (w : world)
  : option (label * thread * world) :=
  let n := cycle_count th in
  let ci := check_interval th in
  match at_pc th with
  | PStart =>
      Some (LStart, mkThread PWhile 0 ci,
            world_of (print ("Starting continuous status monitoring (interval: "
                             ++ Py.str_int ci ++ "s)") w))
  | PWhile =>
      if auto_monitoring_active w
      then Some (LTest, mkThread PFetch (n + 1) ci, w)
      else Some (LTest, mkThread PStopped n ci, w)
  | PFetch =>
      match get_system_status w with
      | (Val status, w') => Some (LFetch, mkThread (PReport status) n ci, w')
      | (_, w') => Some (LFetch, mkThread (PReport None) n ci, w')
      end
  | PReport status =>
      Some (LReport, mkThread (PFor 0) n ci, world_of (report n status w))
  | PFor i =>
      if i <? ci then
        if negb (auto_monitoring_active w)
        then Some (LTest, mkThread PWhile n ci, w)          (* break *)
        else Some (LTest, mkThread (PSleep i) n ci, w)
      else Some (LTest, mkThread PWhile n ci, w)            (* range exhausted *)
  | PSleep i => Some (LSleep, mkThread (PFor (i + 1)) n ci, w)
  | PStopped =>
      Some (LStop, mkThread PDone n ci,
            world_of (print "Status monitoring stopped" w))
  | PDone => None
  end.

Fixpoint set_nth {A} (l : list A) (i : nat) (x : A) : list A :=
  match l, i with
  | [], _ => []
  | _ :: r, O => x :: r
  | y :: r, S j => y :: set_nth r j x
  end.

Definition set_thread (w : world) (t : nat) (th : thread) : world :=
  mkWorld (auto_monitoring_active w) (monitoring_thread w)
          (set_nth (threads w) t th) (out w) (sent w).

(** *** The process: the main thread's calls interleaved with the steps of
    the threads it started *)

Inductive action :=
| CallStart (check_interval : Z)         (* main: start_auto_monitoring(ci) *)
| CallStop                               (* main: stop_auto_monitoring() *)
| Step (t : nat).                        (* thread [t] runs one statement *)

Definition act (a : action) (w : world) : world * list (nat * label) :=
  match a with
  | CallStart ci => (world_of (start_auto_monitoring ci w), [])
  | CallStop => (world_of (stop_auto_monitoring w), [])
  | Step t =>
      match nth_error (threads w) t with
      | Some th =>
          match monitor_step th w with
          | Some (l, th', w') => (set_thread w' t th', [(t, l)])
          | None => (w, [])
          end
      | None => (w, [])
      end
  end.

Fixpoint run (acts : list action) (w : world) : world * list (nat * label) :=
  match acts with
  | [] => (w, [])
  | a :: rest =>
      let '(w1, tr1) := act a w in
      let '(w2, tr2) := run rest w1 in
      (w2, (tr1 ++ tr2)%list)
  end.

Definition label_eqb (a b : label) : bool :=
  match a, b with
  | LStart, LStart | LTest, LTest | LFetch, LFetch
  | LReport, LReport | LSleep, LSleep | LStop, LStop => true
  | _, _ => false
  end.

(** How often thread [t] did [l] in a trace. *)
Definition count (t : nat) (l : label) (tr : list (nat * label)) : nat :=
  List.length (filter (fun e => Nat.eqb (fst e) t && label_eqb (snd e) l) tr).

(** How many statements thread [t] ran in a trace. *)
Definition steps_of (t : nat) (tr : list (nat * label)) : nat :=
  List.length (filter (fun e => Nat.eqb (fst e) t) tr).

Definition alive_count (w : world) : nat :=
  List.length (filter alive (threads w)).

End Network.

End Solenoid.

(* ------------------------------------------------------------------ *)
(** ** demoPullRequests.py *)

Module DirtViz.
Import Http.

Definition BASE_URL : string := "https://dirtviz.jlab.ucsc.edu/api/".

(** *** Readings *)

(** A JSON value inside a reading, and a cell of a data frame.  Numbers
    that are not integers are carried as the text Python prints for them. *)
Inductive cell :=
| CStr (s : string)
| CInt (z : Z)
| CFloat (repr : string)
| CNaN                                   (* a missing value *)
| COther (repr : string).

(** One reading: a JSON object, keys in the order they arrived. *)
Definition record : Type := list (string * cell).

(** What [response.json()] evaluates to. *)
Inductive payload :=
| Records (rs : list record)
| NotRecords (truthy : bool).

Record response := mkResponse {
  status_code : Z;
  text : string;
  reason : string;                       (* the text of the HTTPError that
                                            raise_for_status builds *)
  json : failure + payload               (* inl: what [json()] raises *)
}.

Inductive http_result :=
| Responds (r : response)
| Refused (f : failure).

Inductive result (A : Type) :=
| Val (a : A)
| Raise (f : failure).
Arguments Val {A} a.
Arguments Raise {A} f.

(** *** DirtVizClient *)

Section Client.

(** The data API and the network between. *)
Variable env : request -> http_result.

(** [response.raise_for_status()] *)
Definition raise_for_status (r : response) : result unit :=
  if (400 <=? status_code r) && (status_code r <? 600)
  then Raise (RequestException (reason r) (Some (text r)))
  else Val tt.

(** The request [get_sensor_data] builds.  [start] and [end_] are instants
    in seconds from the epoch: [astimezone(pytz.UTC)] keeps the instant. *)
Definition sensor_request (name measurement : string) (cellId : Z)
  (start end_ : option Z) : request :=
  let endpoint := "sensor/?name=" ++ name ++ "&measurement=" ++ measurement
                  ++ "&cellId=" ++ Py.str_int cellId in
  let params :=
    match start, end_ with
    | Some start_utc, Some end_utc =>
        [("startTime", Clock.strftime_http start_utc);
         ("endTime", Clock.strftime_http end_utc)]
    | _, _ => []
    end in
  mkRequest GET (BASE_URL ++ endpoint) params [] None.

(** [session.get(...)], [raise_for_status()], [json()] in a row. *)
Definition fetch_json (q : request) : result payload :=
  match env q with
  | Refused f => Raise f
  | Responds response =>
      match raise_for_status response with
      | Raise f => Raise f
      | Val _ =>
          match json response with
          | inl f => Raise f
          | inr body => Val body
          end
      end
  end.

(** [get_sensor_data]: the result and the request it sent. *)
Definition get_sensor_data (name measurement : string) (cellId : Z)
  (start end_ : option Z) : result payload * list request :=
  let q := sensor_request name measurement cellId start end_ in
  (fetch_json q, [q]).

(** The system's local time zone: [astimezone(pytz.UTC)] on a naive
    datetime, [None] where the platform refuses the conversion. *)
Variable astimezone_utc : Z -> option Z.

Definition OverflowError (msg : string) : failure := OtherException msg.

(** [timedelta(seconds=n)]: the day count is limited to nine digits, and
    is first converted to a C int. *)
Definition timedelta_seconds (n : Z) : result Z :=
  let days := n / 86400 in
  if Z.abs days <=? 999999999 then Val n
  else if (- 2 ^ 31 <=? days) && (days <? 2 ^ 31) then
    Raise (OverflowError ("days=" ++ Py.str_int days
                          ++ "; must have magnitude <= 999999999"))
  else Raise (OverflowError "Python int too large to convert to C int").

(** [dt - delta] on naive datetimes, in seconds from the epoch. *)
Definition datetime_sub (dt delta : Z) : result Z :=
  let r := dt - delta in
  if (Clock.datetime_min <=? r) && (r <=? Clock.datetime_max) then Val r
  else Raise (OverflowError "date value out of range").

Definition astimezone (dt : Z) : result Z :=
  match astimezone_utc dt with
  | Some u => Val u
  | None => Raise (OverflowError "timestamp out of range for platform time_t")
  end.

Definition stream_request (cell_id : Z) (start_utc end_utc : Z) : request :=
  let endpoint := "sensor/?name=sen0308&measurement=humidity&cellId="
                  ++ Py.str_int cell_id in
  mkRequest GET (BASE_URL ++ endpoint)
    [("startTime", Clock.strftime_http start_utc);
     ("endTime", Clock.strftime_http end_utc);
     ("stream", "true")]
    [] (Some 15).

(** [e.response.text[:200]] *)
Definition first200 (s : string) : string := String.substring 0 200 s.

(** What a call did besides returning. *)
Record effects := mkEffects {
  printed : list string;                 (* one entry per print() call *)
  requested : list request               (* HTTP requests sent *)
}.

(** [get_sen0308_stream]; [now] is what [datetime.now()] returns. *)
Definition get_sen0308_stream (now : Z) (cell_id : Z) (time_window : Z)
  : result payload * effects :=
  let end_time := now in
  match timedelta_seconds time_window with
  | Raise f => (Raise f, mkEffects [] [])
  | Val delta =>
  match datetime_sub end_time delta with
  | Raise f => (Raise f, mkEffects [] [])
  | Val start_time =>
  match astimezone start_time with
  | Raise f => (Raise f, mkEffects [] [])
  | Val start_utc =>
  match astimezone end_time with
  | Raise f => (Raise f, mkEffects [] [])
  | Val end_utc =>
      (* try: *)
      let line := "Streaming sen0308 humidity data from last "
                  ++ Py.str_int time_window ++ " seconds..." in
      let q := stream_request cell_id start_utc end_utc in
      match fetch_json q with
      | Val body => (Val body, mkEffects [line] [q])
      | Raise (RequestException e resp) =>
          (Val (Records []),
           mkEffects
             (line :: ("Error getting stream: " ++ e)
              :: match resp with
                 | Some t => ["Response: " ++ first200 t ++ "..."]
                 | None => []
                 end)
             [q])
      | Raise (OtherException e) =>
          (Val (Records []), mkEffects [line; "Unexpected error: " ++ e] [q])
      end
  end end end end.

End Client.

(** Lines 287-296 of [handle_sen0308_stream]: the custom time window typed
    by the user, [None] when the menu comes again without a request. *)
Definition custom_time_window (line : string) : option Z :=
  match Py.int line with
  | Some time_window => if time_window <=? 0 then None else Some time_window
  | None => None
  end.

(** *** Data frames *)

(** A [pandas.DataFrame], column by column.  Every column holds [nrows]
    cells; [len(df)] is [nrows]. *)
Record DataFrame := mkDF {
  nrows : nat;
  cols : list (string * list cell)
}.

Definition columns (df : DataFrame) : list string := map fst (cols df).

(** [k in df.columns] *)
Definition has_col (df : DataFrame) (k : string) : bool :=
  existsb (String.eqb k) (columns df).

Inductive exn :=
| KeyError (missing : list string)       (* a column label that is not there *)
| LibraryError (what : string).          (* raised inside pandas *)

(** [df[k]] for one label (labels are distinct in a frame built from JSON
    records). *)
Fixpoint find_col (cs : list (string * list cell)) (k : string)
  : option (list cell) :=
  match cs with
  | [] => None
  | (k', v) :: rest => if String.eqb k' k then Some v else find_col rest k
  end.

Definition get_col (df : DataFrame) (k : string) : exn + list cell :=
  match find_col (cols df) k with
  | Some v => inr v
  | None => inl (KeyError [k])
  end.

(** [df[labels]] for a list of labels: the columns carrying each label, in
    the order of the labels; [KeyError] when a label has no column. *)
Definition matching (df : DataFrame) (k : string) : list (string * list cell) :=
  filter (fun c => String.eqb (fst c) k) (cols df).

Definition select (df : DataFrame) (labels : list string) : exn + DataFrame :=
  match filter (fun k => negb (has_col df k)) labels with
  | [] => inr (mkDF (nrows df) (flat_map (matching df) labels))
  | missing => inl (KeyError missing)
  end.

(** [df[k] = v] for a label that is already a column. *)
Definition assign (df : DataFrame) (k : string) (v : list cell) : DataFrame :=
  mkDF (nrows df)
       (map (fun c => if String.eqb (fst c) k then (fst c, v) else c) (cols df)).

(** [df.rename(columns=mapping)] *)
Fixpoint renamed (mapping : list (string * string)) (k : string) : string :=
  match mapping with
  | [] => k
  | (old, new) :: rest => if String.eqb old k then new else renamed rest k
  end.

Definition rename (df : DataFrame) (mapping : list (string * string)) : DataFrame :=
  mkDF (nrows df) (map (fun c => (renamed mapping (fst c), snd c)) (cols df)).

(** [pd.DataFrame(records)]: one column per key, in order of first
    appearance; a reading without the key gets a missing value. *)
Definition add_key (seen : list string) (k : string) : list string :=
  if existsb (String.eqb k) seen then seen else (seen ++ [k])%list.

Definition all_keys (rs : list record) : list string :=
  fold_left (fun seen r => fold_left add_key (map fst r) seen) rs [].

Fixpoint field (r : record) (k : string) : cell :=
  match r with
  | [] => CNaN
  | (k', v) :: rest => if String.eqb k' k then v else field rest k
  end.

Definition DataFrame_of (rs : list record) : DataFrame :=
  mkDF (List.length rs)
       (map (fun k => (k, map (fun r => field r k) rs)) (all_keys rs)).

(** [str(x)] for a cell *)
Definition cell_str (c : cell) : string :=
  match c with
  | CStr s => s
  | CInt z => Py.str_int z
  | CFloat repr => repr
  | CNaN => "nan"
  | COther repr => repr
  end.

(** *** format_data_display *)

Inductive output :=
| Line (s : string)                      (* print(s) *)
| Table (display_df : DataFrame).        (* print(tabulate(display_df, ...)) *)

Section Formatter.

(** [pd.to_datetime(col).dt.tz_localize('UTC')]: the instants of a column
    in seconds from the epoch ([None] for a missing one), or no result
    when pandas raises. *)
Variable to_datetime_utc : list cell -> option (list (option Z)).

(** The offset of America/Los_Angeles from UTC at an instant, in seconds. *)
Variable pacific_offset : Z -> Z.

(** [f"{col.mean():.2f}"] and [f"{col.max():.2f}"], or no result when
    pandas raises. *)
Variable fmt_mean : list cell -> option string.
Variable fmt_max : list cell -> option string.

(** [.dt.tz_convert(ca_tz)] then [.dt.strftime("%m-%d-%Y %H:%M:%S")] *)
Definition display_time (u : option Z) : cell :=
  match u with
  | Some t => CStr (Clock.strftime_display (t + pacific_offset t))
  | None => CNaN
  end.

(** Lines 88-94: timestamp first, converted and formatted. *)
Definition timestamp_first (df : DataFrame) : exn + DataFrame :=
  if has_col df "timestamp" then
    let cols :=
      "timestamp" :: filter (fun col => negb (String.eqb col "timestamp")) (columns df) in
    match select df cols with
    | inl e => inl e
    | inr df1 =>
        match get_col df1 "timestamp" with
        | inl e => inl e
        | inr ts =>
            match to_datetime_utc ts with
            | None => inl (LibraryError "to_datetime")
            | Some us => inr (assign df1 "timestamp" (map display_time us))
            end
        end
    end
  else inr df.

(** Lines 99-115: (unit, measurement_name, column_name) *)
Definition labels (df : DataFrame) (measurement_type : string)
  : string * string * string :=
  let named (unit measurement_name : string) :=
    (unit, measurement_name, measurement_name ++ " (" ++ unit ++ ")") in
  if String.eqb measurement_type "pressure" then named "kPa" "Pressure"
  else if String.eqb measurement_type "humidity" then named "%" "Humidity"
  else if String.eqb measurement_type "flow rate" then named "L/min" "Flow Rate"
  else
    let unit :=
      match find_col (cols df) "unit" with
      | Some (c :: _) => if (0 <? nrows df)%nat then cell_str c else "units"
      | _ => "units"
      end in
    named unit (Py.capitalize measurement_type).

Definition last_cell (l : list cell) : cell := last l CNaN.
Definition first_cell (l : list cell) : cell := hd CNaN l.

(** Lines 117-128: the summary, as (key, value) pairs in order. *)
Definition stats (df : DataFrame) (data_values : list cell) (cell_id : Z)
  (measurement_name column_name : string) : exn + list (string * string) :=
  let time_range : exn + string :=
    if (0 <? nrows df)%nat then
      match get_col df "timestamp" with
      | inl e => inl e
      | inr ts => inr (cell_str (first_cell ts) ++ " to " ++ cell_str (last_cell ts))
      end
    else inr "N/A" in
  let stat (f : list cell -> option string) (what : string) : exn + string :=
    match data_values with
    | [] => inr "N/A"
    | _ => match f data_values with
           | Some s => inr s
           | None => inl (LibraryError what)
           end
    end in
  match time_range with
  | inl e => inl e
  | inr tr =>
      match stat fmt_mean "mean" with
      | inl e => inl e
      | inr avg =>
          match stat fmt_max "max" with
          | inl e => inl e
          | inr mx =>
              inr [("Cell ID", Py.str_int cell_id);
                   ("Measurement Type", measurement_name);
                   ("Time Range", tr);
                   ("Data Points", Py.str_int (Z.of_nat (nrows df)));
                   ("Avg " ++ column_name, avg);
                   ("Max " ++ column_name, mx)]
          end
      end
  end.

Definition bullet : string := "â€¢".

Definition stat_line (kv : string * string) : output :=
  Line (bullet ++ " " ++ Py.ljust (fst kv) 20 ++ ": " ++ snd kv).

(** What the function printed, and the exception it raised if any. *)
Definition format_data_display (df : DataFrame) (cell_id : Z)
  (measurement_type : string) : list output * option exn :=
  match timestamp_first df with
  | inl e => ([], Some e)
  | inr df =>
      let data_values :=
        match find_col (cols df) "data" with
        | Some v => v
        | None => []
        end in
      let '(unit, measurement_name, column_name) := labels df measurement_type in
      match stats df data_values cell_id measurement_name column_name with
      | inl e => ([], Some e)
      | inr st =>
          let column_rename :=
            [("timestamp", "Measurement Time (PT)"); ("data", column_name)] in
          let df := rename df column_rename in
          let header :=
            ([Line (Py.LF ++ Py.repeat_str "=" 70);
              Line (Py.center ("CELL " ++ Py.str_int cell_id ++ " "
                               ++ Py.upper measurement_name ++ " DATA SUMMARY") 70)]
             ++ map stat_line st
             ++ [Line (Py.repeat_str "=" 70 ++ Py.LF)])%list in
          let footer := Line (Py.LF ++ Py.repeat_str "=" 80) in
          if (0 <? nrows df)%nat then
            let display_columns := ["Measurement Time (PT)"; column_name] in
            match select df display_columns with
            | inl e => ((header ++ [Line "DATA BY TIMESTAMPS:"])%list, Some e)
            | inr display_df =>
                ((header ++ [Line "DATA BY TIMESTAMPS:"; Table display_df; footer])%list,
                 None)
            end
          else
            ((header ++ [Line "No data available to display"; footer])%list, None)
      end
  end.

End Formatter.

(** *** get_valid_date *)

(** Midnight of a day in America/Los_Angeles. *)
Record date := mkDate { year : Z; month : Z; day : Z }.

(** [year, month, day = map(int, date_input.split('-'))]; [None] is the
    [ValueError] of a wrong count or of a part that is no integer. *)
Definition parse_date (date_input : string) : option (Z * Z * Z) :=
  match map Py.int (Py.split "-" date_input) with
  | [Some y; Some m; Some d] => Some (y, m, d)
  | _ => None
  end.

(** [datetime(year, month, day, 0, 0, 0)]; [None] is [ValueError]. *)
Definition datetime_ymd (y m d : Z) : option date :=
  if (1 <=? y) && (y <=? 9999) && (1 <=? m) && (m <=? 12)
     && (1 <=? d) && (d <=? Clock.days_in_month y m)
  then Some (mkDate y m d) else None.

Definition out_of_bounds (y m d : Z) : bool :=
  (y <? 2000) || (2100 <? y) || (m <? 1) || (12 <? m) || (d <? 1) || (31 <? d).

Inductive io :=
| Prompted (s : string)                  (* written by input(prompt) *)
| Printed (s : string).                  (* print(s) *)

Inductive date_outcome :=
| Returned (d : date)
| EOFError.                              (* input() at the end of input *)

Definition values_message : string :=
  "Invalid date values. Please enter a valid date between 2000-2100.".
Definition format_message : string :=
  "Invalid date format. Please use YYYY-MM-DD format (e.g., 2025-08-21).".

(** [inputs] are the lines [input()] will return, [today] the current day
    in Los Angeles.  One turn of the [while True] per line. *)
Fixpoint get_valid_date (today : date) (prompt : string) (inputs : list string)
  : date_outcome * list io :=
  match inputs with
  | [] => (EOFError, [Prompted prompt])
  | date_input :: rest =>
      let again (msg : string) :=
        let '(r, o) := get_valid_date today prompt rest in
        (r, Prompted prompt :: Printed msg :: o) in
      if String.eqb date_input "" then (Returned today, [Prompted prompt])
      else
        match parse_date date_input with
        | None => again format_message
        | Some (y, m, d) =>
            if out_of_bounds y m d then again values_message
            else
              match datetime_ymd y m d with
              | Some dt => (Returned dt, [Prompted prompt])
              | None => again format_message
              end
        end
  end.

End DirtViz.

(* ------------------------------------------------------------------ *)
(** ** Vocabulary of the statements *)

Module SolenoidSpec.
Import Http Solenoid.

(** A computation that leaves the flag, the thread handle and the threads
    alone: it only prints or talks to the controller. *)
Definition quiet {A} (m : M A) : Prop :=
  forall w,
    auto_monitoring_active (snd (m w)) = auto_monitoring_active w
    /\ monitoring_thread (snd (m w)) = monitoring_thread w
    /\ threads (snd (m w)) = threads w.

(** A computation that never calls [sys.exit] and only adds to the
    requests sent. *)
Definition tame {A} (m : M A) : Prop :=
  forall w,
    (forall c, fst (m w) <> Exit c)
    /\ exists l, sent (snd (m w)) = (sent w ++ l)%list.

(** Every thread but the one in [monitoring_thread] has returned. *)
Definition others_dead (w : world) : Prop :=
  forall t, monitoring_thread w <> Some t -> thread_is_alive w t = false.

(** Where thread [t] stands; a thread that was never created counts as
    returned. *)
Definition pc_of (w : world) (t : nat) : pc :=
  match nth_error (threads w) t with
  | Some th => at_pc th
  | None => PDone
  end.

(** What a thread standing at [p] can still do once the flag is clear. *)
Definition reports_left (p : pc) : nat :=
  match p with
  | PFetch | PReport _ => 1
  | _ => 0
  end.
Definition fetches_left (p : pc) : nat :=
  match p with
  | PFetch => 1
  | _ => 0
  end.
Definition sleeps_left (p : pc) : nat :=
  match p with
  | PSleep _ => 1
  | _ => 0
  end.
Definition steps_left (p : pc) : nat :=
  match p with
  | PStart => 3
  | PWhile => 2
  | PFetch => 5
  | PReport _ => 4
  | PFor _ => 3
  | PSleep _ => 4
  | PStopped => 1
  | PDone => 0
  end.

(** How many turns a schedule gives to thread [t]. *)
Fixpoint turns (t : nat) (acts : list action) : nat :=
  match acts with
  | [] => 0
  | Step t' :: rest => (if Nat.eqb t' t then 1 else 0) + turns t rest
  | _ :: rest => turns t rest
  end.

(** Whether one action is a turn of thread [t]. *)
Definition turn (t : nat) (a : action) : nat :=
  match a with
  | Step t' => if Nat.eqb t' t then 1%nat else 0%nat
  | _ => 0%nat
  end.

(** One if a statement carries the label looked for. *)
Definition tick (l l' : label) : nat := if label_eqb l l' then 1%nat else 0%nat.

(** The requests of the [timed] and of the [auto_on] and [auto_off]
    commands. *)
Definition timed_request (s : string) : request :=
  mkRequest POST (BASE_URL ++ "/timed") [("time", s)] [] (Some 5).

Definition auto_request (enable : string) : request :=
  mkRequest POST (BASE_URL ++ "/auto") [] [("enable", enable)] (Some 5).

(** A controller that always answers with the same status. *)
Definition steady (st : pyjson) : nat -> request -> http_result :=
  fun _ _ => Responds (mkResponse 200 "OK" (Some st)).

Definition moist41 : pyjson :=
  JObject [("current_moisture", SInt 41); ("solenoid_state", SStr "open")].

End SolenoidSpec.

Module DirtVizSpec.
Import Http DirtViz.

(** An API that cannot be reached. *)
Definition offline : request -> http_result :=
  fun _ => Refused (RequestException "connection refused" None).

(** A machine whose local time is eight hours behind UTC. *)
Definition eight_behind : Z -> option Z := fun local => Some (local + 28800).

(** The instants pandas reads from two timestamp texts. *)
Definition known_instants : list (string * Z) :=
  [("2025-08-21 07:06:40", 1755760000); ("2025-08-21 07:07:40", 1755760060)].

Fixpoint instant_of (table : list (string * Z)) (s : string) : option Z :=
  match table with
  | [] => None
  | (k, v) :: rest => if String.eqb k s then Some v else instant_of rest s
  end.

(** [pd.to_datetime] on columns made of those texts and of missing
    values; it raises on anything else. *)
Fixpoint sample_to_datetime (col : list cell) : option (list (option Z)) :=
  match col with
  | [] => Some []
  | c :: rest =>
      match sample_to_datetime rest with
      | None => None
      | Some us =>
          match c with
          | CStr s => option_map (fun u => Some u :: us) (instant_of known_instants s)
          | CNaN => Some (None :: us)
          | _ => None
          end
      end
  end.

(** Pacific daylight time, as in August. *)
Definition pdt : Z -> Z := fun _ => -25200.

Definition always (s : string) : list cell -> option string := fun _ => Some s.

(** Two readings as the API delivers them. *)
Definition two_readings : list record :=
  [[("timestamp", CStr "2025-08-21 07:06:40"); ("data", CInt 41)];
   [("timestamp", CStr "2025-08-21 07:07:40"); ("data", CInt 43)]].

(** A reading whose value already sits under the display label. *)
Definition prelabelled : list record :=
  [[("timestamp", CStr "2025-08-21 07:06:40"); ("Humidity (%)", CInt 41)]].

(** A reading with neither timestamp nor data. *)
Definition bare : list record := [[("value", CInt 41)]].

Definition column_name (df : DataFrame) (measurement_type : string) : string :=
  snd (labels df measurement_type).
Definition measurement_name (df : DataFrame) (measurement_type : string) : string :=
  snd (fst (labels df measurement_type)).

Definition rule70 : string := Py.repeat_str "=" 70.
Definition rule80 : string := Py.repeat_str "=" 80.

(** The summary block as printed for [cell_id], with the given time
    range, count, mean and max. *)
Definition summary (df : DataFrame) (cell_id : Z) (measurement_type : string)
  (time_range points avg mx : string) : list output :=
  let name := measurement_name df measurement_type in
  let col := column_name df measurement_type in
  [Line (Py.LF ++ rule70);
   Line (Py.center ("CELL " ++ Py.str_int cell_id ++ " " ++ Py.upper name
                    ++ " DATA SUMMARY") 70);
   stat_line ("Cell ID", Py.str_int cell_id);
   stat_line ("Measurement Type", name);
   stat_line ("Time Range", time_range);
   stat_line ("Data Points", points);
   stat_line ("Avg " ++ col, avg);
   stat_line ("Max " ++ col, mx);
   Line (rule70 ++ Py.LF)].



End DirtVizSpec.

(* ------------------------------------------------------------------ *)
(** ** remote_solenoid.py: the script around [send_command] *)

Module SolenoidScript.
Import Http Solenoid.
Local Open Scope py_scope.

(** [cleanup], registered with [atexit]. *)
Definition cleanup : M unit := stop_auto_monitoring.


Section Script.

Variable env : nat -> request -> http_result.
Variable argv : list string.


End Script.

(** [KeyboardInterrupt] in the waiting loop: the handler, then the end of
    the script with its [atexit] handler. *)
Definition keyboard_interrupt : M unit :=
  print (Py.LF ++ "Stopping auto monitoring...") ;;
  stop_auto_monitoring ;;
  cleanup.

End SolenoidScript.

Module SolenoidTerms.
Import Http Solenoid.

(** A request with the five-second timeout. *)
Definition timeout5 (q : request) : Prop := req_timeout q = Some 5.

(** The flag is set only while the thread in [monitoring_thread] is
    alive. *)
Definition linked (w : world) : Prop :=
  auto_monitoring_active w = true -> monitor_alive w = true.

(** A computation that exits with code 1 if at all, sends only requests
    with the five-second timeout, only adds to what was printed, and
    keeps the flag linked to a live thread. *)
Definition orderly {A} (m : M A) : Prop :=
  forall w,
    (forall c, fst (m w) = Exit c -> c = 1)
    /\ (exists l, sent (snd (m w)) = (sent w ++ l)%list /\ Forall timeout5 l)
    /\ (exists o, out (snd (m w)) = (out w ++ o)%list)
    /\ (linked w -> linked (snd (m w))).

Definition is_str (v : scalar) : bool :=
  match v with
  | SStr _ => true
  | _ => false
  end.

(** The status values on which printing the summary raises: a value that
    is true and not a dict, or a dict whose solenoid state is no string. *)
Definition summary_fails (status : option pyjson) : bool :=
  status_truthy status
  && match status with
     | Some (JObject d) => negb (is_str (dict_get d "solenoid_state" (SStr "unknown")))
     | Some (JOther _ _ _) => true
     | None => false
     end.

Definition is_stop (a : action) : bool :=
  match a with
  | CallStop => true
  | _ => false
  end.

Definition is_step (a : action) : bool :=
  match a with
  | Step _ => true
  | _ => false
  end.

(** The thread in [monitoring_thread] is inside its while loop. *)
Definition looping (w : world) : Prop :=
  exists t th,
    monitoring_thread w = Some t
    /\ nth_error (threads w) t = Some th
    /\ at_pc th <> PStopped /\ at_pc th <> PDone.

(** The labels of one inter-cycle sleep of [n] seconds by thread [t]. *)
Fixpoint naps (t : nat) (n : nat) : list (nat * label) :=
  match n with
  | O => []
  | S k => (t, LTest) :: (t, LSleep) :: naps t k
  end.

(** The commands of the dispatch. *)
Definition commands : list string :=
  ["open"; "close"; "timed"; "state"; "set_thresholds"; "auto_irrigation";
   "auto_on"; "auto_off"; "status"; "moisture_check"].

Definition status_request : request :=
  mkRequest GET (BASE_URL ++ "/status") [] [] (Some 5).

Definition setup_request (data : list (string * string)) : request :=
  mkRequest POST (BASE_URL ++ "/irrigation_setup") [] data (Some 5).

Definition unreachable_lines (e : string) : list string :=
  ["Error: Could not connect to ESP32 at " ++ ENTS_IP; "Details: " ++ e].

End SolenoidTerms.

Module DirtVizTerms.
Import Http DirtViz.

(** What [get_valid_date] makes of one line: the date it returns for it,
    or nothing when it asks again. *)
Definition accepted (today : date) (line : string) : option date :=
  if String.eqb line "" then Some today
  else
    match parse_date line with
    | Some (y, m, d) => if out_of_bounds y m d then None else datetime_ymd y m d
    | None => None
    end.

(** The message a line that is not accepted is answered with. *)
Definition complaint (line : string) : string :=
  match parse_date line with
  | Some (y, m, d) => if out_of_bounds y m d then values_message else format_message
  | None => format_message
  end.

(** A date of the calendar between 2000 and 2100. *)
Definition real_date (d : date) : Prop :=
  2000 <= year d <= 2100
  /\ 1 <= month d <= 12
  /\ 1 <= day d <= Clock.days_in_month (year d) (month d).

End DirtVizTerms.

(* ------------------------------------------------------------------ *)
(** ** demoPullRequests.py: the menus *)

Module DirtVizMenu.
Import Http DirtViz.

(** *** The console *)

(** What the program writes and sends, in order. *)
Inductive event :=
| Asked (prompt : string)                (* written by input(prompt) *)
| Said (line : string)                   (* print(line) *)
| Drew (display_df : DataFrame)          (* print(tabulate(display_df, ...)) *)
| Requested (q : request).               (* an HTTP request sent *)

Record console := mkConsole {
  unread : list string;                  (* the lines input() will return *)
  consumed : nat;                        (* lines read so far *)
  log : list event                       (* latest last *)
}.

(** The exceptions of the menus, by the handler that takes them. *)
Inductive trouble :=
| ValueError                             (* int() on text that is no integer,
                                            an unpacking of a wrong count,
                                            datetime() on a day that is none *)
| EndOfInput                             (* EOFError: input() at the end of input *)
| Overflow (msg : string)                (* OverflowError in the datetime arithmetic *)
| HTTPError (msg : string) (body : string)   (* built by raise_for_status *)
| Requests (f : failure)                 (* raised inside requests otherwise *)
| Pandas (e : exn).                      (* raised inside pandas *)

Inductive answer (A : Type) :=
| Done (a : A)
| Raised (t : trouble)
| Starved.                               (* a loop that ran out of turns *)
Arguments Done {A} a.
Arguments Raised {A} t.
Arguments Starved {A}.

Definition IO (A : Type) : Type := console -> answer A * console.

Definition pure {A : Type} (a : A) : IO A := fun c => (Done a, c).

Definition andthen {A B : Type} (m : IO A) (k : A -> IO B) : IO B := fun c =>
  match m c with
  | (Done a, c') => k a c'
  | (Raised t, c') => (Raised t, c')
  | (Starved, c') => (Starved, c')
  end.

Declare Scope menu_scope.
Delimit Scope menu_scope with menu.
Notation "x <- m ;; k" := (andthen m (fun x => k))
  (at level 61, m at next level, right associativity) : menu_scope.
Notation "m ;; k" := (andthen m (fun _ => k))
  (at level 61, right associativity) : menu_scope.
Local Open Scope menu_scope.

Definition throw {A : Type} (t : trouble) : IO A := fun c => (Raised t, c).

Definition emit (e : event) : IO unit := fun c =>
  (Done tt, mkConsole (unread c) (consumed c) (log c ++ [e])).

Definition print_line (line : string) : IO unit := emit (Said line).

Fixpoint emit_all (es : list event) : IO unit :=
  match es with
  | [] => pure tt
  | e :: rest => emit e ;; emit_all rest
  end.

(** [input(prompt)] *)
Definition input (prompt : string) : IO string := fun c =>
  match unread c with
  | [] => (Raised EndOfInput, mkConsole [] (consumed c) (log c ++ [Asked prompt]))
  | line :: rest =>
      (Done line, mkConsole rest (S (consumed c)) (log c ++ [Asked prompt]))
  end.

(** [int(s)] *)
Definition to_int (s : string) : IO Z :=
  match Py.int s with
  | Some z => pure z
  | None => throw ValueError
  end.

(** [try: body except ...: handler] *)
Definition try {A : Type} (body : IO A) (handler : trouble -> IO A) : IO A := fun c =>
  match body c with
  | (Raised t, c') => handler t c'
  | r => r
  end.

(** How a turn of a [while True] ends: [break] or [return], or the next
    turn. *)
Inductive verdict (A : Type) :=
| Break (a : A)
| Continue.
Arguments Break {A} a.
Arguments Continue {A}.

Fixpoint iterate {A : Type} (fuel : nat) (body : IO (verdict A)) : IO A :=
  match fuel with
  | O => fun c => (Starved, c)
  | S fuel' =>
      v <- body ;;
      match v with
      | Break a => pure a
      | Continue => iterate fuel' body
      end
  end.

(** [while True: body], for a body that reads a line in every turn that
    leads to the next: one turn more than there are lines. *)
Definition while_true {A : Type} (body : IO (verdict A)) : IO A := fun c =>
  iterate (S (List.length (unread c))) body c.

(** *** The menus *)

Definition display_sen0308_stream_menu : IO unit :=
  print_line (Py.LF ++ Py.repeat_str "=" 50) ;;
  print_line (Py.center "SEN0308 HUMIDITY STREAMING MENU" 50) ;;
  print_line (Py.repeat_str "=" 50) ;;
  print_line "1. Last 10 seconds of data" ;;
  print_line "2. Last 30 seconds of data" ;;
  print_line "3. Last 60 seconds of data" ;;
  print_line "4. Custom time window" ;;
  print_line "5. Back to main menu" ;;
  print_line (Py.repeat_str "=" 50).

Definition display_menu : IO unit :=
  print_line (Py.LF ++ Py.repeat_str "=" 50) ;;
  print_line (Py.center "DIRT VIZ SENSOR DATA VIEWER" 50) ;;
  print_line (Py.repeat_str "=" 50) ;;
  print_line "Available Cells and Measurements:" ;;
  print_line "1. Cell 1350 - Pressure (kPa)" ;;
  print_line "2. Cell 1353 - Flow Rate (L/min)" ;;
  print_line "3. Cell 1448 - Soil Humidity (%)" ;;
  print_line "4. sen0308 Real-time Humidity Stream" ;;
  print_line "5. Custom Cell (enter cell ID and measurement type)" ;;
  print_line "6. Exit" ;;
  print_line (Py.repeat_str "=" 50).

Record cell_info := mkInfo {
  cell_id : Z;
  sensor_name : string;
  measurement : string
}.

Definition get_cell_info (choice : Z) : option cell_info :=
  if choice =? 1 then Some (mkInfo 1350 "sen0257" "pressure")
  else if choice =? 2 then Some (mkInfo 1353 "yfs210c" "flow")
  else if choice =? 3 then Some (mkInfo 1448 "sen0308" "humidity")
  else None.

Definition display_time_range_menu : IO unit :=
  print_line (Py.LF ++ Py.repeat_str "=" 40) ;;
  print_line (Py.center "SELECT TIME RANGE" 40) ;;
  print_line (Py.repeat_str "=" 40) ;;
  print_line "1. Today's data" ;;
  print_line "2. This week's data" ;;
  print_line "3. Custom date range" ;;
  print_line (Py.repeat_str "=" 40).

(** *** Datetimes with a time zone *)

(** An aware datetime: the reading of the local clock in seconds from
    1970-01-01 00:00:00, and the offset from UTC that its tzinfo carries.
    Microseconds are left out: no format of the program shows them. *)
Record aware := mkAware { wall : Z; utcoffset : Z }.

(** The instant, as [astimezone(pytz.UTC)] reads it. *)
Definition instant (a : aware) : Z := wall a - utcoffset a.

(** [.replace(hour=0, minute=0, second=0, microsecond=0)] *)
Definition midnight (a : aware) : aware :=
  mkAware (wall a - wall a mod 86400) (utcoffset a).

(** [.replace(hour=23, minute=59, second=59)] *)
Definition end_of_day (a : aware) : aware :=
  mkAware (wall a - wall a mod 86400 + 86399) (utcoffset a).

(** [a - timedelta(days=n)]: on the local clock, the tzinfo kept. *)
Definition minus_days (a : aware) (n : Z) : IO aware :=
  let w := wall a - n * 86400 in
  if (Clock.datetime_min <=? w) && (w <=? Clock.datetime_max)
  then pure (mkAware w (utcoffset a))
  else throw (Overflow "date value out of range").

(** [a.astimezone(pytz.UTC)], in seconds from the epoch. *)
Definition astimezone_UTC (a : aware) : IO Z :=
  let u := instant a in
  if (Clock.datetime_min <=? u) && (u <=? Clock.datetime_max)
  then pure u
  else throw (Overflow "date value out of range").

(** [pd.DataFrame(data).empty] *)
Definition empty (df : DataFrame) : bool :=
  (nrows df =? 0)%nat || match cols df with [] => true | _ => false end.

(** [if data:] *)
Definition has_data (data : payload) : bool :=
  match data with
  | Records [] => false
  | Records (_ :: _) => true
  | NotRecords t => t
  end.

Definition message (f : failure) : string :=
  match f with
  | RequestException msg _ => msg
  | OtherException msg => msg
  end.

(** What [get_sen0308_stream] printed and sent, in order: the line that
    announces the request, the request, the diagnostics. *)
Definition events_of (e : effects) : list event :=
  match printed e with
  | [] => map Requested (requested e)
  | line :: more =>
      (Said line :: map Requested (requested e) ++ map Said more)%list
  end.

Definition event_of_output (o : output) : event :=
  match o with
  | Line s => Said s
  | Table display_df => Drew display_df
  end.

Section Menus.

(** The data API and the network between. *)
Variable env : request -> http_result.

(** The libraries, as in the client and the formatter. *)
Variable astimezone_utc : Z -> option Z.
Variable to_datetime_utc : list cell -> option (list (option Z)).
Variable pacific_offset : Z -> Z.
Variable fmt_mean fmt_max : list cell -> option string.

(** [datetime.now(ca_tz)] and [datetime.now()] once [n] lines have been
    read. *)
Variable now_ca : nat -> aware.
Variable now_local : nat -> Z.

(** [ca_tz.localize]: the offset of America/Los_Angeles at a reading of
    its clock. *)
Variable localize : Z -> Z.

(** [pd.DataFrame(data)] for a body that is no list of readings. *)
Variable frame_of_other : exn + DataFrame.

(** Whether an exception raised inside requests, or inside pandas, is a
    [ValueError]; [str(e)] for an exception of pandas. *)
Variable requests_ValueError : failure -> bool.
Variable pandas_ValueError : string -> bool.
Variable exn_text : exn -> string.

(** [except ValueError] takes the exception: [None]; or [str(e)] for the
    handlers after it. *)
Definition as_exception (t : trouble) : option string :=
  match t with
  | ValueError => None
  | EndOfInput => Some "EOF when reading a line"
  | Overflow msg => Some msg
  | HTTPError msg _ => Some msg
  | Requests f => if requests_ValueError f then None else Some (message f)
  | Pandas (KeyError missing) => Some (exn_text (KeyError missing))
  | Pandas (LibraryError what) =>
      if pandas_ValueError what then None else Some (exn_text (LibraryError what))
  end.

Definition datetime_now_ca : IO aware := fun c => (Done (now_ca (consumed c)), c).
Definition datetime_now : IO Z := fun c => (Done (now_local (consumed c)), c).

(** [ca_tz.localize(datetime(year, month, day, 0, 0, 0))] *)
Definition localized (y m d : Z) : IO aware :=
  match datetime_ymd y m d with
  | Some dt =>
      let w := Clock.days_from_civil (year dt) (month dt) (day dt) * 86400 in
      pure (mkAware w (localize w))
  | None => throw ValueError
  end.

(** [get_valid_date], on the console. *)
Definition get_valid_datetime (prompt : string) : IO aware :=
  while_true (
    date_input <- input prompt ;;
    if String.eqb date_input "" then
      now <- datetime_now_ca ;;
      pure (Break (midnight now))
    else
      try (
        match parse_date date_input with
        | None => throw ValueError
        | Some (y, m, d) =>
            if out_of_bounds y m d then
              print_line values_message ;;
              pure Continue
            else
              dt <- localized y m d ;;
              pure (Break dt)
        end)
      (fun t =>
         match t with
         | ValueError => print_line format_message ;; pure Continue
         | _ => throw t
         end)).

Definition get_time_range : IO (aware * aware) :=
  display_time_range_menu ;;
  while_true (
    try (
      line <- input (Py.LF ++ "Enter your choice (1-3): ") ;;
      time_choice <- to_int line ;;
      now_ca <- datetime_now_ca ;;
      if time_choice =? 1 then
        pure (Break (midnight now_ca, now_ca))
      else if time_choice =? 2 then
        start <- minus_days (midnight now_ca) 7 ;;
        pure (Break (start, now_ca))
      else if time_choice =? 3 then
        start <- get_valid_datetime "Enter start date (YYYY-MM-DD): " ;;
        end_ <- get_valid_datetime "Enter end date (YYYY-MM-DD): " ;;
        pure (Break (start, end_of_day end_))
      else
        print_line "Invalid choice. Please select 1-3." ;;
        pure Continue)
    (fun t =>
       match t with
       | ValueError => print_line "Please enter a valid number." ;; pure Continue
       | _ => throw t
       end)).

(** [client.get_sensor_data(sensor_name, measurement, cell_id, start, end)] *)
Definition sensor_data (name measurement : string) (cellId : Z)
  (start end_ : aware) : IO payload :=
  start_utc <- astimezone_UTC start ;;
  end_utc <- astimezone_UTC end_ ;;
  let q := sensor_request name measurement cellId (Some start_utc) (Some end_utc) in
  emit (Requested q) ;;
  match env q with
  | Refused f => throw (Requests f)
  | Responds response =>
      match raise_for_status response with
      | Raise _ => throw (HTTPError (reason response) (text response))
      | Val _ =>
          match json response with
          | inl f => throw (Requests f)
          | inr body => pure body
          end
      end
  end.

(** [client.get_sen0308_stream(time_window=time_window)] *)
Definition stream_data (time_window : Z) : IO payload :=
  now <- datetime_now ;;
  let '(r, e) := get_sen0308_stream env astimezone_utc now 1448 time_window in
  emit_all (events_of e) ;;
  match r with
  | Val data => pure data
  | Raise f => throw (Overflow (message f))
  end.

(** [pd.DataFrame(data)] *)
Definition frame (data : payload) : IO DataFrame :=
  match data with
  | Records rs => pure (DataFrame_of rs)
  | NotRecords _ =>
      match frame_of_other with
      | inr df => pure df
      | inl e => throw (Pandas e)
      end
  end.

(** [format_data_display(df, cell_id, measurement_type)] *)
Definition display (df : DataFrame) (cell_id : Z) (measurement_type : string)
  : IO unit :=
  let '(out, e) :=
    format_data_display to_datetime_utc pacific_offset fmt_mean fmt_max
      df cell_id measurement_type in
  emit_all (map event_of_output out) ;;
  match e with
  | None => pure tt
  | Some e => throw (Pandas e)
  end.

(** [time_windows.get(choice, 10)] *)
Definition time_windows (choice : Z) : Z :=
  if choice =? 1 then 10
  else if choice =? 2 then 30
  else if choice =? 3 then 60
  else 10.

(** One turn of the loop of [handle_sen0308_stream].  The [try] block
    ends in [Some v] when a [break] or a [continue] leaves the turn, in
    [None] when the question after it is next. *)
Definition stream_turn : IO (verdict unit) :=
  display_sen0308_stream_menu ;;
  left <- try (
      line <- input (Py.LF ++ "Enter your choice (1-5): ") ;;
      choice <- to_int line ;;
      if choice =? 5 then pure (Some (Break tt))
      else
        window <-
          (if choice =? 4 then
             try (
               line <- input "Enter time window in seconds: " ;;
               time_window <- to_int line ;;
               if time_window <=? 0 then
                 print_line "Time window must be positive" ;;
                 pure None
               else pure (Some time_window))
             (fun t =>
                match t with
                | ValueError => print_line "Please enter a valid number" ;; pure None
                | _ => throw t
                end)
           else pure (Some (time_windows choice))) ;;
        match window with
        | None => pure (Some Continue)
        | Some time_window =>
            data <- stream_data time_window ;;
            (if has_data data then
               df <- frame data ;;
               if negb (empty df) then display df 1448 "humidity"
               else print_line "No data received from stream"
             else print_line "Failed to get stream data") ;;
            pure None
        end)
    (fun t =>
       match as_exception t with
       | None => print_line "Please enter a valid number" ;; pure None
       | Some e => print_line ("Error: " ++ e) ;; pure None
       end) ;;
  match left with
  | Some v => pure v
  | None =>
      continue_choice <-
        input (Py.LF ++ "Would you like to get another stream? (y/n): ") ;;
      if String.eqb (Py.lower continue_choice) "y" then pure Continue
      else pure (Break tt)
  end.

Definition handle_sen0308_stream : IO unit := while_true stream_turn.

(** One turn of the loop of the [__main__] block. *)
Definition main_turn : IO (verdict unit) :=
  display_menu ;;
  left <- try (
      line <- input (Py.LF ++ "Enter your choice (1-6): ") ;;
      choice <- to_int line ;;
      if choice =? 6 then
        print_line "Exiting program. Goodbye!" ;;
        pure (Some (Break tt))
      else if choice =? 4 then
        handle_sen0308_stream ;;
        pure (Some Continue)
      else
        info <-
          (if choice =? 5 then
             line <- input "Enter cell ID: " ;;
             cell_id <- to_int line ;;
             sensor_name <- input "Enter sensor name (e.g., sen0257, yfs210c, etc.): " ;;
             measurement <- input "Enter measurement type (e.g., pressure, humidity): " ;;
             pure (Some (mkInfo cell_id sensor_name measurement))
           else pure (get_cell_info choice)) ;;
        match info with
        | None =>
            print_line "Invalid choice. Please try again." ;;
            pure (Some Continue)
        | Some cell =>
            print_line (Py.LF ++ "Fetching " ++ measurement cell ++ " data for cell "
                   ++ Py.str_int (cell_id cell) ++ "...") ;;
            range <- get_time_range ;;
            data <- sensor_data (sensor_name cell) (measurement cell) (cell_id cell)
                      (fst range) (snd range) ;;
            (if has_data data then
               df <- frame data ;;
               display df (cell_id cell) (measurement cell)
             else print_line "No data received for the specified time range.") ;;
            pure None
        end)
    (fun t =>
       match t with
       | HTTPError e body =>
           print_line (Py.LF ++ "HTTP Error: " ++ e) ;;
           print_line ("Response: " ++ String.substring 0 500 body ++ "...") ;;
           pure None
       | _ =>
           match as_exception t with
           | None => print_line "Please enter a valid number." ;; pure None
           | Some e => print_line (Py.LF ++ "Unexpected error: " ++ e) ;; pure None
           end
       end) ;;
  match left with
  | Some v => pure v
  | None =>
      continue_choice <-
        input (Py.LF ++ "Would you like to view another cell? (y/n): ") ;;
      if String.eqb (Py.lower continue_choice) "y" then pure Continue
      else
        print_line "Exiting program. Goodbye!" ;;
        pure (Break tt)
  end.

Definition main_loop : IO unit := while_true main_turn.

End Menus.

(** The console before the first line is read. *)
Definition start (inputs : list string) : console := mkConsole inputs 0 [].

End DirtVizMenu.

Module DirtVizMenuSpec.
Import Http DirtViz DirtVizMenu.

(** The events a display function writes. *)
Definition lines_of (m : IO unit) : list event := log (snd (m (start []))).

(** The requests of a log, in order. *)
Fixpoint requests_of (es : list event) : list request :=
  match es with
  | [] => []
  | Requested q :: rest => q :: requests_of rest
  | _ :: rest => requests_of rest
  end.

(** [c'] comes after [c]: lines were read from the front of the input and
    events satisfying [P] were added to the log. *)
Definition after (P : event -> Prop) (c c' : console) : Prop :=
  exists (l : list string) (es : list event),
    unread c = (l ++ unread c')%list
    /\ consumed c' = (consumed c + List.length l)%nat
    /\ log c' = (log c ++ es)%list
    /\ Forall P es.

(** [c'] comes after [c] with nothing read. *)
Definition wrote (P : event -> Prop) (c c' : console) : Prop :=
  unread c' = unread c
  /\ consumed c' = consumed c
  /\ exists es : list event, log c' = (log c ++ es)%list /\ Forall P es.

(** The console after an event, and after a line was read at a prompt. *)
Definition say (c : console) (e : event) : console :=
  mkConsole (unread c) (consumed c) (log c ++ [e]).

Definition next (c : console) (prompt : string) : console :=
  mkConsole (tl (unread c)) (S (consumed c)) (log c ++ [Asked prompt]).

(** [m] run on [c] ends in an answer and a console that satisfy [Post]. *)
Definition holds {A : Type} (m : IO A) (c : console)
  (Post : answer A -> console -> Prop) : Prop :=
  Post (fst (m c)) (snd (m c)).

(** A request of the stream menu: humidity of cell 1448 with the stream
    flag, and a timeout of 15 seconds. *)
Definition stream_event (e : event) : Prop :=
  match e with
  | Requested q =>
      exists start_utc end_utc, q = stream_request 1448 start_utc end_utc
  | _ => True
  end.

(** A request of either menu: a stream request, or a request for a time
    range without a timeout. *)
Definition known_event (e : event) : Prop :=
  match e with
  | Requested q =>
      (exists start_utc end_utc, q = stream_request 1448 start_utc end_utc)
      \/ (exists name measurement cellId start_utc end_utc,
            q = sensor_request name measurement cellId (Some start_utc) (Some end_utc))
  | _ => True
  end.

Definition silent (e : event) : Prop :=
  match e with
  | Requested _ => False
  | _ => True
  end.

(** The last event of a log. *)
Definition last_event (es : list event) : option event :=
  last (map Some es) None.

(** The ranges [get_time_range] can return when the clock shows [now]
    at some point: from the last midnight, or from seven days before it,
    until now. *)
Definition until_now (now : aware) (range : aware * aware) : Prop :=
  snd range = now
  /\ utcoffset (fst range) = utcoffset now
  /\ (wall (fst range) = wall (midnight now)
      \/ wall (fst range) = wall (midnight now) - 7 * 86400).

(** A range of whole days: from 00:00:00 to 23:59:59 on the local clock. *)
Definition whole_days (range : aware * aware) : Prop :=
  wall (fst range) mod 86400 = 0 /\ wall (snd range) mod 86400 = 86399.

(** A date typed as text. *)
Definition typed (line : string) (y m d : Z) : Prop :=
  line <> "" /\ parse_date line = Some (y, m, d)
  /\ out_of_bounds y m d = false
  /\ datetime_ymd y m d = Some (mkDate y m d).

(** Midnight of a typed date in Los Angeles. *)
Definition local_midnight (localize : Z -> Z) (y m d : Z) : aware :=
  let w := Clock.days_from_civil y m d * 86400 in mkAware w (localize w).

(** A local clock reading or an instant that [datetime] can hold. *)
Definition representable (seconds : Z) : Prop :=
  Clock.datetime_min <= seconds <= Clock.datetime_max.

Definition event_of_io (x : io) : event :=
  match x with
  | Prompted s => Asked s
  | Printed s => Said s
  end.

(** A clock that shows 12:00 PDT on 21 August 2025 throughout. *)
Definition noon : nat -> aware := fun _ => mkAware 1755777600 (-25200).
Definition noon_local : nat -> Z := fun _ => 1755777600.

(** Pacific time as in summer, throughout. *)
Definition summer : Z -> Z := fun _ => -25200.

(** An API that answers every request with the status 404. *)
Definition not_found : request -> http_result :=
  fun _ => Responds (mkResponse 404 "no such cell" "404 Client Error: NOT FOUND"
                       (inl (OtherException "Expecting value"))).

(** An API that answers every request with the same readings. *)
Definition serving (rs : list record) : request -> http_result :=
  fun _ => Responds (mkResponse 200 "" "OK" (inr (Records rs))).

(** Libraries that are not reached in the examples. *)
Definition no_frame : exn + DataFrame := inl (LibraryError "DataFrame").
Definition never : failure -> bool := fun _ => false.
Definition never_pandas : string -> bool := fun _ => false.
Definition repr_text : exn -> string := fun _ => "error".

End DirtVizMenuSpec.

(* ------------------------------------------------------------------ *)
(** ** Python built-ins: checks against the interpreter *)

Example py_int_ok : Py.int " 02 " = Some 2 /\ Py.int "2_025" = Some 2025
  /\ Py.int "+7" = Some 7 /\ Py.int "" = None /\ Py.int "2__0" = None
  /\ Py.int "12a" = None /\ Py.int "_1" = None /\ Py.int "1_" = None.
Proof. repeat split; reflexivity. Qed.

Example py_split_ok :
  Py.split "-" "2025-02-30" = ["2025"; "02"; "30"]
  /\ Py.split "-" "" = [""] /\ Py.split "-" "-5" = [""; "5"].
Proof. repeat split; reflexivity. Qed.

Example py_center_ok :
  Py.center "abc" 6 = " abc  " /\ Py.center "ab" 5 = "  ab ".
Proof. repeat split; reflexivity. Qed.

Example py_str_ok :
  Py.str_int 1350 = "1350" /\ Py.str_int 0 = "0" /\ Py.str_int (-3) = "-3"
  /\ Py.capitalize "flow RATE" = "Flow rate" /\ Py.upper "Flow Rate" = "FLOW RATE".
Proof. repeat split; reflexivity. Qed.

Example strftime_ok :
  Clock.strftime_http 1755760000 = "Thu, 21 Aug 2025 07:06:40 GMT"
  /\ Clock.strftime_http 951782400 = "Tue, 29 Feb 2000 00:00:00 GMT"
  /\ Clock.strftime_display 1755760000 = "08-21-2025 07:06:40"
  /\ Clock.datetime_min = -62135596800 /\ Clock.datetime_max = 253402300799.
Proof. repeat split; reflexivity. Qed.

Example timedelta_ok :
  DirtViz.timedelta_seconds 86399999999999 = DirtViz.Val 86399999999999
  /\ DirtViz.timedelta_seconds 100000000000000 =
     DirtViz.Raise (Http.OtherException
                      "days=1157407407; must have magnitude <= 999999999")
  /\ DirtViz.datetime_sub 1762214400 63897811200 = DirtViz.Val Clock.datetime_min
  /\ DirtViz.datetime_sub 1762214400 63897811201 =
     DirtViz.Raise (Http.OtherException "date value out of range").
Proof. repeat split; reflexivity. Qed.

(* ------------------------------------------------------------------ *)
(** ** The solenoid client *)

Module SolenoidFacts.
Import Http Solenoid SolenoidSpec.
Local Open Scope py_scope.

Section Frame.

Variable env : nat -> request -> http_result.

Lemma quiet_ret {A} (a : A) : quiet (ret a).
Proof. intros w; cbn; auto. Qed.

Lemma quiet_raise {A} (f : failure) : quiet (@raise A f).
Proof. intros w; cbn; auto. Qed.

Lemma quiet_print (s : string) : quiet (print s).
Proof. intros w; cbn; auto. Qed.

Lemma quiet_get_active : quiet get_active.
Proof. intros w; cbn; auto. Qed.

Lemma quiet_bind {A B} (m : M A) (k : A -> M B) :
  quiet m -> (forall a, quiet (k a)) -> quiet (bind m k).
Proof.
  intros Hm Hk w. unfold bind.
  specialize (Hm w). destruct (m w) as [[a | c | f] w1]; cbn in *; auto.
  specialize (Hk a w1). destruct Hk as (H1 & H2 & H3).
  destruct Hm as (G1 & G2 & G3). repeat split; congruence.
Qed.

Lemma quiet_http (r : request) : quiet (http env r).
Proof. intros w. unfold http. destruct (env _ r); cbn; auto. Qed.

Lemma quiet_get_system_status : quiet (get_system_status env).
Proof.
  intros w. unfold get_system_status, requests_get.
  pose proof (quiet_http (mkRequest GET (BASE_URL ++ "/status") [] [] (Some 5)) w) as H.
  destruct (http env _ w) as [[resp | c | f] w1]; cbn in *; auto.
  destruct (status_code resp =? 200); cbn; auto.
Qed.

Lemma quiet_status_get st k d : quiet (status_get st k d).
Proof. destruct st; [apply quiet_ret | apply quiet_raise]. Qed.

Lemma quiet_upper_of v : quiet (upper_of v).
Proof. destruct v; first [apply quiet_ret | apply quiet_raise]. Qed.

Ltac quiet_step :=
  first [ apply quiet_print | apply quiet_ret | apply quiet_raise
        | apply quiet_get_active | apply quiet_status_get
        | apply quiet_upper_of | apply quiet_get_system_status
        | apply quiet_bind; [ | intros ? ] ].

Lemma quiet_print_status_summary status : quiet (print_status_summary status).
Proof.
  unfold print_status_summary.
  destruct (status_truthy status); [destruct status as [st | ] | ];
    repeat quiet_step.
Qed.

Lemma quiet_report n status : quiet (report n status).
Proof.
  intros w. unfold report.
  set (body := if status_truthy status then _ else _).
  assert (Hb : quiet body).
  { subst body. destruct (status_truthy status).
    - destruct (n mod status_print_interval =? 0).
      + apply quiet_print_status_summary.
      + destruct status; repeat quiet_step.
    - apply quiet_print. }
  specialize (Hb w).
  destruct (body w) as [[a | c | [e r | e]] w1]; cbn in *; auto.
Qed.

(** A statement of the monitoring thread never writes the flag or the
    thread table. *)
Lemma monitor_step_frame th w l th' w' :
  monitor_step env th w = Some (l, th', w') ->
  auto_monitoring_active w' = auto_monitoring_active w
  /\ monitoring_thread w' = monitoring_thread w
  /\ threads w' = threads w.
Proof.
  unfold monitor_step, world_of. intros H.
  destruct (at_pc th) eqn:Hpc.
  - injection H as _ _ Hw. rewrite <- Hw. apply (quiet_print _ w).
  - destruct (auto_monitoring_active w) eqn:E; injection H as _ _ Hw;
      rewrite <- Hw; auto.
  - pose proof (quiet_get_system_status w) as Q.
    destruct (get_system_status env w) as [[s | c | f] w1];
      injection H as _ _ Hw; rewrite <- Hw; exact Q.
  - injection H as _ _ Hw. rewrite <- Hw. apply (quiet_report _ _ w).
  - destruct (i <? check_interval th);
      [destruct (negb (auto_monitoring_active w)) eqn:E | ];
      injection H as _ _ Hw; rewrite <- Hw; auto.
  - injection H as _ _ Hw. rewrite <- Hw. auto.
  - injection H as _ _ Hw. rewrite <- Hw. apply (quiet_print _ w).
  - discriminate.
Qed.

End Frame.

(** *** Lists of threads *)

Lemma nth_error_set_nth {A} (l : list A) i j x :
  nth_error (set_nth l i x) j =
  if Nat.eqb i j then
    match nth_error l j with Some _ => Some x | None => None end
  else nth_error l j.
Proof.
  revert i j. induction l as [ | y r IH]; intros [ | i] [ | j]; cbn; auto.
  destruct (Nat.eqb i j); reflexivity.
Qed.

Lemma length_set_nth {A} (l : list A) i x :
  List.length (set_nth l i x) = List.length l.
Proof.
  revert i. induction l as [ | y r IH]; intros [ | i]; cbn; auto.
Qed.

Lemma all_dead_filter (l : list thread) :
  (forall i th, nth_error l i = Some th -> alive th = false) ->
  filter alive l = [].
Proof.
  induction l as [ | x r IH]; intros H; cbn; auto.
  rewrite (H 0%nat x eq_refl). apply IH.
  intros i th Hi. apply (H (S i) th Hi).
Qed.

Lemma one_alive_filter (l : list thread) (k : nat) :
  (forall i th, i <> k -> nth_error l i = Some th -> alive th = false) ->
  filter alive l =
  match nth_error l k with
  | Some th => if alive th then [th] else []
  | None => []
  end.
Proof.
  revert k. induction l as [ | x r IH]; intros k H.
  - destruct k; reflexivity.
  - destruct k as [ | k]; cbn.
    + rewrite (all_dead_filter r).
      * destruct (alive x); reflexivity.
      * intros i th Hi. apply (H (S i) th); [discriminate | exact Hi].
    + rewrite (H 0%nat x); [ | discriminate | reflexivity].
      apply IH. intros i th Hik Hi. apply (H (S i) th); [ | exact Hi].
      intros E. apply Hik. now injection E.
Qed.

(** *** At most one monitoring thread *)

Lemma others_dead_nth w :
  others_dead w ->
  forall k, monitoring_thread w = Some k ->
  forall i th, i <> k -> nth_error (threads w) i = Some th -> alive th = false.
Proof.
  intros I k Hk i th Hik Hi.
  assert (H : thread_is_alive w i = false).
  { apply I. rewrite Hk. intros E. apply Hik. now injection E. }
  unfold thread_is_alive in H. now rewrite Hi in H.
Qed.

Lemma alive_count_monitor w :
  others_dead w ->
  alive_count w = if monitor_alive w then 1%nat else 0%nat.
Proof.
  intros I. unfold alive_count, monitor_alive, thread_is_alive.
  destruct (monitoring_thread w) as [k | ] eqn:Hk.
  - rewrite (one_alive_filter _ k (others_dead_nth w I k Hk)).
    destruct (nth_error (threads w) k) as [th | ]; [ | reflexivity].
    destruct (alive th); reflexivity.
  - rewrite all_dead_filter; [reflexivity | ].
    intros i th Hi.
    assert (H : thread_is_alive w i = false) by (apply I; rewrite Hk; discriminate).
    unfold thread_is_alive in H. now rewrite Hi in H.
Qed.

Lemma others_dead_initial : others_dead initial.
Proof. intros t _. unfold thread_is_alive. cbn. now destruct t. Qed.

Lemma start_when_alive ci w :
  monitor_alive w = true ->
  start_auto_monitoring ci w =
  (Val tt, mkWorld (auto_monitoring_active w) (monitoring_thread w) (threads w)
                   (out w ++ ["Auto monitoring is already running"]) (sent w)).
Proof. intros H. unfold start_auto_monitoring. rewrite H. reflexivity. Qed.

Lemma start_when_dead ci w :
  monitor_alive w = false ->
  start_auto_monitoring ci w =
  (Val tt, mkWorld true (Some (List.length (threads w)))
                   (threads w ++ [mkThread PStart 0 ci])
                   (out w ++ ["Auto monitoring started"]) (sent w)).
Proof. intros H. unfold start_auto_monitoring. rewrite H. reflexivity. Qed.

Lemma others_dead_start ci w :
  others_dead w -> others_dead (snd (start_auto_monitoring ci w)).
Proof.
  intros I. destruct (monitor_alive w) eqn:Hm.
  - rewrite (start_when_alive ci w Hm). exact I.
  - rewrite (start_when_dead ci w Hm). intros t Ht. cbn in Ht.
    unfold thread_is_alive; cbn.
    assert (Hall : forall i, thread_is_alive w i = false).
    { intros i. destruct (monitoring_thread w) as [k | ] eqn:Hk.
      - destruct (Nat.eq_dec i k) as [-> | Hik].
        + unfold monitor_alive in Hm. now rewrite Hk in Hm.
        + apply I. rewrite Hk. intros E. apply Hik. now injection E.
      - apply I. rewrite Hk. discriminate. }
    destruct (Nat.lt_ge_cases t (List.length (threads w))) as [Hlt | Hge].
    + rewrite nth_error_app1 by exact Hlt. apply (Hall t).
    + rewrite nth_error_app2 by exact Hge.
      destruct (t - List.length (threads w))%nat as [ | d] eqn:Hd.
      * exfalso. apply Ht. f_equal. lia.
      * cbn. now destruct d.
Qed.

Section Invariant.

Variable env : nat -> request -> http_result.

Lemma others_dead_act a w : others_dead w -> others_dead (fst (act env a w)).
Proof.
  intros I. destruct a as [ci | | t]; cbn [act fst].
  - apply others_dead_start, I.
  - intros t Ht. apply (I t Ht).
  - destruct (nth_error (threads w) t) as [th | ] eqn:Hth; [ | exact I].
    destruct (monitor_step env th w) as [[[l th'] w'] | ] eqn:Hs; [ | exact I].
    destruct (monitor_step_frame env _ _ _ _ _ Hs) as (_ & Hmt & Hts).
    intros j Hj. unfold thread_is_alive, set_thread in *. cbn in *.
    rewrite Hmt in Hj. specialize (I j Hj). rewrite Hts.
    rewrite nth_error_set_nth.
    destruct (Nat.eqb_spec t j) as [-> | Htj]; [ | exact I].
    rewrite Hth.
    (* thread [j] had already returned, so it cannot have stepped *)
    unfold thread_is_alive in I. rewrite Hth in I.
    unfold monitor_step in Hs. unfold alive in I.
    destruct (at_pc th); discriminate.
Qed.

Lemma others_dead_run acts w :
  others_dead w -> others_dead (fst (run env acts w)).
Proof.
  revert w. induction acts as [ | a rest IH]; intros w I; cbn; auto.
  pose proof (others_dead_act a w I) as Ia.
  destruct (act env a w) as [w1 tr1]. cbn in Ia.
  specialize (IH w1 Ia). destruct (run env rest w1) as [w2 tr2]. exact IH.
Qed.

(** C1. After any interleaving of start calls, stop calls and thread
    steps, at most one monitoring thread is alive, and the guard of
    [start_auto_monitoring] tests exactly whether one is.  A start call
    made while it is alive only prints the already-running line: no thread
    is created, the flag and the thread handle stay as they were.  A start
    call made while none is alive sets the flag and starts one thread. *)
Theorem C1_single_monitoring_thread (acts : list action) (ci : Z) :
  let w := fst (run env acts initial) in
  (alive_count w <= 1)%nat
  /\ alive_count w = (if monitor_alive w then 1%nat else 0%nat)
  /\ (if monitor_alive w then
        start_auto_monitoring ci w =
        (Val tt, mkWorld (auto_monitoring_active w) (monitoring_thread w)
                         (threads w)
                         (out w ++ ["Auto monitoring is already running"])
                         (sent w))
      else
        let w' := snd (start_auto_monitoring ci w) in
        auto_monitoring_active w' = true
        /\ threads w' = (threads w ++ [mkThread PStart 0 ci])%list
        /\ monitoring_thread w' = Some (List.length (threads w))
        /\ out w' = (out w ++ ["Auto monitoring started"])%list
        /\ alive_count w' = 1%nat).
Proof.
  intros w.
  assert (I : others_dead w) by (apply others_dead_run, others_dead_initial).
  pose proof (alive_count_monitor w I) as Hc.
  split; [ | split; [exact Hc | ]].
  - rewrite Hc. destruct (monitor_alive w); lia.
  - destruct (monitor_alive w) eqn:Hm.
    + apply start_when_alive, Hm.
    + pose proof (others_dead_start ci w I) as I'.
      pose proof (alive_count_monitor _ I') as Hc'.
      rewrite (start_when_dead ci w Hm) in *. cbn [snd] in *.
      repeat split; try reflexivity.
      rewrite Hc'. unfold monitor_alive, thread_is_alive; cbn.
      rewrite nth_error_app2 by lia. now rewrite Nat.sub_diag.
Qed.

End Invariant.

(** *** Stopping the monitor *)

Lemma count_app t l (tr1 tr2 : list (nat * label)) :
  count t l (tr1 ++ tr2) = (count t l tr1 + count t l tr2)%nat.
Proof. unfold count. now rewrite filter_app, length_app. Qed.

Lemma pc_budgets (p : pc) :
  (reports_left p <= 1 /\ fetches_left p <= 1 /\ sleeps_left p <= 1
   /\ reports_left p + sleeps_left p <= 1
   /\ fetches_left p + sleeps_left p <= 1
   /\ steps_left p <= 5)%nat.
Proof. destruct p; cbn; lia. Qed.

Section Stop.

Variable env : nat -> request -> http_result.

(** With the flag clear, each statement of the thread uses up what it
    could still do. *)
Lemma monitor_step_budget th w l th' w' :
  auto_monitoring_active w = false ->
  monitor_step env th w = Some (l, th', w') ->
  (tick l LReport + reports_left (at_pc th') <= reports_left (at_pc th)
   /\ tick l LFetch + fetches_left (at_pc th') <= fetches_left (at_pc th)
   /\ tick l LSleep + sleeps_left (at_pc th') <= sleeps_left (at_pc th)
   /\ 1 + steps_left (at_pc th') <= steps_left (at_pc th))%nat.
Proof.
  intros Hf H. unfold monitor_step in H. rewrite Hf in H.
  destruct (at_pc th) eqn:Hpc.
  - injection H as <- <- _. cbn. lia.
  - injection H as <- <- _. cbn. lia.
  - destruct (get_system_status env w) as [[s | c | f] w1];
      injection H as <- <- _; cbn; lia.
  - injection H as <- <- _. cbn. lia.
  - destruct (i <? check_interval th); cbn in H;
      injection H as <- <- _; cbn; lia.
  - injection H as <- <- _. cbn. lia.
  - injection H as <- <- _. cbn. lia.
  - discriminate.
Qed.

(** What one action of the process does to thread [t] once the flag is
    clear for it. *)
Lemma act_budget a w t :
  others_dead w ->
  (thread_is_alive w t = true -> auto_monitoring_active w = false) ->
  (t < List.length (threads w))%nat ->
  let w1 := fst (act env a w) in
  let tr1 := snd (act env a w) in
  (thread_is_alive w1 t = true -> auto_monitoring_active w1 = false)
  /\ (t < List.length (threads w1))%nat
  /\ (count t LReport tr1 + reports_left (pc_of w1 t) <= reports_left (pc_of w t)
      /\ count t LFetch tr1 + fetches_left (pc_of w1 t) <= fetches_left (pc_of w t)
      /\ count t LSleep tr1 + sleeps_left (pc_of w1 t) <= sleeps_left (pc_of w t)
      /\ (steps_left (pc_of w1 t) = 0
          \/ turn t a + steps_left (pc_of w1 t) <= steps_left (pc_of w t)))%nat.
Proof.
  intros I Hflag Hlen. destruct a as [ci | | t']; cbn [act fst snd turn].
  - (* start_auto_monitoring *)
    destruct (monitor_alive w) eqn:Hm.
    + rewrite (start_when_alive ci w Hm). unfold world_of, pc_of, thread_is_alive.
      cbn. repeat split; auto; lia.
    + rewrite (start_when_dead ci w Hm). unfold world_of.
      assert (Hdead : thread_is_alive w t = false).
      { destruct (monitoring_thread w) as [k | ] eqn:Hk.
        - destruct (Nat.eq_dec t k) as [-> | Hne].
          + unfold monitor_alive in Hm. now rewrite Hk in Hm.
          + apply I. rewrite Hk. intros E. apply Hne. now injection E.
        - apply I. rewrite Hk. discriminate. }
      unfold pc_of, thread_is_alive in *. cbn.
      rewrite nth_error_app1 by exact Hlen. rewrite length_app. cbn.
      rewrite Hdead. repeat split; try discriminate; lia.
  - (* stop_auto_monitoring *)
    unfold world_of, pc_of, thread_is_alive. cbn.
    repeat split; auto; lia.
  - (* a thread runs one statement *)
    destruct (nth_error (threads w) t') as [th | ] eqn:Hth.
    2:{ cbn. repeat split; auto; try lia.
        destruct (Nat.eqb_spec t' t) as [-> | Hne]; [ | lia].
        apply nth_error_None in Hth. lia. }
    destruct (monitor_step env th w) as [[[l th'] w'] | ] eqn:Hs.
    2:{ cbn. repeat split; auto; try lia.
        unfold monitor_step in Hs.
        destruct (Nat.eqb_spec t' t) as [-> | Hne]; [ | lia].
        left. unfold pc_of. rewrite Hth.
        destruct (at_pc th); try discriminate.
        - destruct (auto_monitoring_active w); discriminate.
        - destruct (get_system_status env w) as [[s | c | f] w1]; discriminate.
        - destruct (i <? check_interval th);
            [destruct (negb (auto_monitoring_active w)) | ]; discriminate.
        - reflexivity. }
    destruct (monitor_step_frame env _ _ _ _ _ Hs) as (Hfl & Hmt & Hts).
    unfold pc_of, thread_is_alive, set_thread. cbn [fst snd threads auto_monitoring_active].
    rewrite Hts, Hfl, length_set_nth, nth_error_set_nth.
    destruct (Nat.eqb_spec t' t) as [-> | Hne].
    + (* thread [t] itself *)
      rewrite Hth.
      assert (Hal : alive th = true).
      { unfold monitor_step in Hs. unfold alive.
        destruct (at_pc th); try reflexivity. discriminate. }
      assert (Hf : auto_monitoring_active w = false).
      { apply Hflag. unfold thread_is_alive. now rewrite Hth. }
      destruct (monitor_step_budget _ _ _ _ _ Hf Hs) as (B1 & B2 & B3 & B4).
      unfold count, tick in *. cbn [filter fst snd]. rewrite Nat.eqb_refl. cbn [andb].
      destruct (label_eqb l LReport), (label_eqb l LFetch), (label_eqb l LSleep);
        cbn [List.length] in *; repeat split; auto; lia.
    + (* another thread *)
      unfold count. cbn [filter fst snd].
      destruct (Nat.eqb_spec t' t) as [E | _]; [contradiction | ].
      cbn [andb List.length].
      fold (thread_is_alive w t).
      repeat split; auto; lia.
Qed.

Lemma alive_steps_left w t :
  thread_is_alive w t = true -> (0 < steps_left (pc_of w t))%nat.
Proof.
  unfold thread_is_alive, pc_of, alive.
  destruct (nth_error (threads w) t) as [th | ]; [ | discriminate].
  destruct (at_pc th); cbn; intros; first [lia | discriminate].
Qed.

Lemma run_budget acts : forall w t,
  others_dead w ->
  (thread_is_alive w t = true -> auto_monitoring_active w = false) ->
  (t < List.length (threads w))%nat ->
  (count t LReport (snd (run env acts w)) <= reports_left (pc_of w t)
   /\ count t LFetch (snd (run env acts w)) <= fetches_left (pc_of w t)
   /\ count t LSleep (snd (run env acts w)) <= sleeps_left (pc_of w t)
   /\ (thread_is_alive (fst (run env acts w)) t = false
       \/ turns t acts < steps_left (pc_of w t)))%nat.
Proof.
  induction acts as [ | a rest IH]; intros w t I Hflag Hlen.
  - cbn. unfold count. cbn. repeat split; try lia.
    destruct (thread_is_alive w t) eqn:Ha; [right | now left].
    now apply alive_steps_left.
  - pose proof (act_budget a w t I Hflag Hlen) as (Hflag1 & Hlen1 & B1 & B2 & B3 & B4).
    pose proof (others_dead_act env a w I) as I1.
    cbn [run]. destruct (act env a w) as [w1 tr1]. cbn [fst snd] in *.
    specialize (IH w1 t I1 Hflag1 Hlen1).
    destruct (run env rest w1) as [w2 tr2]. cbn [fst snd] in *.
    destruct IH as (C1 & C2 & C3 & C4).
    rewrite !count_app.
    assert (Ht : turns t (a :: rest) = (turn t a + turns t rest)%nat).
    { destruct a; reflexivity. }
    rewrite Ht.
    repeat split; try lia.
    destruct C4 as [C4 | C4]; [now left | ].
    destruct B4 as [B4 | B4]; [lia | right; lia].
Qed.

(** C2, as the code has it.  Take the process after any schedule, a
    thread [t] it has created, and call [stop_auto_monitoring].  Whatever
    happens next, thread [t] prints at most one more cycle status and only
    when it was already past the test of the while loop; it fetches at
    most once more, starts at most one more one-second sleep, and never
    both reports and sleeps.  Once it has been given as many turns as its
    position leaves it, five at most, it has returned. *)
Theorem C2_stop_bounded (acts0 acts : list action) (t : nat) (th : thread) :
  let w := fst (run env acts0 initial) in
  nth_error (threads w) t = Some th ->
  let r := run env acts (snd (stop_auto_monitoring w)) in
  (count t LReport (snd r) <= reports_left (at_pc th)
   /\ count t LFetch (snd r) <= fetches_left (at_pc th)
   /\ count t LSleep (snd r) <= sleeps_left (at_pc th)
   /\ count t LReport (snd r) + count t LSleep (snd r) <= 1
   /\ count t LFetch (snd r) + count t LSleep (snd r) <= 1
   /\ (thread_is_alive (fst r) t = false \/ turns t acts < steps_left (at_pc th))
   /\ steps_left (at_pc th) <= 5)%nat.
Proof.
  intros w Hth r.
  assert (I : others_dead w) by (apply others_dead_run, others_dead_initial).
  set (w1 := snd (stop_auto_monitoring w)).
  assert (I1 : others_dead w1) by (intros k Hk; apply (I k Hk)).
  assert (Hlen : (t < List.length (threads w1))%nat).
  { apply nth_error_Some. cbn. rewrite Hth. discriminate. }
  assert (Hp : pc_of w1 t = at_pc th).
  { unfold pc_of. cbn. now rewrite Hth. }
  pose proof (run_budget acts w1 t I1 (fun _ => eq_refl) Hlen) as B.
  rewrite Hp in B. subst r. fold w1.
  destruct B as (B1 & B2 & B3 & B4).
  pose proof (pc_budgets (at_pc th)) as (P1 & P2 & P3 & P4 & P5 & P6).
  repeat split; try lia. exact B4.
Qed.

End Stop.

(** C2 as stated fails: the thread has tested the flag of the while loop,
    the main thread stops the monitor, and the thread still fetches and
    prints the status of its cycle, after the stopping line. *)
Lemma C2_counterexample :
  let env := steady moist41 in
  let w := fst (run env [CallStart 30; Step 0; Step 0] initial) in
  let w1 := snd (stop_auto_monitoring w) in
  let r := run env [Step 0; Step 0; Step 0; Step 0; Step 0] w1 in
  auto_monitoring_active w1 = false
  /\ count 0 LReport (snd r) = 1%nat
  /\ out (fst r) =
     ["Auto monitoring started";
      "Starting continuous status monitoring (interval: 30s)";
      "Auto monitoring stopping...";
      "Cycle 1: Moisture=41%, Solenoid=OPEN";
      "Status monitoring stopped"].
Proof. vm_compute. repeat split; reflexivity. Qed.

Lemma C2_stop_bounded_witness :
  let env := steady moist41 in
  let w := fst (run env [CallStart 30; Step 0; Step 0] initial) in
  let r := run env [Step 0; Step 0; Step 0; Step 0; Step 0]
               (snd (stop_auto_monitoring w)) in
  nth_error (threads w) 0 = Some (mkThread PFetch 1 30)
  /\ (count 0 LReport (snd r) <= 1)%nat
  /\ thread_is_alive (fst r) 0 = false.
Proof.
  intros env w r.
  assert (H : nth_error (threads w) 0 = Some (mkThread PFetch 1 30))
    by reflexivity.
  split; [exact H | ].
  destruct (C2_stop_bounded env [CallStart 30; Step 0; Step 0]
              [Step 0; Step 0; Step 0; Step 0; Step 0] 0%nat
              (mkThread PFetch 1 30) H)
    as (B1 & _ & _ & _ & _ & [B6 | B6] & _).
  - split; [exact B1 | exact B6].
  - cbn in B6. lia.
Defined.

(** *** The command dispatch *)

Lemma tame_ret {A} (a : A) : tame (ret a).
Proof. intros w; split; [discriminate | exists []; cbn; now rewrite app_nil_r]. Qed.

Lemma tame_raise {A} (f : failure) : tame (@raise A f).
Proof. intros w; split; [discriminate | exists []; cbn; now rewrite app_nil_r]. Qed.

Lemma tame_print (s : string) : tame (print s).
Proof. intros w; split; [discriminate | exists []; cbn; now rewrite app_nil_r]. Qed.

Lemma tame_get_active : tame get_active.
Proof. intros w; split; [discriminate | exists []; cbn; now rewrite app_nil_r]. Qed.

Lemma tame_set_active b : tame (set_active b).
Proof. intros w; split; [discriminate | exists []; cbn; now rewrite app_nil_r]. Qed.

Lemma tame_spawn_monitor ci : tame (spawn_monitor ci).
Proof. intros w; split; [discriminate | exists []; cbn; now rewrite app_nil_r]. Qed.

Lemma tame_bind {A B} (m : M A) (k : A -> M B) :
  tame m -> (forall a, tame (k a)) -> tame (bind m k).
Proof.
  intros Hm Hk w. unfold bind.
  destruct (Hm w) as (Hne & l1 & Hl1).
  destruct (m w) as [[a | c | f] w1]; cbn in *.
  - destruct (Hk a w1) as (Hne2 & l2 & Hl2). split; [exact Hne2 | ].
    exists (l1 ++ l2)%list. now rewrite Hl2, Hl1, app_assoc.
  - now destruct (Hne c).
  - split; [discriminate | now exists l1].
Qed.

Lemma tame_status_get st k d : tame (status_get st k d).
Proof. destruct st; [apply tame_ret | apply tame_raise]. Qed.

Lemma tame_upper_of v : tame (upper_of v).
Proof. destruct v; first [apply tame_ret | apply tame_raise]. Qed.

Section Tame.

Variable env : nat -> request -> http_result.

Lemma tame_http (r : request) : tame (http env r).
Proof.
  intros w. unfold http.
  destruct (env _ r); cbn; (split; [discriminate | now exists [r]]).
Qed.

Lemma tame_get_system_status : tame (get_system_status env).
Proof.
  intros w. unfold get_system_status, requests_get.
  destruct (tame_http (mkRequest GET (BASE_URL ++ "/status") [] [] (Some 5)) w)
    as (_ & l & Hl).
  destruct (http env _ w) as [[resp | c | f] w1]; cbn in *;
    try (split; [discriminate | now exists l]).
  destruct (status_code resp =? 200); cbn; (split; [discriminate | now exists l]).
Qed.

End Tame.

Ltac tame_step :=
  first [ apply tame_print | apply tame_ret | apply tame_raise
        | apply tame_get_active | apply tame_set_active
        | apply tame_spawn_monitor | apply tame_status_get
        | apply tame_upper_of | apply tame_get_system_status
        | apply tame_http
        | apply tame_bind; [ | intros ? ] ].

Lemma tame_print_status_summary status : tame (print_status_summary status).
Proof.
  unfold print_status_summary.
  destruct (status_truthy status); [destruct status as [st | ] | ];
    repeat tame_step.
Qed.

Lemma tame_start_auto_monitoring ci : tame (start_auto_monitoring ci).
Proof.
  intros w. unfold start_auto_monitoring.
  destruct (monitor_alive w); [apply tame_print | ].
  revert w. change (tame (set_active true ;; spawn_monitor ci ;;
                          print "Auto monitoring started")).
  repeat tame_step.
Qed.

Lemma tame_stop_auto_monitoring : tame stop_auto_monitoring.
Proof. unfold stop_auto_monitoring. repeat tame_step. Qed.

Lemma tame_check_response r : tame (check_response r).
Proof.
  unfold check_response. destruct r as [r | ]; [ | apply tame_ret].
  destruct (negb (status_code r =? 200)); repeat tame_step.
Qed.

Ltac tame_command :=
  first [ apply tame_print_status_summary | apply tame_start_auto_monitoring
        | apply tame_stop_auto_monitoring | apply tame_check_response
        | tame_step ].

Ltac unfold_dispatch :=
  unfold main, send_command, dispatch, argc, arg, when, bind, requests_post,
    requests_get, http, check_response, ret, print, sys_exit;
  cbn.

Section Commands.

Variable env : nat -> request -> http_result.

(** C9. Whatever the duration argument is, [timed] sends exactly one
    request, the POST to the timed endpoint with the argument itself as
    the time parameter, and returns without exiting or raising.  A status
    other than 200 is reported from the server's response. *)
Theorem C9_timed_forwards_verbatim (prog s : string) :
  let r := main env [prog; "timed"; s] initial in
  fst r = Val tt
  /\ sent (snd r) = [timed_request s]
  /\ match env 0%nat (timed_request s) with
     | Responds resp =>
         out (snd r) =
         ("Turning on solenoid for " ++ s ++ " seconds.")
         :: ("Response: " ++ text resp)
         :: (if status_code resp =? 200
             then ["Response: " ++ text resp]
             else ["Error: Server responded with status "
                   ++ Py.str_int (status_code resp);
                   "Response: " ++ text resp])
     | Refused (RequestException e _) =>
         out (snd r) = ["Error: Could not connect to ESP32 at " ++ ENTS_IP;
                        "Details: " ++ e]
     | Refused (OtherException e) =>
         out (snd r) = ["Unexpected error: " ++ e]
     end.
Proof.
  intros r. subst r. unfold timed_request. unfold_dispatch.
  match goal with
  | |- context [env 0%nat ?q] => destruct (env 0%nat q) as [resp | [e rt | e]]
  end; cbn; auto.
  destruct (status_code resp =? 200); cbn; auto.
Qed.

(** What [send_command] does with a body that starts with a request and
    never exits: the request goes out first and the command returns. *)
Lemma send_after_request argv command (q : request)
  (k : response -> M (option response)) :
  dispatch env argv command = bind (http env q) k ->
  (forall resp, tame (k resp)) ->
  fst (send_command env argv command initial) = Val tt
  /\ exists l, sent (snd (send_command env argv command initial)) = q :: l.
Proof.
  intros Hd Hk. unfold send_command. rewrite Hd.
  assert (T : tame (response <- (r <- http env q ;; k r) ;; check_response response)).
  { apply tame_bind; [ | intros ?; apply tame_check_response].
    apply tame_bind; [apply tame_http | exact Hk]. }
  assert (F : exists l,
    sent (snd ((response <- (r <- http env q ;; k r) ;; check_response response)
               initial)) = q :: l).
  { unfold bind at 1 2. unfold http at 1. cbn [sent initial List.length app].
    destruct (env 0%nat q) as [resp | f]; [ | now exists []].
    set (w1 := mkWorld _ _ _ _ _).
    destruct (tame_bind (k resp) check_response (Hk resp) tame_check_response w1)
      as (_ & l & Hl). unfold bind in Hl. exists l. exact Hl. }
  destruct (T initial) as (Hne & _). destruct F as (l & Hl).
  destruct ((response <- (r <- http env q ;; k r) ;; check_response response) initial)
    as [[u | c | [e rt | e]] w1]; cbn in *.
  - destruct u. split; [reflexivity | now exists l].
  - now destruct (Hne c).
  - split; [reflexivity | now exists l].
  - split; [reflexivity | now exists l].
Qed.

(** C4 at [auto_on]: the command checks no argument count.  With any
    further arguments, one included, it posts the enable request and
    returns; nothing is reported and the process does not exit. *)
Theorem C4_auto_on_extra_arguments (prog : string) (extra : list string) :
  let r := main env (prog :: "auto_on" :: extra) initial in
  fst r = Val tt
  /\ exists l, sent (snd r) = auto_request "true" :: l.
Proof.
  intros r. subst r. unfold main. cbn [argc List.length Nat.ltb Nat.leb arg nth].
  apply send_after_request with
    (k := fun response =>
       print "Automatic irrigation enabled" ;;
       print ("Response: " ++ text response) ;;
       status <- get_system_status env ;;
       print_status_summary status ;;
       start_auto_monitoring 30 ;;
       ret (Some response)).
  - reflexivity.
  - intros resp. repeat tame_command.
Qed.

(** The same for [auto_off]. *)
Lemma auto_off_extra_arguments (prog : string) (extra : list string) :
  let r := main env (prog :: "auto_off" :: extra) initial in
  fst r = Val tt
  /\ exists l, sent (snd r) = auto_request "false" :: l.
Proof.
  intros r. subst r. unfold main. cbn [argc List.length Nat.ltb Nat.leb arg nth].
  apply send_after_request with
    (k := fun response =>
       print "Automatic irrigation disabled" ;;
       print ("Response: " ++ text response) ;;
       stop_auto_monitoring ;;
       ret (Some response)).
  - reflexivity.
  - intros resp. repeat tame_command.
Qed.

(** The commands next to them do check: with a further argument [open],
    [close] and [state] print their usage error and exit with code 1
    before any request, and so do [timed], [set_thresholds] and
    [auto_irrigation] with an argument too many. *)
Lemma checked_commands_reject (prog a b c : string) (extra : list string) :
  let exits argv :=
    fst (main env argv initial) = Exit 1
    /\ sent (snd (main env argv initial)) = []
    /\ out (snd (main env argv initial)) <> [] in
  exits (prog :: "open" :: a :: extra)
  /\ exits (prog :: "close" :: a :: extra)
  /\ exits (prog :: "state" :: a :: extra)
  /\ exits [prog; "timed"]
  /\ exits (prog :: "timed" :: a :: b :: extra)
  /\ exits [prog; "set_thresholds"]
  /\ exits [prog; "set_thresholds"; a]
  /\ exits (prog :: "set_thresholds" :: a :: b :: c :: extra)
  /\ exits [prog; "auto_irrigation"]
  /\ exits [prog; "auto_irrigation"; a]
  /\ exits (prog :: "auto_irrigation" :: a :: b :: c :: extra).
Proof.
  cbv zeta. unfold_dispatch. repeat split; discriminate.
Qed.

End Commands.

End SolenoidFacts.

(* ------------------------------------------------------------------ *)
(** ** The sensor-data client *)

Module DirtVizFacts.
Import Http DirtViz DirtVizSpec.

(** *** Date entry *)

(** C3 as stated fails: 2025-02-30 parses and passes the bounds check,
    but [datetime(2025, 2, 30)] raises [ValueError]; the format message
    is printed and the prompt comes again. *)
Lemma C3_counterexample :
  let today := mkDate 2025 8 21 in
  let prompt := "Enter start date (YYYY-MM-DD): " in
  parse_date "2025-02-30" = Some (2025, 2, 30)
  /\ out_of_bounds 2025 2 30 = false
  /\ get_valid_date today prompt ["2025-02-30"; "2025-02-28"] =
     (Returned (mkDate 2025 2 28),
      [Prompted prompt; Printed format_message; Prompted prompt]).
Proof. vm_compute. repeat split; reflexivity. Qed.

Lemma parse_date_empty : parse_date "" = None.
Proof. reflexivity. Qed.

(** C3, as the code has it.  A line whose three parts are integers within
    the bounds 2000-2100, 1-12 and 1-31 is returned as a date exactly when
    the day exists in that month of that year; otherwise the format
    message is printed and the next line is asked for. *)
Theorem C3_bounds_then_calendar (today : date) (prompt date_input : string)
  (rest : list string) (y m d : Z) :
  parse_date date_input = Some (y, m, d) ->
  out_of_bounds y m d = false ->
  get_valid_date today prompt (date_input :: rest) =
  if d <=? Clock.days_in_month y m
  then (Returned (mkDate y m d), [Prompted prompt])
  else (fst (get_valid_date today prompt rest),
        Prompted prompt :: Printed format_message
        :: snd (get_valid_date today prompt rest)).
Proof.
  intros Hp Hb. cbn [get_valid_date].
  destruct (String.eqb_spec date_input "") as [-> | _].
  - rewrite parse_date_empty in Hp. discriminate.
  - rewrite Hp, Hb. unfold datetime_ymd.
    unfold out_of_bounds in Hb.
    apply orb_false_elim in Hb as [Hb H6].
    apply orb_false_elim in Hb as [Hb H5].
    apply orb_false_elim in Hb as [Hb H4].
    apply orb_false_elim in Hb as [Hb H3].
    apply orb_false_elim in Hb as [H1 H2].
    assert (E : (1 <=? y) && (y <=? 9999) && (1 <=? m) && (m <=? 12) && (1 <=? d)
                = true).
    { repeat (apply andb_true_intro; split); apply Z.leb_le; lia. }
    rewrite E. cbn [andb].
    destruct (d <=? Clock.days_in_month y m); [reflexivity | ].
    destruct (get_valid_date today prompt rest). reflexivity.
Qed.

Lemma C3_bounds_then_calendar_witness :
  parse_date "2024-02-29" = Some (2024, 2, 29)
  /\ out_of_bounds 2024 2 29 = false
  /\ get_valid_date (mkDate 2025 8 21) "Enter end date (YYYY-MM-DD): "
       ["2024-02-29"] =
     (Returned (mkDate 2024 2 29), [Prompted "Enter end date (YYYY-MM-DD): "]).
Proof.
  split; [reflexivity | split; [reflexivity | ]].
  exact (C3_bounds_then_calendar (mkDate 2025 8 21)
           "Enter end date (YYYY-MM-DD): " "2024-02-29" [] 2024 2 29
           eq_refl eq_refl).
Defined.

(** *** Requests *)

(** C7 at [get_sensor_data]: the request it sends carries no timeout,
    whatever the arguments; the one [get_sen0308_stream] builds carries
    15 seconds. *)
Theorem C7_get_sensor_data_sends_no_timeout (env : request -> http_result)
  (name measurement : string) (cellId : Z) (start end_ : option Z) :
  map req_timeout (snd (get_sensor_data env name measurement cellId start end_))
  = [None]
  /\ forall cell_id start_utc end_utc,
       req_timeout (stream_request cell_id start_utc end_utc) = Some 15.
Proof. split; reflexivity. Qed.

(** *** Streaming *)

(** C8 as stated fails: with the custom time window 100000000000 the
    start of the window lies before year 1; [end_time - timedelta(...)]
    raises [OverflowError] ahead of the [try] and the caller gets it. *)
Lemma C8_counterexample :
  custom_time_window "100000000000" = Some 100000000000
  /\ get_sen0308_stream offline eight_behind 1762214400 1448 100000000000 =
     (Raise (OtherException "date value out of range"), mkEffects [] []).
Proof. split; reflexivity. Qed.

(** C8, as the code has it.  When the bounds of the window can be
    computed, the call returns whatever the request does: the parsed body
    when the request succeeds, and otherwise an empty sequence after the
    streaming line and a diagnostic line. *)
Theorem C8_request_failures_contained (env : request -> http_result)
  (astimezone_utc : Z -> option Z) (now cell_id time_window : Z)
  (start_utc end_utc : Z) :
  Z.abs (time_window / 86400) <= 999999999 ->
  Clock.datetime_min <= now - time_window <= Clock.datetime_max ->
  astimezone_utc (now - time_window) = Some start_utc ->
  astimezone_utc now = Some end_utc ->
  let r := get_sen0308_stream env astimezone_utc now cell_id time_window in
  let q := stream_request cell_id start_utc end_utc in
  let line := "Streaming sen0308 humidity data from last "
              ++ Py.str_int time_window ++ " seconds..." in
  requested (snd r) = [q]
  /\ match fetch_json env q with
     | Val body => r = (Val body, mkEffects [line] [q])
     | Raise f =>
         fst r = Val (Records [])
         /\ exists diagnostic more,
              printed (snd r) = line :: diagnostic :: more
     end.
Proof.
  intros Hd [Hlo Hhi] Hs He r q line. subst r.
  apply Z.leb_le in Hd, Hlo, Hhi.
  unfold get_sen0308_stream, timedelta_seconds. rewrite Hd. cbv iota.
  unfold datetime_sub. rewrite Hlo, Hhi. cbn [andb]. cbv iota.
  unfold astimezone. rewrite Hs. cbv iota. rewrite He. cbv iota zeta.
  fold q. fold line.
  destruct (fetch_json env q) as [body | [e [t | ] | e]]; cbn; eauto.
Qed.

Lemma C8_request_failures_contained_witness :
  Z.abs (30 / 86400) <= 999999999
  /\ Clock.datetime_min <= 1762214400 - 30 <= Clock.datetime_max
  /\ fst (get_sen0308_stream offline eight_behind 1762214400 1448 30) =
     Val (Records [])
  /\ requested (snd (get_sen0308_stream offline eight_behind 1762214400 1448 30))
     = [stream_request 1448 1762243170 1762243200].
Proof.
  assert (H1 : Z.abs (30 / 86400) <= 999999999) by (vm_compute; discriminate).
  assert (H2 : Clock.datetime_min <= 1762214400 - 30 <= Clock.datetime_max)
    by (vm_compute; split; discriminate).
  split; [exact H1 | split; [exact H2 | ]].
  destruct (C8_request_failures_contained offline eight_behind
              1762214400 1448 30 1762243170 1762243200
              H1 H2 eq_refl eq_refl) as [Hq H].
  split; [exact (proj1 H) | exact Hq].
Defined.

(** *** Columns of a frame *)

Lemma has_col_find (df : DataFrame) (k : string) :
  has_col df k = true <-> exists v, find_col (cols df) k = Some v.
Proof.
  unfold has_col, columns. induction (cols df) as [ | [k' v'] cs IH]; cbn.
  - split; [discriminate | intros [v H]; discriminate].
  - rewrite (String.eqb_sym k k'). destruct (String.eqb k' k); cbn.
    + split; eauto.
    + exact IH.
Qed.

Lemma has_col_false_find (df : DataFrame) (k : string) :
  has_col df k = false -> find_col (cols df) k = None.
Proof.
  intros H. destruct (find_col (cols df) k) as [v | ] eqn:E; [ | reflexivity].
  assert (has_col df k = true) by (apply has_col_find; eauto). congruence.
Qed.

Lemma has_col_in (df : DataFrame) (k : string) :
  has_col df k = true <-> In k (columns df).
Proof.
  unfold has_col. rewrite existsb_exists. split.
  - intros (x & Hin & He). apply String.eqb_eq in He. now subst.
  - intros Hin. exists k. split; [exact Hin | apply String.eqb_refl].
Qed.

Lemma find_col_app (a b : list (string * list cell)) (k : string) :
  find_col (a ++ b) k =
  match find_col a k with
  | Some v => Some v
  | None => find_col b k
  end.
Proof.
  induction a as [ | [k' v'] a IH]; cbn; [reflexivity | ].
  destruct (String.eqb k' k); [reflexivity | exact IH].
Qed.

Lemma find_col_matching (cs : list (string * list cell)) (l k : string) :
  find_col (filter (fun c => String.eqb (fst c) l) cs) k =
  if String.eqb l k then find_col cs k else None.
Proof.
  induction cs as [ | [k' v'] cs IH]; cbn.
  - now destruct (String.eqb l k).
  - destruct (String.eqb_spec k' l) as [-> | Hne]; cbn.
    + destruct (String.eqb l k); [reflexivity | exact IH].
    + rewrite IH. destruct (String.eqb_spec l k) as [-> | _]; [ | reflexivity].
      destruct (String.eqb_spec k' k); [contradiction | reflexivity].
Qed.

(** Selecting by labels keeps, under each label asked for, the column the
    frame had under it. *)
Lemma find_col_select (df : DataFrame) (labels : list string) (k : string) :
  find_col (flat_map (matching df) labels) k =
  if existsb (String.eqb k) labels then find_col (cols df) k else None.
Proof.
  induction labels as [ | l ls IH]; cbn; [reflexivity | ].
  rewrite find_col_app. unfold matching at 1. rewrite find_col_matching.
  rewrite (String.eqb_sym k l). destruct (String.eqb l k); cbn.
  - destruct (find_col (cols df) k) eqn:E; [reflexivity | ].
    rewrite IH. now destruct (existsb (String.eqb k) ls).
  - exact IH.
Qed.

Lemma matching_head (df : DataFrame) (k : string) (v : list cell) :
  find_col (cols df) k = Some v ->
  exists more, matching df k = (k, v) :: more.
Proof.
  unfold matching. induction (cols df) as [ | [k' v'] cs IH]; cbn; [discriminate | ].
  destruct (String.eqb_spec k' k) as [-> | Hne].
  - intros E. injection E as ->. eauto.
  - exact IH.
Qed.

Lemma in_matching (df : DataFrame) (l : string) (c : string * list cell) :
  In c (matching df l) -> In (fst c) (columns df).
Proof.
  unfold matching, columns. rewrite filter_In. intros [H _].
  now apply in_map.
Qed.

Lemma select_present (df : DataFrame) (labels : list string) :
  (forall k, In k labels -> has_col df k = true) ->
  select df labels = inr (mkDF (nrows df) (flat_map (matching df) labels)).
Proof.
  intros H. unfold select.
  assert (E : filter (fun k => negb (has_col df k)) labels = []).
  { induction labels as [ | l ls IH]; cbn; [reflexivity | ].
    rewrite (H l (or_introl eq_refl)). cbn. apply IH.
    intros k Hk. apply H. now right. }
  now rewrite E.
Qed.

Lemma find_col_keys (f : string -> list cell) (ks : list string) (k : string) :
  find_col (map (fun k => (k, f k)) ks) k =
  if existsb (String.eqb k) ks then Some (f k) else None.
Proof.
  induction ks as [ | k' ks IH]; cbn; [reflexivity | ].
  rewrite (String.eqb_sym k k').
  destruct (String.eqb_spec k' k) as [-> | _]; [reflexivity | exact IH].
Qed.

Lemma columns_frame (rs : list record) : columns (DataFrame_of rs) = all_keys rs.
Proof.
  unfold columns, DataFrame_of. cbn. rewrite map_map. cbn. apply map_id.
Qed.

(** The column of a frame built from readings holds, reading by reading,
    the field of that name. *)
Lemma find_col_frame (rs : list record) (k : string) :
  has_col (DataFrame_of rs) k = true ->
  find_col (cols (DataFrame_of rs)) k = Some (map (fun r => field r k) rs).
Proof.
  unfold has_col. rewrite columns_frame. intros H.
  unfold DataFrame_of. cbn [cols].
  rewrite (find_col_keys (fun k => map (fun r => field r k) rs)). now rewrite H.
Qed.

Lemma lower_char_not_T (c : ascii) : Py.lower_char c <> "T"%char.
Proof.
  destruct c as [[] [] [] [] [] [] [] []]; vm_compute; discriminate.
Qed.

(** The label of the value column never is the label of the time column:
    [capitalize] leaves no capital after the first letter. *)
Lemma column_name_not_time (df : DataFrame) (measurement_type : string) :
  column_name df measurement_type <> "Measurement Time (PT)".
Proof.
  unfold column_name, labels.
  destruct (String.eqb measurement_type "pressure"); [cbn; discriminate | ].
  destruct (String.eqb measurement_type "humidity"); [cbn; discriminate | ].
  destruct (String.eqb measurement_type "flow rate"); [cbn; discriminate | ].
  cbn [snd].
  generalize (match find_col (cols df) "unit" with
              | Some (c :: _) => if (0 <? nrows df)%nat then cell_str c else "units"
              | _ => "units"
              end) as unit.
  intros unit H.
  destruct measurement_type as [ | c0 mt]; [cbn in H; discriminate H | ].
  cbn in H. injection H as _ H.
  do 11 (destruct mt as [ | ? mt]; [cbn in H; discriminate H | ];
         cbn in H; injection H as _ H).
  destruct mt as [ | c mt]; [cbn in H; discriminate H | ].
  cbn in H. injection H as Hc _.
  apply (lower_char_not_T c).
  destruct c as [b0 b1 b2 b3 b4 b5 b6 b7]. cbn. congruence.
Qed.

Lemma find_col_assign_other (cs : list (string * list cell)) (k k' : string)
  (v : list cell) :
  k' <> k ->
  find_col (map (fun c => if String.eqb (fst c) k then (fst c, v) else c) cs) k'
  = find_col cs k'.
Proof.
  intros Hne. induction cs as [ | [l x] cs IH]; cbn; [reflexivity | ].
  destruct (String.eqb_spec l k) as [-> | Hl]; cbn.
  - destruct (String.eqb_spec k k'); [congruence | exact IH].
  - now rewrite IH.
Qed.

Lemma fst_assign_map (cs : list (string * list cell)) (k : string) (v : list cell) :
  map fst (map (fun c => if String.eqb (fst c) k then (fst c, v) else c) cs)
  = map fst cs.
Proof.
  rewrite map_map. apply map_ext. intros c.
  now destruct (String.eqb (fst c) k).
Qed.

(** *** The formatter *)

Section FormatterFacts.

Variable to_datetime_utc : list cell -> option (list (option Z)).
Variable pacific_offset : Z -> Z.
Variable fmt_mean fmt_max : list cell -> option string.


(** Lines 88-94 on a frame that has a timestamp column pandas can read:
    the converted column comes first, the other columns are untouched. *)
Lemma timestamp_first_shape (df : DataFrame) (ts : list cell)
  (us : list (option Z)) :
  find_col (cols df) "timestamp" = Some ts ->
  to_datetime_utc ts = Some us ->
  exists tail,
    timestamp_first to_datetime_utc pacific_offset df =
    inr (mkDF (nrows df)
           (("timestamp", map (display_time pacific_offset) us) :: tail))
    /\ (forall k, k <> "timestamp" -> find_col tail k = find_col (cols df) k)
    /\ (forall k, In k (map fst tail) -> In k (columns df)).
Proof.
  intros Hts Hdt.
  assert (Hhas : has_col df "timestamp" = true) by (apply has_col_find; eauto).
  set (others := filter (fun col => negb (String.eqb col "timestamp")) (columns df)).
  assert (Hsel : select df ("timestamp" :: others) =
                 inr (mkDF (nrows df) (flat_map (matching df) ("timestamp" :: others)))).
  { apply select_present. intros k [<- | Hk]; [exact Hhas | ].
    apply has_col_in. unfold others in Hk. now apply filter_In in Hk. }
  destruct (matching_head df "timestamp" ts Hts) as (more & Hmore).
  set (rest := (more ++ flat_map (matching df) others)%list).
  assert (Hflat : flat_map (matching df) ("timestamp" :: others)
                  = ("timestamp", ts) :: rest).
  { cbn [flat_map]. now rewrite Hmore. }
  set (put := fun c : string * list cell =>
                if String.eqb (fst c) "timestamp"
                then (fst c, map (display_time pacific_offset) us) else c).
  exists (map put rest). split; [ | split].
  - unfold timestamp_first. rewrite Hhas. fold others. rewrite Hsel, Hflat.
    unfold get_col. cbn [cols find_col]. rewrite String.eqb_refl.
    rewrite Hdt. unfold assign. cbn [cols nrows map fst]. rewrite String.eqb_refl.
    reflexivity.
  - intros k Hk. unfold put. rewrite find_col_assign_other by exact Hk.
    pose proof (find_col_select df ("timestamp" :: others) k) as F.
    rewrite Hflat in F. cbn [find_col] in F.
    destruct (String.eqb_spec "timestamp" k) as [E | _]; [congruence | ].
    rewrite F.
    destruct (existsb (String.eqb k) ("timestamp" :: others)) eqn:Ex; [reflexivity | ].
    symmetry. apply has_col_false_find.
    destruct (has_col df k) eqn:Hc; [ | reflexivity].
    apply has_col_in in Hc.
    assert (Hin : In k ("timestamp" :: others)).
    { right. unfold others. apply filter_In. split; [exact Hc | ].
      destruct (String.eqb_spec k "timestamp"); [contradiction | reflexivity]. }
    assert (Ex' : existsb (String.eqb k) ("timestamp" :: others) = true).
    { apply existsb_exists. exists k. split; [exact Hin | apply String.eqb_refl]. }
    congruence.
  - intros k Hk. unfold put in Hk. rewrite fst_assign_map in Hk.
    apply in_map_iff in Hk as (c & <- & Hc).
    assert (Hc' : In c (flat_map (matching df) ("timestamp" :: others))).
    { rewrite Hflat. now right. }
    apply in_flat_map in Hc' as (l & _ & Hl). exact (in_matching df l c Hl).
Qed.

Lemma labels_shape (df : DataFrame) (first : list cell)
  (tail : list (string * list cell)) (measurement_type : string) :
  (forall k, k <> "timestamp" -> find_col tail k = find_col (cols df) k) ->
  labels (mkDF (nrows df) (("timestamp", first) :: tail)) measurement_type
  = labels df measurement_type.
Proof.
  intros H. unfold labels. cbn [cols nrows find_col].
  change (String.eqb "timestamp" "unit") with false. cbv iota.
  rewrite (H "unit") by discriminate. reflexivity.
Qed.


Lemma nrows_frame (rs : list record) :
  rs <> [] -> (0 <? nrows (DataFrame_of rs))%nat = true.
Proof. destruct rs; [contradiction | reflexivity]. Qed.



(** C10, as the code has it.  For readings with a timestamp column pandas
    can read, no data column and no column already carrying the label of
    the value column, the formatter prints the summary with the mean and
    the max as N/A, prints the table heading, and raises [KeyError] for
    the value column in place of the table. *)
Theorem C10_missing_data_column (rs : list record) (cell_id : Z)
  (measurement_type : string) (us : list (option Z)) :
  let df := DataFrame_of rs in
  rs <> [] ->
  to_datetime_utc (map (fun r => field r "timestamp") rs) = Some us ->
  has_col df "timestamp" = true ->
  has_col df "data" = false ->
  has_col df (column_name df measurement_type) = false ->
  format_data_display to_datetime_utc pacific_offset fmt_mean fmt_max
    df cell_id measurement_type =
  ((summary df cell_id measurement_type
      (cell_str (first_cell (map (display_time pacific_offset) us)) ++ " to "
       ++ cell_str (last_cell (map (display_time pacific_offset) us)))
      (Py.str_int (Z.of_nat (List.length rs))) "N/A" "N/A"
    ++ [Line "DATA BY TIMESTAMPS:"])%list,
   Some (KeyError [column_name df measurement_type])).
Proof.
  intros df Hne Hdt Hhas Hdata Hcol.
  pose proof (nrows_frame rs Hne) as Hn. fold df in Hn.
  pose proof (find_col_frame rs "timestamp" Hhas) as Hts. fold df in Hts.
  destruct (timestamp_first_shape df _ _ Hts Hdt) as (tail & Htf & Hsame & Hsub).
  pose proof (column_name_not_time df measurement_type) as Hnt.
  unfold format_data_display, summary, measurement_name, column_name in *.
  rewrite Htf. rewrite (labels_shape df _ tail measurement_type Hsame).
  destruct (labels df measurement_type) as [[unit name] col]. cbn [fst snd] in *.
  cbn [cols find_col]. change (String.eqb "timestamp" "data") with false. cbv iota.
  rewrite (Hsame "data") by discriminate.
  rewrite (has_col_false_find df "data" Hdata).
  unfold stats, get_col. cbn [nrows cols find_col]. rewrite Hn.
  change (String.eqb "timestamp" "timestamp") with true. cbv iota.
  cbn [rename nrows cols map fst snd renamed].
  change (String.eqb "timestamp" "timestamp") with true. cbv iota.
  rewrite Hn.
  assert (Hmiss : select
            (rename (mkDF (nrows df)
                       (("timestamp", map (display_time pacific_offset) us)
                        :: tail))
                    [("timestamp", "Measurement Time (PT)"); ("data", col)])
            ["Measurement Time (PT)"; col] = inl (KeyError [col])).
  { unfold rename. cbn [nrows cols map fst snd renamed].
    change (String.eqb "timestamp" "timestamp") with true. cbv iota.
    unfold select. cbn [filter].
    match goal with
    | |- context [has_col ?d "Measurement Time (PT)"] =>
        assert (H1 : has_col d "Measurement Time (PT)" = true)
    end.
    { unfold has_col, columns. cbn [cols map fst existsb].
      now rewrite String.eqb_refl. }
    rewrite H1. cbn [negb].
    match goal with
    | |- context [has_col ?d col] => destruct (has_col d col) eqn:H2
    end; [ | reflexivity].
    exfalso. apply has_col_in in H2. unfold columns in H2.
    cbn [cols map fst] in H2. destruct H2 as [H2 | H2]; [congruence | ].
    rewrite map_map in H2. cbn [fst] in H2.
    apply in_map_iff in H2 as (c & Hc & Hin).
    assert (Hk : In (fst c) (columns df)) by (apply Hsub; now apply in_map).
    destruct (String.eqb_spec "timestamp" (fst c)) as [_ | _]; [congruence | ].
    destruct (String.eqb_spec "data" (fst c)) as [Ed | _].
    - rewrite <- Ed in Hk. apply has_col_in in Hk. congruence.
    - rewrite Hc in Hk. apply has_col_in in Hk. congruence. }
  rewrite Hmiss.
  assert (Hlen : nrows df = List.length rs) by reflexivity.
  rewrite Hlen. reflexivity.
Qed.

End FormatterFacts.


(** C10 as stated fails twice.  A reading without a data field whose
    value already sits under the display label is printed as a table and
    nothing is raised.  A reading without timestamp raises [KeyError]
    while the summary is built, before anything is printed. *)
Lemma C10_counterexample :
  let format := format_data_display sample_to_datetime pdt (always "41.00")
                  (always "41.00") in
  has_col (DataFrame_of prelabelled) "data" = false
  /\ snd (format (DataFrame_of prelabelled) 1448 "humidity") = None
  /\ In (Table (mkDF 1 [("Measurement Time (PT)", [CStr "08-21-2025 00:06:40"]);
                        ("Humidity (%)", [CInt 41])]))
        (fst (format (DataFrame_of prelabelled) 1448 "humidity"))
  /\ has_col (DataFrame_of bare) "data" = false
  /\ format (DataFrame_of bare) 1448 "humidity" = ([], Some (KeyError ["timestamp"])).
Proof.
  cbv zeta. repeat split; try reflexivity.
  vm_compute. do 10 right. left. reflexivity.
Qed.

Lemma C10_missing_data_column_witness :
  let rs := [[("timestamp", CStr "2025-08-21 07:06:40"); ("value", CInt 41)]] in
  let df := DataFrame_of rs in
  rs <> []
  /\ has_col df "timestamp" = true
  /\ has_col df "data" = false
  /\ has_col df (column_name df "humidity") = false
  /\ snd (format_data_display sample_to_datetime pdt (always "41.00")
            (always "41.00") df 1448 "humidity")
     = Some (KeyError ["Humidity (%)"]).
Proof.
  intros rs df.
  assert (H1 : rs <> []) by discriminate.
  split; [exact H1 | ]. do 3 (split; [reflexivity | ]).
  exact (f_equal snd
           (C10_missing_data_column sample_to_datetime pdt (always "41.00")
              (always "41.00") rs 1448 "humidity" [Some 1755760000]
              H1 eq_refl eq_refl eq_refl eq_refl)).
Defined.

End DirtVizFacts.

(* ------------------------------------------------------------------ *)
(** ** remote_solenoid.py: the commands, the script and the thread *)

Module SolenoidMore.
Import Http Solenoid SolenoidSpec SolenoidScript SolenoidTerms SolenoidFacts.
Local Open Scope py_scope.

(** *** Computations that keep order *)

Ltac split4 := split; [ | split; [ | split ] ].
Ltac nothing_sent := exists []; split; [now rewrite app_nil_r | constructor].
Ltac nothing_printed := exists []; now rewrite app_nil_r.

Lemma linked_same w w' :
  auto_monitoring_active w' = auto_monitoring_active w ->
  monitoring_thread w' = monitoring_thread w ->
  threads w' = threads w ->
  linked w -> linked w'.
Proof.
  unfold linked, monitor_alive, thread_is_alive. intros -> -> ->. auto.
Qed.

Lemma orderly_silent {A} (m : M A) :
  (forall w, exists r, m w = (r, w) /\ forall c, r <> Exit c) -> orderly m.
Proof.
  intros H w. destruct (H w) as (r & -> & Hr). cbn. split4.
  - intros c E. now destruct (Hr c).
  - nothing_sent.
  - nothing_printed.
  - auto.
Qed.

Lemma orderly_ret {A} (a : A) : orderly (ret a).
Proof. apply orderly_silent. intros w. exists (Val a). split; [reflexivity | discriminate]. Qed.

Lemma orderly_raise {A} (f : failure) : orderly (@raise A f).
Proof. apply orderly_silent. intros w. exists (Raise f). split; [reflexivity | discriminate]. Qed.

Lemma orderly_get_active : orderly get_active.
Proof.
  apply orderly_silent. intros w. exists (Val (auto_monitoring_active w)).
  split; [reflexivity | discriminate].
Qed.

Lemma orderly_exit {A} : orderly (@sys_exit A 1).
Proof.
  intros w. cbn. split4.
  - intros c E. now injection E.
  - nothing_sent.
  - nothing_printed.
  - auto.
Qed.

Lemma orderly_print (s : string) : orderly (print s).
Proof.
  intros w. cbn. split4.
  - discriminate.
  - nothing_sent.
  - now exists [s].
  - apply linked_same; reflexivity.
Qed.

Lemma orderly_bind {A B} (m : M A) (k : A -> M B) :
  orderly m -> (forall a, orderly (k a)) -> orderly (bind m k).
Proof.
  intros Hm Hk w. unfold bind.
  destruct (Hm w) as (He & (l1 & Hl1 & F1) & (o1 & Ho1) & L1).
  destruct (m w) as [[a | c | f] w1]; cbn [fst snd] in *.
  - destruct (Hk a w1) as (He2 & (l2 & Hl2 & F2) & (o2 & Ho2) & L2).
    split4; auto.
    + exists (l1 ++ l2)%list. split.
      * now rewrite Hl2, Hl1, app_assoc.
      * apply Forall_app. now split.
    + exists (o1 ++ o2)%list. now rewrite Ho2, Ho1, app_assoc.
  - split4; [ | now exists l1 | now exists o1 | exact L1].
    intros c0 E. injection E as <-. now apply He.
  - split4; [discriminate | now exists l1 | now exists o1 | exact L1].
Qed.

Lemma orderly_status_get st k d : orderly (status_get st k d).
Proof. destruct st; [apply orderly_ret | apply orderly_raise]. Qed.

Lemma orderly_upper_of v : orderly (upper_of v).
Proof. destruct v; first [apply orderly_ret | apply orderly_raise]. Qed.

Lemma orderly_stop_auto_monitoring : orderly stop_auto_monitoring.
Proof.
  intros w. cbn. split4.
  - discriminate.
  - nothing_sent.
  - now exists ["Auto monitoring stopping..."].
  - intros _ H. discriminate H.
Qed.

Lemma orderly_start_auto_monitoring ci : orderly (start_auto_monitoring ci).
Proof.
  intros w. destruct (monitor_alive w) eqn:Hm.
  - rewrite (start_when_alive ci w Hm). cbn. split4.
    + discriminate.
    + nothing_sent.
    + now exists ["Auto monitoring is already running"].
    + apply linked_same; reflexivity.
  - rewrite (start_when_dead ci w Hm). cbn. split4.
    + discriminate.
    + nothing_sent.
    + now exists ["Auto monitoring started"].
    + intros _ _. unfold monitor_alive, thread_is_alive. cbn.
      rewrite nth_error_app2 by lia. now rewrite Nat.sub_diag.
Qed.

Section Orderly.

Variable env : nat -> request -> http_result.

Lemma orderly_http (q : request) : timeout5 q -> orderly (http env q).
Proof.
  intros Hq w. unfold http.
  destruct (env _ q); cbn; (split4;
    [ discriminate
    | exists [q]; split; [reflexivity | now constructor]
    | nothing_printed
    | apply linked_same; reflexivity ]).
Qed.

Lemma orderly_get_system_status : orderly (get_system_status env).
Proof.
  intros w. unfold get_system_status, requests_get.
  destruct (orderly_http (mkRequest GET (BASE_URL ++ "/status") [] [] (Some 5))
              eq_refl w) as (_ & S & O & L).
  destruct (http env _ w) as [[resp | c | f] w1]; cbn [fst snd] in *;
    try (split4; auto; discriminate).
  destruct (status_code resp =? 200); cbn; (split4; auto; discriminate).
Qed.

End Orderly.

Ltac orderly_basic :=
  first [ apply orderly_print | apply orderly_ret | apply orderly_raise
        | apply orderly_exit | apply orderly_get_active
        | apply orderly_status_get | apply orderly_upper_of
        | apply orderly_get_system_status
        | apply orderly_http; reflexivity
        | apply orderly_bind; [ | intros ? ] ].

Lemma orderly_print_status_summary status : orderly (print_status_summary status).
Proof.
  unfold print_status_summary.
  destruct (status_truthy status); [destruct status as [st | ] | ];
    repeat orderly_basic.
Qed.

Lemma orderly_check_response r : orderly (check_response r).
Proof.
  unfold check_response. destruct r as [r | ]; [ | apply orderly_ret].
  destruct (negb (status_code r =? 200)); repeat orderly_basic.
Qed.

Ltac orderly_step :=
  first [ apply orderly_print_status_summary | apply orderly_start_auto_monitoring
        | apply orderly_stop_auto_monitoring | apply orderly_check_response
        | orderly_basic ].

Section OrderlyCommands.

Variable env : nat -> request -> http_result.
Variable argv : list string.

Lemma orderly_dispatch command : orderly (dispatch env argv command).
Proof.
  unfold dispatch, when, requests_post, requests_get, print_usage.
  repeat match goal with
         | |- orderly (if String.eqb command ?c then _ else _) =>
             destruct (String.eqb command c)
         end.
  all: repeat match goal with
         | |- orderly (bind (if ?b then _ else _) _) => destruct b
         | |- orderly (if ?b then _ else _) => destruct b
         | |- orderly (match ?s with Some _ => _ | None => _ end) => destruct s
         | |- orderly (match ?s with JObject _ => _ | JOther _ _ _ => _ end) => destruct s
         | |- orderly _ => orderly_step
         end.
Qed.


Lemma orderly_send_command command : orderly (send_command env argv command).
Proof.
  intros w. unfold send_command.
  pose proof (orderly_bind _ _ (orderly_dispatch command) orderly_check_response w)
    as (He & (l & Hl & F) & (o & Ho) & L).
  destruct ((response <- dispatch env argv command ;; check_response response) w)
    as [[u | c | [e rt | e]] w1]; cbn [fst snd] in *.
  - split4; [discriminate | now exists l | now exists o | exact L].
  - split4; [exact He | now exists l | now exists o | exact L].
  - cbn. split4.
    + discriminate.
    + exists l. split; [exact Hl | exact F].
    + exists (o ++ unreachable_lines e)%list.
      rewrite Ho, <- !app_assoc. reflexivity.
    + intros Hw. apply (linked_same w1); auto.
  - cbn. split4.
    + discriminate.
    + exists l. split; [exact Hl | exact F].
    + exists (o ++ [("Unexpected error: " ++ e)%string])%list.
      rewrite Ho, <- !app_assoc. reflexivity.
    + intros Hw. apply (linked_same w1); auto.
Qed.

Lemma orderly_main : orderly (main env argv).
Proof.
  unfold main. destruct (argc argv <? 2)%nat; [ | apply orderly_send_command].
  unfold print_usage. repeat orderly_step.
Qed.

Lemma send_command_outcome (command : string) (w : world) :
  fst (send_command env argv command w) = Val tt
  \/ fst (send_command env argv command w) = Exit 1.
Proof.
  destruct (orderly_send_command command w) as (He & _).
  unfold send_command in *.
  destruct ((response <- dispatch env argv command ;; check_response response) w)
    as [[[] | c | [e rt | e]] w1]; cbn in *; auto.
  right. now rewrite (He c eq_refl).
Qed.

(** X1. [send_command] lets no exception out: whatever the command, the
    arguments, the controller and the state of the process, it returns or
    the process exits with code 1. *)
Theorem send_command_returns_or_exits_1 (command : string) (w : world) :
  fst (send_command env argv command w) = Val tt
  \/ fst (send_command env argv command w) = Exit 1.
Proof. exact (send_command_outcome command w). Qed.

End OrderlyCommands.


(** *** Commands *)

Lemma not_a_command (command c : string) :
  ~ In command commands -> In c commands -> String.eqb command c = false.
Proof.
  intros Hn Hc. destruct (String.eqb_spec command c) as [-> | _]; [ | reflexivity].
  contradiction.
Qed.

Section Commands.

Variable env : nat -> request -> http_result.

(** X2. A word that is none of the ten commands, or no word at all, gets the
    error line and the usage text, and the process exits with code 1
    before anything is sent. *)
Theorem unknown_command_exits (prog command : string) (extra : list string) :
  ~ In command commands ->
  main env (prog :: command :: extra) initial =
  (Exit 1, mkWorld false None []
             ["Error: Unknown command '" ++ command ++ "'"; usage_message] [])
  /\ main env [prog] initial =
     (Exit 1, mkWorld false None []
                ["Error: No solenoid command received."; usage_message] []).
Proof.
  intros Hn. split; [ | reflexivity].
  unfold main, send_command, dispatch.
  cbn [argc List.length Nat.ltb Nat.leb arg nth].
  rewrite !(not_a_command command) by (exact Hn || (cbn; tauto)).
  reflexivity.
Qed.

(** X3. With the controller out of reach no command fails and none starts
    the monitor: the eight commands that post or get report the
    connection error and return, and [status] and [moisture_check], which
    go through [get_system_status], print their could-not-fetch line. *)
Theorem unreachable_controller (prog a b e : string) (rt : option string) :
  (forall n q, env n q = Refused (RequestException e rt)) ->
  let gives_up argv q :=
    main env argv initial =
    (Val tt, mkWorld false None [] (unreachable_lines e) [q]) in
  let shrugs argv line :=
    main env argv initial =
    (Val tt, mkWorld false None [] [line] [status_request]) in
  gives_up [prog; "open"] (mkRequest POST (BASE_URL ++ "/open") [] [] (Some 5))
  /\ gives_up [prog; "close"] (mkRequest POST (BASE_URL ++ "/close") [] [] (Some 5))
  /\ gives_up [prog; "timed"; a] (timed_request a)
  /\ gives_up [prog; "state"] (mkRequest GET (BASE_URL ++ "/state") [] [] (Some 5))
  /\ gives_up [prog; "set_thresholds"; a; b] (setup_request [("min", a); ("max", b)])
  /\ gives_up [prog; "auto_irrigation"; a; b]
       (setup_request [("min", a); ("max", b); ("enable", "true")])
  /\ gives_up [prog; "auto_on"] (auto_request "true")
  /\ gives_up [prog; "auto_off"] (auto_request "false")
  /\ shrugs [prog; "status"] "Could not fetch system status"
  /\ shrugs [prog; "moisture_check"] "Could not fetch moisture reading from ESP32".
Proof.
  intros H. cbv zeta.
  unfold main, send_command, dispatch, argc, arg, when, bind, get_system_status,
    requests_post, requests_get, http.
  unfold ret, print. cbn. rewrite !H. cbn.
  repeat split; reflexivity.
Qed.


End Commands.

Lemma unreachable_controller_witness :
  let env : nat -> request -> http_result :=
    fun _ _ => Refused (RequestException "timed out" None) in
  (forall n q, env n q = Refused (RequestException "timed out" None))
  /\ main env ["remote_solenoid.py"; "auto_on"] initial =
     (Val tt, mkWorld false None [] (unreachable_lines "timed out")
                [auto_request "true"]).
Proof.
  intros env.
  assert (H : forall n q, env n q = Refused (RequestException "timed out" None))
    by reflexivity.
  split; [exact H | ].
  exact (proj1 (proj2 (proj2 (proj2 (proj2 (proj2 (proj2
           (unreachable_controller env "remote_solenoid.py" "30" "60"
              "timed out" None H)))))))).
Defined.

Lemma unknown_command_exits_witness :
  ~ In "toggle" commands
  /\ fst (main (steady moist41) ["remote_solenoid.py"; "toggle"] initial) = Exit 1.
Proof.
  assert (H : ~ In "toggle" commands).
  { cbn. intros H. repeat destruct H as [H | H]; try discriminate H. exact H. }
  split; [exact H | ].
  exact (f_equal fst
           (proj1 (unknown_command_exits (steady moist41) "remote_solenoid.py"
                     "toggle" [] H))).
Defined.



(** *** The script *)


Section ScriptFacts.

Variable env : nat -> request -> http_result.


End ScriptFacts.


(** *** What the monitoring thread prints *)

(** X6. [print_status_summary] raises exactly on a true status that is no
    dict or whose solenoid state is no string, after the heading and at
    most one more line.  On every other status it returns: a dict prints
    its ten lines whichever keys are missing, an empty or absent status
    the six lines around the could-not-fetch line.  Nothing is sent. *)
Theorem print_status_summary_outcome (status : option pyjson) (w : world) :
  let r := print_status_summary status w in
  sent (snd r) = sent w
  /\ if summary_fails status
     then (exists msg, fst r = Raise (OtherException msg))
          /\ (List.length (out w) + 3 <= List.length (out (snd r))
              <= List.length (out w) + 4)%nat
     else fst r = Val tt
          /\ List.length (out (snd r)) =
             (List.length (out w) + if status_truthy status then 10 else 6)%nat.
Proof.
  cbv zeta. unfold summary_fails, print_status_summary.
  destruct status as [[d | t ty p] | ]; cbn [status_truthy].
  - destruct d as [ | kv d]; cbn [List.length Nat.eqb negb andb].
    + unfold bind, print, get_active, ret. cbn. rewrite !length_app. cbn.
      split; [reflexivity | split; [reflexivity | lia]].
    + generalize (kv :: d). clear kv d. intros d. unfold status_get.
      destruct (dict_get d "solenoid_state" (SStr "unknown")) eqn:Es;
        unfold bind, print, get_active, ret, upper_of, raise; cbn;
        rewrite ?Es; cbn; rewrite ?length_app; cbn;
        (split; [reflexivity | split; [unfold AttributeError; eauto | lia]]).
  - destruct t; cbn [andb].
    + unfold bind, print, get_active, ret, status_get, raise. cbn.
      rewrite !length_app. cbn.
      split; [reflexivity | split; [unfold AttributeError; eauto | lia]].
    + unfold bind, print, get_active, ret. cbn. rewrite !length_app. cbn.
      split; [reflexivity | split; [reflexivity | lia]].
  - unfold bind, print, get_active, ret. cbn. rewrite !length_app. cbn.
    split; [reflexivity | split; [reflexivity | lia]].
Qed.


Ltac shape_out :=
  rewrite <- ?app_assoc; cbn [app];
  eexists; eexists; split; [reflexivity | ].

(** The printing part of the loop body, case by case. *)
Lemma report_shape (n : Z) (status : option pyjson) (w : world) :
  let r := report n status w in
  fst r = Val tt
  /\ sent (snd r) = sent w
  /\ exists line more,
       out (snd r) = (out w ++ line :: more)%list
       /\ if status_truthy status
          then (if n mod status_print_interval =? 0 then more <> [] else more = [])
          else line = "Cycle " ++ Py.str_int n ++ ": Could not fetch system status"
               /\ more = [].
Proof.
  cbv zeta. unfold report.
  destruct (status_truthy status) eqn:Ht.
  2:{ cbn. split; [reflexivity | split; [reflexivity | ]].
      eexists; eexists; split; [reflexivity | split; reflexivity]. }
  destruct (n mod status_print_interval =? 0).
  - unfold print_status_summary. rewrite Ht.
    destruct status as [[d | t ty p] | ]; [ | | discriminate Ht].
    + unfold status_get.
      destruct (dict_get d "solenoid_state" (SStr "unknown")) eqn:Es;
        unfold bind, print, get_active, ret, upper_of, raise; cbn;
        rewrite ?Es; cbn;
        (split; [reflexivity | split; [reflexivity | shape_out; discriminate]]).
    + unfold bind, print, get_active, ret, status_get, raise. cbn.
      split; [reflexivity | split; [reflexivity | shape_out; discriminate]].
  - destruct status as [[d | t ty p] | ]; [ | | discriminate Ht].
    + unfold status_get.
      destruct (dict_get d "solenoid_state" (SStr "unknown")) eqn:Es;
        unfold bind, print, get_active, ret, upper_of, raise; cbn;
        rewrite ?Es; cbn;
        (split; [reflexivity | split; [reflexivity | shape_out; reflexivity]]).
    + unfold bind, print, get_active, ret, status_get, raise. cbn.
      split; [reflexivity | split; [reflexivity | shape_out; reflexivity]].
Qed.


(** X7. The printing part of the loop body never raises and sends nothing.
    It prints one line when the fetch failed, whatever the cycle, and one
    line on a cycle that is no multiple of five, also when the status is
    malformed; on every fifth cycle with a status it prints the summary,
    several lines. *)
Theorem report_never_raises (n : Z) (status : option pyjson) (w : world) :
  let r := report n status w in
  fst r = Val tt
  /\ sent (snd r) = sent w
  /\ exists line more,
       out (snd r) = (out w ++ line :: more)%list
       /\ if status_truthy status
          then (if n mod status_print_interval =? 0 then more <> [] else more = [])
          else line = "Cycle " ++ Py.str_int n ++ ": Could not fetch system status"
               /\ more = [].
Proof. exact (report_shape n status w). Qed.

(** *** The monitoring thread in the process *)

Lemma set_thread_lookup w t th t' :
  nth_error (threads (set_thread w t th)) t' =
  if Nat.eqb t t' then
    match nth_error (threads w) t' with Some _ => Some th | None => None end
  else nth_error (threads w) t'.
Proof. unfold set_thread. cbn. apply nth_error_set_nth. Qed.

Section Threads.

Variable env : nat -> request -> http_result.

Lemma act_step w t th l th' w' :
  nth_error (threads w) t = Some th ->
  monitor_step env th w = Some (l, th', w') ->
  act env (Step t) w = (set_thread w' t th', [(t, l)]).
Proof. intros H1 H2. cbn [act]. now rewrite H1, H2. Qed.

(** With the flag set, a statement of a thread inside its loop leaves it
    inside its loop. *)
Lemma monitor_step_loops th w l th' w' :
  auto_monitoring_active w = true ->
  at_pc th <> PStopped -> at_pc th <> PDone ->
  monitor_step env th w = Some (l, th', w') ->
  at_pc th' <> PStopped /\ at_pc th' <> PDone.
Proof.
  intros Hf H1 H2 H. unfold monitor_step in H. rewrite Hf in H.
  destruct (at_pc th) eqn:Hpc; try congruence.
  - injection H as _ <- _. cbn. split; discriminate.
  - injection H as _ <- _. cbn. split; discriminate.
  - destruct (get_system_status env w) as [[s | c | f] w1];
      injection H as _ <- _; cbn; split; discriminate.
  - injection H as _ <- _. cbn. split; discriminate.
  - destruct (i <? check_interval th); cbn in H;
      injection H as _ <- _; cbn; split; discriminate.
  - injection H as _ <- _. cbn. split; discriminate.
Qed.

Lemma looping_alive w : looping w -> monitor_alive w = true.
Proof.
  intros (t & th & Hm & Hth & H1 & H2). unfold monitor_alive, thread_is_alive.
  rewrite Hm, Hth. unfold alive. destruct (at_pc th); congruence.
Qed.

Lemma act_keeps_looping a w :
  is_stop a = false ->
  auto_monitoring_active w = true -> looping w ->
  auto_monitoring_active (fst (act env a w)) = true
  /\ looping (fst (act env a w)).
Proof.
  intros Hs Hf L. destruct a as [ci | | t']; [ | discriminate Hs | ].
  - cbn [act fst]. unfold world_of.
    rewrite (start_when_alive ci w (looping_alive w L)). cbn. split; [exact Hf | ].
    exact L.
  - cbn [act]. destruct (nth_error (threads w) t') as [th0 | ] eqn:Hth0; [ | now split].
    destruct (monitor_step env th0 w) as [[[l th'] w'] | ] eqn:Hst; [ | now split].
    destruct (monitor_step_frame env _ _ _ _ _ Hst) as (Hfl & Hmt & Hts).
    cbn [fst]. split; [cbn; congruence | ].
    destruct L as (t & th & Hm & Hth & H1 & H2).
    destruct (Nat.eqb_spec t' t) as [E | Hne].
    + subst t'. assert (th0 = th) by congruence. subst th0.
      destruct (monitor_step_loops _ _ _ _ _ Hf H1 H2 Hst) as (G1 & G2).
      exists t, th'. split; [cbn; congruence | ]. split; [ | now split].
      rewrite set_thread_lookup, Nat.eqb_refl, Hts, Hth. reflexivity.
    + exists t, th. split; [cbn; congruence | ]. split; [ | now split].
      rewrite set_thread_lookup, Hts.
      destruct (Nat.eqb_spec t' t); [contradiction | exact Hth].
Qed.

Lemma run_keeps_looping acts : forall w,
  forallb (fun a => negb (is_stop a)) acts = true ->
  auto_monitoring_active w = true -> looping w ->
  auto_monitoring_active (fst (run env acts w)) = true
  /\ looping (fst (run env acts w)).
Proof.
  induction acts as [ | a rest IH]; intros w Hn Hf L; [now split | ].
  cbn [forallb] in Hn. apply andb_prop in Hn as [Ha Hrest].
  apply negb_true_iff in Ha.
  destruct (act_keeps_looping a w Ha Hf L) as (Hf1 & L1).
  cbn [run]. destruct (act env a w) as [w1 tr1]. cbn [fst] in *.
  specialize (IH w1 Hrest Hf1 L1).
  destruct (run env rest w1) as [w2 tr2]. exact IH.
Qed.

(** X8. Once started, the monitor runs until it is stopped: after any history
    that left no monitoring thread alive, a start call followed by any
    schedule without a stop call leaves the flag set and exactly one
    thread alive, the one just started.  No failed fetch and no malformed
    status ends the loop. *)
Theorem monitor_runs_until_stopped (acts0 acts : list action) (ci : Z) :
  let w0 := fst (run env acts0 initial) in
  monitor_alive w0 = false ->
  forallb (fun a => negb (is_stop a)) acts = true ->
  let w := fst (run env (CallStart ci :: acts) w0) in
  auto_monitoring_active w = true
  /\ monitoring_thread w = Some (List.length (threads w0))
  /\ monitor_alive w = true
  /\ alive_count w = 1%nat.
Proof.
  intros w0 Hd Hn w.
  assert (I0 : others_dead w0) by (apply others_dead_run, others_dead_initial).
  set (w1 := snd (start_auto_monitoring ci w0)).
  assert (Hw : w = fst (run env acts w1)).
  { subst w. cbn [run act]. unfold world_of. fold w1.
    now destruct (run env acts w1). }
  assert (E1 : w1 = mkWorld true (Some (List.length (threads w0)))
                       (threads w0 ++ [mkThread PStart 0 ci])
                       (out w0 ++ ["Auto monitoring started"]) (sent w0)).
  { unfold w1. now rewrite (start_when_dead ci w0 Hd). }
  assert (L1 : looping w1).
  { exists (List.length (threads w0)), (mkThread PStart 0 ci). rewrite E1. cbn.
    split; [reflexivity | ]. split.
    - rewrite nth_error_app2 by lia. now rewrite Nat.sub_diag.
    - split; discriminate. }
  assert (F1 : auto_monitoring_active w1 = true) by now rewrite E1.
  destruct (run_keeps_looping acts w1 Hn F1 L1) as (Hf & L).
  rewrite <- Hw in Hf, L.
  assert (I : others_dead w).
  { rewrite Hw. apply others_dead_run. unfold w1. now apply others_dead_start. }
  pose proof (looping_alive w L) as Ha.
  split; [exact Hf | ]. split; [ | split; [exact Ha | ]].
  - (* the handle is only written by a start that finds no live thread *)
    clear - Hw E1 L1 Hn F1.
    rewrite Hw.
    assert (G : forall acts w2,
               forallb (fun a => negb (is_stop a)) acts = true ->
               auto_monitoring_active w2 = true -> looping w2 ->
               monitoring_thread (fst (run env acts w2)) = monitoring_thread w2).
    { clear. induction acts as [ | a rest IH]; intros w2 Hn Hf L; [reflexivity | ].
      cbn [forallb] in Hn. apply andb_prop in Hn as [Ha Hrest].
      apply negb_true_iff in Ha.
      destruct (act_keeps_looping a w2 Ha Hf L) as (Hf1 & L1).
      assert (M : monitoring_thread (fst (act env a w2)) = monitoring_thread w2).
      { destruct a as [ci | | t']; [ | discriminate Ha | ].
        - cbn [act fst]. unfold world_of.
          now rewrite (start_when_alive ci w2 (looping_alive w2 L)).
        - cbn [act]. destruct (nth_error (threads w2) t') as [th0 | ]; [ | reflexivity].
          destruct (monitor_step env th0 w2) as [[[l th'] w'] | ] eqn:Hst;
            [ | reflexivity].
          destruct (monitor_step_frame env _ _ _ _ _ Hst) as (_ & Hmt & _).
          cbn. exact Hmt. }
      cbn [run]. destruct (act env a w2) as [w3 tr3]. cbn [fst] in *.
      specialize (IH w3 Hrest Hf1 L1).
      destruct (run env rest w3) as [w4 tr4]. cbn [fst] in *. congruence. }
    rewrite (G acts w1 Hn F1 L1). now rewrite E1.
  - rewrite (alive_count_monitor w I), Ha. reflexivity.
Qed.


Lemma run_snoc_nil (a : action) (w : world) :
  run env [a] w = act env a w.
Proof.
  cbn [run]. destruct (act env a w) as [w1 tr1]. now rewrite app_nil_r.
Qed.

Lemma run_cons (a : action) (rest : list action) (w : world) :
  run env (a :: rest) w =
  (fst (run env rest (fst (act env a w))),
   (snd (act env a w) ++ snd (run env rest (fst (act env a w))))%list).
Proof.
  cbn [run]. destruct (act env a w) as [w1 tr1]. cbn [fst snd].
  now destruct (run env rest w1).
Qed.

(** The inter-cycle sleep with the flag set: from iteration [i] of the
    for loop the thread tests the flag and sleeps once for every second
    left, tests once more and is back at the while test. *)
Lemma sleeps_out (t : nat) (n ci : Z) (k : nat) : forall (i : Z) (w : world),
  auto_monitoring_active w = true ->
  nth_error (threads w) t = Some (mkThread (PFor i) n ci) ->
  Z.to_nat (ci - i) = k ->
  let r := run env (repeat (Step t) (2 * k + 1)) w in
  snd r = (naps t k ++ [(t, LTest)])%list
  /\ nth_error (threads (fst r)) t = Some (mkThread PWhile n ci)
  /\ auto_monitoring_active (fst r) = true
  /\ sent (fst r) = sent w /\ out (fst r) = out w.
Proof.
  induction k as [ | k IH]; intros i w Hf Hth Hk.
  - cbn [Nat.mul Nat.add repeat]. cbv zeta. rewrite run_snoc_nil.
    assert (Hs : monitor_step env (mkThread (PFor i) n ci) w =
                 Some (LTest, mkThread PWhile n ci, w)).
    { unfold monitor_step. cbn [at_pc cycle_count check_interval].
      assert (E : (i <? ci) = false) by (apply Z.ltb_ge; lia).
      now rewrite E. }
    rewrite (act_step w t _ _ _ _ Hth Hs). cbn [fst snd naps app].
    split; [reflexivity | ]. split.
    + rewrite set_thread_lookup, Nat.eqb_refl, Hth. reflexivity.
    + now split.
  - replace (2 * S k + 1)%nat with (S (S (2 * k + 1))) by lia.
    cbn [repeat]. cbv zeta.
    assert (Hs1 : monitor_step env (mkThread (PFor i) n ci) w =
                  Some (LTest, mkThread (PSleep i) n ci, w)).
    { unfold monitor_step. cbn [at_pc cycle_count check_interval].
      assert (E : (i <? ci) = true) by (apply Z.ltb_lt; lia).
      now rewrite E, Hf. }
    set (w1 := set_thread w t (mkThread (PSleep i) n ci)).
    assert (Hth1 : nth_error (threads w1) t = Some (mkThread (PSleep i) n ci)).
    { unfold w1. rewrite set_thread_lookup, Nat.eqb_refl, Hth. reflexivity. }
    assert (Hs2 : monitor_step env (mkThread (PSleep i) n ci) w1 =
                  Some (LSleep, mkThread (PFor (i + 1)) n ci, w1)) by reflexivity.
    set (w2 := set_thread w1 t (mkThread (PFor (i + 1)) n ci)).
    assert (Hth2 : nth_error (threads w2) t = Some (mkThread (PFor (i + 1)) n ci)).
    { unfold w2. rewrite set_thread_lookup, Nat.eqb_refl, Hth1. reflexivity. }
    assert (Hf2 : auto_monitoring_active w2 = true) by exact Hf.
    assert (Hk2 : Z.to_nat (ci - (i + 1)) = k) by lia.
    destruct (IH (i + 1) w2 Hf2 Hth2 Hk2) as (T & N & F & S & O).
    rewrite run_cons, (act_step w t _ _ _ _ Hth Hs1). cbn [fst snd].
    fold w1. rewrite run_cons, (act_step w1 t _ _ _ _ Hth1 Hs2). cbn [fst snd].
    fold w2. rewrite T. cbn [naps app].
    split; [reflexivity | ]. split; [exact N | ]. split; [exact F | ].
    split; [now rewrite S | now rewrite O].
Qed.

(** X9. One cycle of the loop with the flag set: the while test, one status
    request, one report, then one flag test and one one-second sleep for
    every second of the interval, none for an interval of zero or less,
    and the thread is back at the while test with the cycle counted. *)
Theorem one_cycle_sleeps_interval (w : world) (t : nat) (n ci : Z) :
  auto_monitoring_active w = true ->
  nth_error (threads w) t = Some (mkThread PWhile n ci) ->
  let r := run env (repeat (Step t) (4 + 2 * Z.to_nat ci)) w in
  snd r = ((t, LTest) :: (t, LFetch) :: (t, LReport)
           :: naps t (Z.to_nat ci) ++ [(t, LTest)])%list
  /\ nth_error (threads (fst r)) t = Some (mkThread PWhile (n + 1) ci)
  /\ auto_monitoring_active (fst r) = true
  /\ sent (fst r) = (sent w ++ [status_request])%list.
Proof.
  intros Hf Hth.
  replace (4 + 2 * Z.to_nat ci)%nat with (S (S (S (2 * Z.to_nat ci + 1)))) by lia.
  cbn [repeat]. cbv zeta.
  (* the while test *)
  assert (Hs1 : monitor_step env (mkThread PWhile n ci) w =
                Some (LTest, mkThread PFetch (n + 1) ci, w)).
  { unfold monitor_step. cbn [at_pc cycle_count check_interval]. now rewrite Hf. }
  set (w1 := set_thread w t (mkThread PFetch (n + 1) ci)).
  assert (Hth1 : nth_error (threads w1) t = Some (mkThread PFetch (n + 1) ci)).
  { unfold w1. rewrite set_thread_lookup, Nat.eqb_refl, Hth. reflexivity. }
  (* the fetch *)
  destruct (monitor_step env (mkThread PFetch (n + 1) ci) w1)
    as [[[l2 th2] w1'] | ] eqn:Hs2.
  2:{ unfold monitor_step in Hs2. cbn [at_pc] in Hs2.
      destruct (get_system_status env w1) as [[s | c | f] w']; discriminate. }
  assert (E2 : l2 = LFetch
               /\ (exists status, th2 = mkThread (PReport status) (n + 1) ci)
               /\ sent w1' = (sent w ++ [status_request])%list).
  { unfold monitor_step in Hs2. cbn [at_pc cycle_count check_interval] in Hs2.
    assert (S : sent (snd (get_system_status env w1))
                = (sent w ++ [status_request])%list).
    { unfold get_system_status, requests_get, http, status_request. cbn.
      destruct (env _ _) as [resp | f]; [ | reflexivity].
      destruct (status_code resp =? 200); reflexivity. }
    destruct (get_system_status env w1) as [[s | c | f] w']; cbn [snd] in S;
      injection Hs2 as <- <- <-; eauto. }
  destruct E2 as (-> & (status & ->) & S2).
  destruct (monitor_step_frame env _ _ _ _ _ Hs2) as (F2 & _ & T2).
  set (w2 := set_thread w1' t (mkThread (PReport status) (n + 1) ci)).
  assert (Hth2 : nth_error (threads w2) t
                 = Some (mkThread (PReport status) (n + 1) ci)).
  { unfold w2. rewrite set_thread_lookup, Nat.eqb_refl, T2, Hth1. reflexivity. }
  (* the report *)
  assert (Hs3 : monitor_step env (mkThread (PReport status) (n + 1) ci) w2 =
                Some (LReport, mkThread (PFor 0) (n + 1) ci,
                      world_of (report (n + 1) status w2))) by reflexivity.
  destruct (monitor_step_frame env _ _ _ _ _ Hs3) as (F3 & _ & T3).
  destruct (report_shape (n + 1) status w2) as (_ & S3 & _).
  set (w3 := set_thread (world_of (report (n + 1) status w2)) t
               (mkThread (PFor 0) (n + 1) ci)).
  assert (Hth3 : nth_error (threads w3) t = Some (mkThread (PFor 0) (n + 1) ci)).
  { unfold w3. rewrite set_thread_lookup, Nat.eqb_refl, T3, Hth2. reflexivity. }
  assert (Hf3 : auto_monitoring_active w3 = true).
  { unfold w3. cbn. rewrite F3. unfold w2. cbn. rewrite F2. exact Hf. }
  assert (Hk : Z.to_nat (ci - 0) = Z.to_nat ci) by (f_equal; lia).
  destruct (sleeps_out t (n + 1) ci (Z.to_nat ci) 0 w3 Hf3 Hth3 Hk)
    as (T & N & F & S & _).
  rewrite run_cons, (act_step w t _ _ _ _ Hth Hs1). cbn [fst snd]. fold w1.
  rewrite run_cons, (act_step w1 t _ _ _ _ Hth1 Hs2). cbn [fst snd]. fold w2.
  rewrite run_cons, (act_step w2 t _ _ _ _ Hth2 Hs3). cbn [fst snd]. fold w3.
  rewrite T. cbn [app].
  split; [reflexivity | ]. split; [exact N | ]. split; [exact F | ].
  rewrite S. unfold w3. cbn [sent set_thread]. unfold world_of. rewrite S3.
  unfold w2. cbn [sent set_thread]. exact S2.
Qed.

(** Whatever a thread or a start or stop call sends carries the
    five-second timeout. *)
Lemma act_sends_with_timeout (a : action) (w : world) :
  Forall timeout5 (sent w) -> Forall timeout5 (sent (fst (act env a w))).
Proof.
  intros H. destruct a as [ci | | t]; cbn [act fst].
  - destruct (orderly_start_auto_monitoring ci w) as (_ & (l & Hl & F) & _).
    unfold world_of. rewrite Hl. apply Forall_app. now split.
  - exact H.
  - destruct (nth_error (threads w) t) as [th | ]; [ | exact H].
    destruct (monitor_step env th w) as [[[l th'] w'] | ] eqn:Hs; [ | exact H].
    cbn [fst set_thread sent].
    unfold monitor_step, world_of in Hs.
    destruct (at_pc th).
    + injection Hs as _ _ <-. exact H.
    + destruct (auto_monitoring_active w); injection Hs as _ _ <-; exact H.
    + destruct (orderly_get_system_status env w) as (_ & (l0 & Hl & F) & _).
      destruct (get_system_status env w) as [[s | c | f] w1]; cbn [snd] in Hl;
        injection Hs as _ _ <-; rewrite Hl; apply Forall_app; now split.
    + injection Hs as _ _ <-.
      destruct (report_shape (cycle_count th) status w) as (_ & S & _).
      now rewrite S.
    + destruct (i <? check_interval th);
        [destruct (negb (auto_monitoring_active w)) | ];
        injection Hs as _ _ <-; exact H.
    + injection Hs as _ _ <-. exact H.
    + injection Hs as _ _ <-. exact H.
    + discriminate.
Qed.

(** X10. Every request of a run of the program carries the five-second
    timeout: those of the command, whatever the arguments, and those of
    the monitoring threads under every later schedule. *)
Theorem every_request_has_timeout_5 (argv : list string) (acts : list action) :
  Forall timeout5 (sent (fst (run env acts (snd (main env argv initial))))).
Proof.
  destruct (orderly_main env argv initial) as (_ & (l & Hl & F) & _).
  cbn [sent initial app] in Hl.
  assert (H : Forall timeout5 (sent (snd (main env argv initial))))
    by now rewrite Hl.
  revert H. generalize (snd (main env argv initial)).
  induction acts as [ | a rest IH]; intros w H; [exact H | ].
  rewrite run_cons. cbn [fst]. apply IH. now apply act_sends_with_timeout.
Qed.

Lemma steps_frame (acts : list action) : forall w,
  forallb is_step acts = true ->
  auto_monitoring_active (fst (run env acts w)) = auto_monitoring_active w
  /\ monitoring_thread (fst (run env acts w)) = monitoring_thread w.
Proof.
  induction acts as [ | a rest IH]; intros w Hs; [now split | ].
  cbn [forallb] in Hs. apply andb_prop in Hs as [Ha Hrest].
  rewrite run_cons. cbn [fst].
  destruct (IH (fst (act env a w)) Hrest) as (-> & ->).
  destruct a as [ci | | t]; try discriminate Ha. cbn [act].
  destruct (nth_error (threads w) t) as [th | ]; [ | now split].
  destruct (monitor_step env th w) as [[[l th'] w'] | ] eqn:Hst; [ | now split].
  destruct (monitor_step_frame env _ _ _ _ _ Hst) as (F & M & _).
  cbn. now split.
Qed.

(** X11. A start call that follows a stop call while the stopped thread is
    still alive is lost: it only prints the already-running line, the
    flag stays clear, and once the thread has had its five turns nothing
    is monitoring any more. *)
Theorem restart_while_stopping_is_lost (acts0 acts : list action) (ci : Z)
  (t : nat) :
  let w0 := fst (run env acts0 initial) in
  monitoring_thread w0 = Some t ->
  monitor_alive w0 = true ->
  forallb is_step acts = true ->
  (5 <= turns t acts)%nat ->
  let w1 := snd (start_auto_monitoring ci (snd (stop_auto_monitoring w0))) in
  let w := fst (run env acts w1) in
  auto_monitoring_active w1 = false
  /\ threads w1 = threads w0
  /\ out w1 = (out w0 ++ ["Auto monitoring stopping...";
                          "Auto monitoring is already running"])%list
  /\ auto_monitoring_active w = false
  /\ alive_count w = 0%nat.
Proof.
  intros w0 Hm Ha Hs Ht w1 w.
  assert (I0 : others_dead w0) by (apply others_dead_run, others_dead_initial).
  assert (E1 : w1 = mkWorld false (monitoring_thread w0) (threads w0)
                       (out w0 ++ ["Auto monitoring stopping...";
                                   "Auto monitoring is already running"])
                       (sent w0)).
  { unfold w1. rewrite start_when_alive by exact Ha. cbn.
    now rewrite <- app_assoc. }
  assert (I1 : others_dead w1).
  { rewrite E1. intros k Hk. exact (I0 k Hk). }
  assert (Hlen : (t < List.length (threads w1))%nat).
  { rewrite E1. cbn. apply nth_error_Some.
    unfold monitor_alive, thread_is_alive in Ha. rewrite Hm in Ha.
    destruct (nth_error (threads w0) t); [discriminate | discriminate Ha]. }
  assert (F1 : auto_monitoring_active w1 = false) by now rewrite E1.
  destruct (run_budget env acts w1 t I1 (fun _ => F1) Hlen) as (_ & _ & _ & D).
  destruct (steps_frame acts w1 Hs) as (Ff & Mf). fold w in Ff, Mf, D.
  assert (Hdead : thread_is_alive w t = false).
  { destruct D as [D | D]; [exact D | ].
    pose proof (pc_budgets (pc_of w1 t)) as (_ & _ & _ & _ & _ & B). lia. }
  assert (I : others_dead w) by (apply others_dead_run, I1).
  split; [exact F1 | ]. split; [now rewrite E1 | ]. split; [now rewrite E1 | ].
  split; [now rewrite Ff | ].
  rewrite (alive_count_monitor w I). unfold monitor_alive.
  rewrite Mf, E1. cbn. rewrite Hm, Hdead. reflexivity.
Qed.

End Threads.

Lemma one_cycle_sleeps_interval_witness :
  let env := steady moist41 in
  let w := fst (run env [CallStart 2; Step 0] initial) in
  auto_monitoring_active w = true
  /\ nth_error (threads w) 0 = Some (mkThread PWhile 0 2)
  /\ snd (run env (repeat (Step 0%nat) 8) w) =
     [(0, LTest); (0, LFetch); (0, LReport); (0, LTest); (0, LSleep);
      (0, LTest); (0, LSleep); (0, LTest)]%nat.
Proof.
  intros env w.
  assert (H1 : auto_monitoring_active w = true) by reflexivity.
  assert (H2 : nth_error (threads w) 0 = Some (mkThread PWhile 0 2)) by reflexivity.
  split; [exact H1 | split; [exact H2 | ]].
  exact (proj1 (one_cycle_sleeps_interval env w 0%nat 0 2 H1 H2)).
Defined.

Lemma restart_while_stopping_is_lost_witness :
  let env := steady moist41 in
  let acts0 := [CallStart 30; Step 0; Step 0; Step 0]%nat in
  let acts := [Step 0; Step 0; Step 0; Step 0; Step 0]%nat in
  let w0 := fst (run env acts0 initial) in
  monitoring_thread w0 = Some 0%nat
  /\ monitor_alive w0 = true
  /\ forallb is_step acts = true
  /\ (5 <= turns 0 acts)%nat
  /\ alive_count
       (fst (run env acts
               (snd (start_auto_monitoring 30 (snd (stop_auto_monitoring w0))))))
     = 0%nat.
Proof.
  intros env acts0 acts w0.
  assert (H1 : monitoring_thread w0 = Some 0%nat) by reflexivity.
  assert (H2 : monitor_alive w0 = true) by reflexivity.
  assert (H3 : forallb is_step acts = true) by reflexivity.
  assert (H4 : (5 <= turns 0 acts)%nat) by (cbn; lia).
  split; [exact H1 | ]. split; [exact H2 | ]. split; [exact H3 | ].
  split; [exact H4 | ].
  exact (proj2 (proj2 (proj2 (proj2
           (restart_while_stopping_is_lost env acts0 acts 30 0%nat H1 H2 H3 H4))))).
Defined.

Lemma monitor_runs_until_stopped_witness :
  let env := steady (JOther true "list" None) in
  let w0 := fst (run env [] initial) in
  let acts := [Step 0; Step 0; Step 0; Step 0; Step 0; Step 0]%nat in
  monitor_alive w0 = false
  /\ forallb (fun a => negb (is_stop a)) acts = true
  /\ alive_count (fst (run env (CallStart 2 :: acts) w0)) = 1%nat.
Proof.
  intros env w0 acts.
  assert (H1 : monitor_alive w0 = false) by reflexivity.
  assert (H2 : forallb (fun a => negb (is_stop a)) acts = true) by reflexivity.
  split; [exact H1 | split; [exact H2 | ]].
  exact (proj2 (proj2 (proj2
           (monitor_runs_until_stopped env [] acts 2 H1 H2)))).
Defined.

End SolenoidMore.

(* ------------------------------------------------------------------ *)
(** ** demoPullRequests.py: date entry and the formatter *)

Module DirtVizMore.
Import Http DirtViz DirtVizSpec DirtVizTerms DirtVizFacts.

(** *** Date entry *)

Lemma accepted_real (today : date) (line : string) (d : date) :
  accepted today line = Some d -> d = today \/ real_date d.
Proof.
  unfold accepted. destruct (String.eqb line "").
  - intros E. injection E as <-. now left.
  - destruct (parse_date line) as [[[y m] dd] | ]; [ | discriminate].
    destruct (out_of_bounds y m dd) eqn:Hb; [discriminate | ].
    unfold datetime_ymd.
    destruct ((1 <=? y) && (y <=? 9999) && (1 <=? m) && (m <=? 12)
              && (1 <=? dd) && (dd <=? Clock.days_in_month y m)) eqn:Hc;
      [ | discriminate].
    intros E. injection E as <-. right. unfold real_date. cbn.
    unfold out_of_bounds in Hb.
    repeat (apply orb_false_elim in Hb as [Hb ?]).
    repeat (apply andb_prop in Hc as [Hc ?]).
    lia.
Qed.

Lemma get_valid_date_step (today : date) (prompt line : string)
  (rest : list string) :
  get_valid_date today prompt (line :: rest) =
  match accepted today line with
  | Some d => (Returned d, [Prompted prompt])
  | None =>
      (fst (get_valid_date today prompt rest),
       Prompted prompt :: Printed (complaint line)
       :: snd (get_valid_date today prompt rest))
  end.
Proof.
  cbn [get_valid_date]. unfold accepted, complaint.
  destruct (String.eqb line ""); [reflexivity | ].
  destruct (parse_date line) as [[[y m] d] | ].
  - destruct (out_of_bounds y m d).
    + now destruct (get_valid_date today prompt rest).
    + destruct (datetime_ymd y m d); [reflexivity | ].
      now destruct (get_valid_date today prompt rest).
  - now destruct (get_valid_date today prompt rest).
Qed.

(** X12. Whatever is typed, a date [get_valid_date] returns is today's, for an
    empty line, or a date of the calendar between 2000 and 2100. *)
Theorem get_valid_date_returns_real_dates (today : date) (prompt : string)
  (inputs : list string) (d : date) (o : list io) :
  get_valid_date today prompt inputs = (Returned d, o) ->
  d = today \/ real_date d.
Proof.
  revert o. induction inputs as [ | line rest IH]; intros o H.
  - discriminate H.
  - rewrite get_valid_date_step in H.
    destruct (accepted today line) as [d' | ] eqn:Ha.
    + injection H as <- _. exact (accepted_real today line d' Ha).
    + destruct (get_valid_date today prompt rest) as [r o'] eqn:Hr.
      cbn [fst snd] in H. injection H as -> _. exact (IH o' eq_refl).
Qed.

(** X13. The loop of [get_valid_date]: every line that is not accepted is
    answered with its message and a new prompt, the first accepted line
    ends the call, and the lines after it are not read.  When the input
    ends before an accepted line, the last prompt ends in [EOFError]. *)
Theorem get_valid_date_first_accepted_line (today : date) (prompt : string)
  (bad : list string) (good : string) (rest : list string) (d : date) :
  Forall (fun line => accepted today line = None) bad ->
  accepted today good = Some d ->
  let asked := flat_map (fun line => [Prompted prompt; Printed (complaint line)]) bad in
  get_valid_date today prompt (bad ++ good :: rest)
  = (Returned d, (asked ++ [Prompted prompt])%list)
  /\ get_valid_date today prompt bad = (EOFError, (asked ++ [Prompted prompt])%list).
Proof.
  intros Hbad Hgood. cbv zeta.
  induction Hbad as [ | line bad Hline Hbad IH].
  - cbn [app flat_map]. rewrite get_valid_date_step, Hgood. now split.
  - cbn [app flat_map]. rewrite !get_valid_date_step, Hline.
    destruct IH as [-> ->]. now split.
Qed.


(** *** Frames built from readings *)

Lemma add_key_NoDup (seen : list string) (k : string) :
  NoDup seen -> NoDup (add_key seen k).
Proof.
  intros H. unfold add_key.
  destruct (existsb (String.eqb k) seen) eqn:E; [exact H | ].
  apply NoDup_app; [exact H | repeat constructor; intros [] | ].
  intros x Hx [E' | []]. subst x.
  assert (existsb (String.eqb k) seen = true); [ | congruence].
  apply existsb_exists. exists k. split; [exact Hx | apply String.eqb_refl].
Qed.

Lemma add_keys_NoDup (ks seen : list string) :
  NoDup seen -> NoDup (fold_left add_key ks seen).
Proof.
  revert seen. induction ks as [ | k ks IH]; intros seen H; cbn; [exact H | ].
  apply IH. now apply add_key_NoDup.
Qed.

(** [pd.DataFrame(records)] has one column per key. *)
Lemma frame_labels_distinct (rs : list record) : NoDup (columns (DataFrame_of rs)).
Proof.
  rewrite columns_frame. unfold all_keys.
  assert (G : forall seen, NoDup seen ->
            NoDup (fold_left (fun seen r => fold_left add_key (map fst r) seen) rs seen)).
  { induction rs as [ | r rs IH]; intros seen H; cbn; [exact H | ].
    apply IH. now apply add_keys_NoDup. }
  apply G. constructor.
Qed.

Lemma filter_none {A : Type} (p : A -> bool) (l : list A) :
  (forall x, In x l -> p x = false) -> filter p l = [].
Proof.
  induction l as [ | a l IH]; intros H; cbn; [reflexivity | ].
  rewrite (H a (or_introl eq_refl)). apply IH. intros x Hx. apply H. now right.
Qed.

Lemma matching_one (cs : list (string * list cell)) (c : string * list cell) :
  NoDup (map fst cs) -> In c cs ->
  filter (fun c' => String.eqb (fst c') (fst c)) cs = [c].
Proof.
  induction cs as [ | c0 cs IH]; intros Hnd Hin; [contradiction | ].
  cbn [map] in Hnd. apply NoDup_cons_iff in Hnd as [Hfresh Hnd].
  cbn [filter]. destruct Hin as [-> | Hin].
  - rewrite String.eqb_refl. f_equal. apply filter_none.
    intros x Hx. destruct (String.eqb_spec (fst x) (fst c)) as [E | ]; [ | reflexivity].
    exfalso. apply Hfresh. rewrite <- E. now apply in_map.
  - destruct (String.eqb_spec (fst c0) (fst c)) as [E | _].
    + exfalso. apply Hfresh. rewrite E. now apply in_map.
    + now apply IH.
Qed.

Lemma select_filter (df : DataFrame) (p : string -> bool)
  (part : list (string * list cell)) :
  (forall c, In c part -> matching df (fst c) = [c]) ->
  flat_map (matching df) (filter p (map fst part))
  = filter (fun c => p (fst c)) part.
Proof.
  induction part as [ | c part IH]; intros H; cbn; [reflexivity | ].
  destruct (p (fst c)); cbn.
  - rewrite (H c (or_introl eq_refl)). cbn. f_equal. apply IH.
    intros x Hx. apply H. now right.
  - apply IH. intros x Hx. apply H. now right.
Qed.

Lemma find_col_filter_other (cs : list (string * list cell)) (k : string) :
  k <> "timestamp" ->
  find_col (filter (fun c => negb (String.eqb (fst c) "timestamp")) cs) k
  = find_col cs k.
Proof.
  intros Hk. induction cs as [ | [l v] cs IH]; [reflexivity | ].
  cbn [filter fst find_col].
  destruct (String.eqb_spec l "timestamp") as [-> | Hl]; cbn [negb find_col].
  - destruct (String.eqb_spec "timestamp" k); [congruence | exact IH].
  - now rewrite IH.
Qed.

(** In the display frame the value column is the data column of the
    readings and no other. *)
Lemma value_column (cs : list (string * list cell)) (col : string)
  (v : list cell) :
  NoDup (map fst cs) ->
  find_col cs "data" = Some v ->
  (forall c, In c cs -> fst c <> col) ->
  filter (fun c => String.eqb (fst c) col)
    (map (fun c => (renamed [("timestamp", "Measurement Time (PT)"); ("data", col)]
                      (fst c), snd c))
       (filter (fun c => negb (String.eqb (fst c) "timestamp")) cs))
  = [(col, v)].
Proof.
  induction cs as [ | [l x] cs IH]; intros Hnd Hd Hcol; [discriminate | ].
  cbn [map fst] in Hnd. apply NoDup_cons_iff in Hnd as [Hfresh Hnd].
  cbn [find_col] in Hd. cbn [filter fst].
  destruct (String.eqb_spec l "data") as [-> | Hl].
  - injection Hd as ->. cbn [negb map filter fst snd renamed].
    change (String.eqb "data" "timestamp") with false. cbn [negb map filter fst snd].
    cbn [renamed]. change (String.eqb "timestamp" "data") with false. cbv iota.
    rewrite !String.eqb_refl. f_equal.
    apply filter_none. intros c Hc. apply in_map_iff in Hc as (c' & <- & Hc').
    apply filter_In in Hc' as [Hc' Hts]. cbn [fst renamed].
    destruct (String.eqb_spec "timestamp" (fst c')) as [E | _].
    { rewrite <- E in Hts. discriminate Hts. }
    destruct (String.eqb_spec "data" (fst c')) as [E | _].
    { exfalso. apply Hfresh. rewrite E. now apply in_map. }
    destruct (String.eqb_spec (fst c') col) as [E | _]; [ | reflexivity].
    exfalso. apply (Hcol c'); [now right | exact E].
  - assert (Hrest : forall c, In c cs -> fst c <> col)
      by (intros c Hc; apply Hcol; now right).
    destruct (String.eqb_spec l "timestamp") as [-> | Hts]; cbn [negb].
    + now apply IH.
    + cbn [map filter fst snd renamed].
      destruct (String.eqb_spec "timestamp" l) as [E | _]; [congruence | ].
      destruct (String.eqb_spec "data" l) as [E | _]; [congruence | ].
      destruct (String.eqb_spec l col) as [E | _].
      { exfalso. apply (Hcol (l, x)); [now left | exact E]. }
      now apply IH.
Qed.

Lemma time_column_alone (cs : list (string * list cell)) (col : string) :
  col <> "Measurement Time (PT)" ->
  (forall c, In c cs -> fst c <> "Measurement Time (PT)") ->
  filter (fun c => String.eqb (fst c) "Measurement Time (PT)")
    (map (fun c => (renamed [("timestamp", "Measurement Time (PT)"); ("data", col)]
                      (fst c), snd c))
       (filter (fun c => negb (String.eqb (fst c) "timestamp")) cs))
  = [].
Proof.
  intros Hcol Hno. apply filter_none. intros c Hc.
  apply in_map_iff in Hc as (c' & <- & Hc').
  apply filter_In in Hc' as [Hc' Hts]. cbn [fst renamed].
  destruct (String.eqb_spec "timestamp" (fst c')) as [E | _].
  { rewrite <- E in Hts. discriminate Hts. }
  destruct (String.eqb_spec "data" (fst c')) as [_ | _].
  - destruct (String.eqb_spec col "Measurement Time (PT)"); [contradiction | reflexivity].
  - destruct (String.eqb_spec (fst c') "Measurement Time (PT)") as [E | _];
      [ | reflexivity].
    exfalso. exact (Hno c' Hc' E).
Qed.

Lemma has_col_false_all (df : DataFrame) (k : string) :
  has_col df k = false -> forall c, In c (cols df) -> fst c <> k.
Proof.
  intros H c Hc E.
  assert (has_col df k = true); [ | congruence].
  unfold has_col, columns. apply existsb_exists. exists (fst c).
  split; [now apply in_map | ]. rewrite E. apply String.eqb_refl.
Qed.

Lemma assign_absent (cs : list (string * list cell)) (k : string) (v : list cell) :
  (forall c, In c cs -> fst c <> k) ->
  map (fun c => if String.eqb (fst c) k then (fst c, v) else c) cs = cs.
Proof.
  intros H. rewrite <- (map_id cs) at 2. apply map_ext_in. intros c Hc.
  destruct (String.eqb_spec (fst c) k) as [E | _]; [ | reflexivity].
  now destruct (H c Hc).
Qed.

Section FormatterMore.

Variable to_datetime_utc : list cell -> option (list (option Z)).
Variable pacific_offset : Z -> Z.
Variable fmt_mean fmt_max : list cell -> option string.

(** Lines 88-94 on a frame with distinct labels: the converted timestamp
    column, then the other columns as they were. *)
Lemma timestamp_first_distinct (df : DataFrame) (ts : list cell)
  (us : list (option Z)) :
  NoDup (columns df) ->
  find_col (cols df) "timestamp" = Some ts ->
  to_datetime_utc ts = Some us ->
  timestamp_first to_datetime_utc pacific_offset df =
  inr (mkDF (nrows df)
         (("timestamp", map (display_time pacific_offset) us)
          :: filter (fun c => negb (String.eqb (fst c) "timestamp")) (cols df))).
Proof.
  intros Hnd Hts Hdt.
  assert (Hhas : has_col df "timestamp" = true) by (apply has_col_find; eauto).
  set (others := filter (fun col => negb (String.eqb col "timestamp")) (columns df)).
  assert (Hone : forall c, In c (cols df) -> matching df (fst c) = [c]).
  { intros c Hc. unfold matching. now apply matching_one. }
  assert (Hin : In ("timestamp", ts) (cols df)).
  { clear - Hts. induction (cols df) as [ | [l x] cs IH]; [discriminate | ].
    cbn in Hts. destruct (String.eqb_spec l "timestamp") as [-> | _].
    - injection Hts as ->. now left.
    - right. now apply IH. }
  assert (Hsel : select df ("timestamp" :: others) =
                 inr (mkDF (nrows df) (flat_map (matching df) ("timestamp" :: others)))).
  { apply select_present. intros k [<- | Hk]; [exact Hhas | ].
    apply has_col_in. unfold others in Hk. now apply filter_In in Hk. }
  unfold timestamp_first. rewrite Hhas. fold others. rewrite Hsel.
  cbn [flat_map]. pose proof (Hone _ Hin) as Hm. cbn [fst] in Hm. rewrite Hm.
  cbn [app].
  unfold others, columns.
  rewrite (select_filter df (fun col => negb (String.eqb col "timestamp")) (cols df) Hone).
  unfold get_col. cbn [cols find_col]. rewrite String.eqb_refl, Hdt.
  unfold assign. cbn [cols nrows map fst]. rewrite String.eqb_refl.
  do 3 f_equal. apply assign_absent.
  intros c Hc E. apply filter_In in Hc as [_ Hc]. rewrite E in Hc. discriminate Hc.
Qed.

(** X14. For readings with a timestamp pandas can read and a data field, and no
    field already named like a column of the display, the formatter
    raises nothing.  It prints the summary, with the first and last
    display times as the time range and the mean and max pandas formats
    for the data values, and one table of exactly two columns: the
    display times and the data values, row by row as the readings came. *)
Theorem formatter_prints_every_reading (rs : list record) (cell_id : Z)
  (measurement_type : string) (us : list (option Z)) (avg mx : string) :
  let df := DataFrame_of rs in
  let times := map (display_time pacific_offset) us in
  let values := map (fun r => field r "data") rs in
  rs <> [] ->
  to_datetime_utc (map (fun r => field r "timestamp") rs) = Some us ->
  has_col df "timestamp" = true ->
  has_col df "data" = true ->
  has_col df "Measurement Time (PT)" = false ->
  has_col df (column_name df measurement_type) = false ->
  fmt_mean values = Some avg ->
  fmt_max values = Some mx ->
  format_data_display to_datetime_utc pacific_offset fmt_mean fmt_max
    df cell_id measurement_type =
  ((summary df cell_id measurement_type
      (cell_str (first_cell times) ++ " to " ++ cell_str (last_cell times))
      (Py.str_int (Z.of_nat (List.length rs))) avg mx
    ++ [Line "DATA BY TIMESTAMPS:";
        Table (mkDF (List.length rs)
                 [("Measurement Time (PT)", times);
                  (column_name df measurement_type, values)]);
        Line (Py.LF ++ rule80)])%list,
   None).
Proof.
  intros df times values Hne Hdt Hhas Hdata Hmt Hcol Havg Hmx.
  pose proof (nrows_frame rs Hne) as Hn. fold df in Hn.
  pose proof (find_col_frame rs "timestamp" Hhas) as Hts. fold df in Hts.
  pose proof (find_col_frame rs "data" Hdata) as Hd. fold df values in Hd.
  pose proof (frame_labels_distinct rs) as Hnd. fold df in Hnd.
  pose proof (timestamp_first_distinct df _ _ Hnd Hts Hdt) as Htf. fold times in Htf.
  pose proof (column_name_not_time df measurement_type) as Hnt.
  assert (Hsame : forall k, k <> "timestamp" ->
            find_col (filter (fun c => negb (String.eqb (fst c) "timestamp")) (cols df)) k
            = find_col (cols df) k)
    by (intros k Hk; now apply find_col_filter_other).
  assert (Hvals : values <> []).
  { unfold values. destruct rs; [contradiction | discriminate]. }
  unfold format_data_display, summary, measurement_name, column_name in *.
  rewrite Htf. rewrite (labels_shape df _ _ measurement_type Hsame).
  destruct (labels df measurement_type) as [[unit name] col]. cbn [fst snd] in *.
  cbn [cols find_col]. change (String.eqb "timestamp" "data") with false. cbv iota.
  rewrite (Hsame "data") by discriminate. rewrite Hd.
  unfold stats, get_col. cbn [nrows cols find_col]. rewrite Hn.
  change (String.eqb "timestamp" "timestamp") with true. cbv iota.
  destruct values as [ | v0 values']; [contradiction | ].
  rewrite Havg, Hmx.
  unfold rename. cbn [nrows cols map fst snd].
  change (renamed [("timestamp", "Measurement Time (PT)"); ("data", col)] "timestamp")
    with "Measurement Time (PT)".
  rewrite Hn.
  match goal with
  | |- context [select ?d ?l] =>
      assert (Hsel : select d l
                     = inr (mkDF (List.length rs)
                              [("Measurement Time (PT)", times); (col, v0 :: values')]))
  end.
  { assert (Htc := time_column_alone (cols df) col Hnt
                     (has_col_false_all df _ Hmt)).
    assert (Hvc := value_column (cols df) col (v0 :: values') Hnd Hd
                     (has_col_false_all df _ Hcol)).
    unfold select. cbn [filter].
    match goal with
    | |- context [has_col ?d "Measurement Time (PT)"] =>
        assert (H1 : has_col d "Measurement Time (PT)" = true)
    end.
    { reflexivity. }
    rewrite H1. cbn [negb].
    match goal with
    | |- context [has_col ?d col] => assert (H2 : has_col d col = true)
    end.
    { unfold has_col, columns. cbn [cols map fst existsb].
      apply orb_true_iff. right. apply existsb_exists. exists col.
      split; [ | apply String.eqb_refl].
      change col with (fst (col, v0 :: values')). apply in_map.
      assert (Hin : In (col, v0 :: values') [(col, v0 :: values')]) by now left.
      rewrite <- Hvc in Hin. now apply filter_In in Hin. }
    rewrite H2. cbn [negb flat_map]. unfold matching. cbn [cols filter fst].
    change (String.eqb "Measurement Time (PT)" "Measurement Time (PT)") with true.
    cbv iota.
    destruct (String.eqb_spec "Measurement Time (PT)" col) as [E | _]; [congruence | ].
    rewrite Htc, Hvc. reflexivity. }
  rewrite Hsel. reflexivity.
Qed.

End FormatterMore.

Lemma get_valid_date_returns_real_dates_witness :
  mkDate 2025 8 21 = mkDate 2025 8 20 \/ real_date (mkDate 2025 8 21).
Proof.
  apply (get_valid_date_returns_real_dates (mkDate 2025 8 20) "Date: "
           ["2025-02-30"; "2025-08-21"] (mkDate 2025 8 21)
           [Prompted "Date: "; Printed format_message; Prompted "Date: "]).
  reflexivity.
Defined.

Lemma get_valid_date_first_accepted_line_witness :
  get_valid_date (mkDate 2025 8 20) "Date: "
    ["2025-02-30"; "2101-01-01"; "2025-08-21"; "2025-08-22"]
  = (Returned (mkDate 2025 8 21),
     [Prompted "Date: "; Printed format_message;
      Prompted "Date: "; Printed values_message;
      Prompted "Date: "]).
Proof.
  apply (get_valid_date_first_accepted_line (mkDate 2025 8 20) "Date: "
           ["2025-02-30"; "2101-01-01"] "2025-08-21" ["2025-08-22"]
           (mkDate 2025 8 21)).
  - repeat constructor.
  - reflexivity.
Defined.

Lemma formatter_prints_every_reading_witness :
  In (Table (mkDF 2 [("Measurement Time (PT)",
                      [CStr "08-21-2025 00:06:40"; CStr "08-21-2025 00:07:40"]);
                     ("Humidity (%)", [CInt 41; CInt 43])]))
     (fst (format_data_display sample_to_datetime pdt (always "42.00")
             (always "43.00") (DataFrame_of two_readings) 1448 "humidity")).
Proof.
  assert (H1 : two_readings <> []) by discriminate.
  rewrite (formatter_prints_every_reading sample_to_datetime pdt (always "42.00")
             (always "43.00") two_readings 1448 "humidity"
             [Some 1755760000; Some 1755760060] "42.00" "43.00"
             H1 eq_refl eq_refl eq_refl eq_refl eq_refl eq_refl eq_refl).
  cbn [fst]. apply in_or_app. right. right. left. reflexivity.
Defined.

End DirtVizMore.

(* ------------------------------------------------------------------ *)
(** ** demoPullRequests.py: the menus, turn by turn *)

Module DirtVizMenuFacts.
Import Http DirtViz DirtVizSpec DirtVizMenu DirtVizMenuSpec.
Local Open Scope menu_scope.

(** *** One statement at a time *)

Lemma print_then {A : Type} (s : string) (k : IO A) (u : list string) (n : nat)
  (lg : list event) :
  (print_line s ;; k) (mkConsole u n lg) = k (mkConsole u n (lg ++ [Said s])).
Proof. reflexivity. Qed.

Lemma emit_then {A : Type} (e : event) (k : IO A) (u : list string) (n : nat)
  (lg : list event) :
  (emit e ;; k) (mkConsole u n lg) = k (mkConsole u n (lg ++ [e])).
Proof. reflexivity. Qed.

Lemma print_last (s : string) (u : list string) (n : nat) (lg : list event) :
  print_line s (mkConsole u n lg) = (Done tt, mkConsole u n (lg ++ [Said s])).
Proof. reflexivity. Qed.

Lemma ret_then {A B : Type} (a : A) (k : A -> IO B) (c : console) :
  (x <- pure a ;; k x) c = k a c.
Proof. reflexivity. Qed.

Lemma raise_then {A B : Type} (t : trouble) (k : A -> IO B) (c : console) :
  (x <- throw t ;; k x) c = (Raised t, c).
Proof. reflexivity. Qed.

Lemma input_then {A : Type} (p line : string) (rest : list string) (n : nat)
  (lg : list event) (k : string -> IO A) :
  (x <- input p ;; k x) (mkConsole (line :: rest) n lg)
  = k line (mkConsole rest (S n) (lg ++ [Asked p])).
Proof. reflexivity. Qed.

Lemma input_end {A : Type} (p : string) (n : nat) (lg : list event)
  (k : string -> IO A) :
  (x <- input p ;; k x) (mkConsole [] n lg)
  = (Raised EndOfInput, mkConsole [] n (lg ++ [Asked p])).
Proof. reflexivity. Qed.

Lemma int_then {A : Type} (s : string) (z : Z) (k : Z -> IO A) (c : console) :
  Py.int s = Some z -> (x <- to_int s ;; k x) c = k z c.
Proof. intros H. unfold andthen, to_int. now rewrite H. Qed.

Lemma int_fails {A : Type} (s : string) (k : Z -> IO A) (c : console) :
  Py.int s = None -> (x <- to_int s ;; k x) c = (Raised ValueError, c).
Proof. intros H. unfold andthen, to_int. now rewrite H. Qed.

Lemma bind_assoc {A B C : Type} (m : IO A) (f : A -> IO B) (g : B -> IO C)
  (c : console) :
  (y <- (x <- m ;; f x) ;; g y) c = (x <- m ;; y <- f x ;; g y) c.
Proof. unfold andthen. now destruct (m c) as [[a | t | ] c']. Qed.

Lemma try_bind {A B : Type} (m : IO A) (k : A -> IO B) (h : trouble -> IO B)
  (c : console) :
  try (x <- m ;; k x) h c =
  match m c with
  | (Done a, c') => try (k a) h c'
  | (Raised t, c') => h t c'
  | (Starved, c') => (Starved, c')
  end.
Proof. unfold try, andthen. now destruct (m c) as [[a | t | ] c']. Qed.

Lemma try_print {A : Type} (s : string) (k : IO A) (h : trouble -> IO A)
  (u : list string) (n : nat) (lg : list event) :
  try (print_line s ;; k) h (mkConsole u n lg) = try k h (mkConsole u n (lg ++ [Said s])).
Proof. reflexivity. Qed.

Lemma try_ret {A : Type} (a : A) (h : trouble -> IO A) (c : console) :
  try (pure a) h c = (Done a, c).
Proof. reflexivity. Qed.

Lemma try_raise {A : Type} (t : trouble) (h : trouble -> IO A) (c : console) :
  try (throw t) h c = h t c.
Proof. reflexivity. Qed.

Lemma try_input {A : Type} (p line : string) (rest : list string) (n : nat)
  (lg : list event) (k : string -> IO A) (h : trouble -> IO A) :
  try (x <- input p ;; k x) h (mkConsole (line :: rest) n lg)
  = try (k line) h (mkConsole rest (S n) (lg ++ [Asked p])).
Proof. reflexivity. Qed.

Lemma try_input_end {A : Type} (p : string) (n : nat) (lg : list event)
  (k : string -> IO A) (h : trouble -> IO A) :
  try (x <- input p ;; k x) h (mkConsole [] n lg)
  = h EndOfInput (mkConsole [] n (lg ++ [Asked p])).
Proof. reflexivity. Qed.

Lemma try_int {A : Type} (s : string) (z : Z) (k : Z -> IO A)
  (h : trouble -> IO A) (c : console) :
  Py.int s = Some z -> try (x <- to_int s ;; k x) h c = try (k z) h c.
Proof. intros H. unfold try, andthen, to_int. now rewrite H. Qed.

Lemma try_int_fails {A : Type} (s : string) (k : Z -> IO A)
  (h : trouble -> IO A) (c : console) :
  Py.int s = None -> try (x <- to_int s ;; k x) h c = h ValueError c.
Proof. intros H. unfold try, andthen, to_int. now rewrite H. Qed.

Lemma ret_run {A : Type} (a : A) (c : console) : pure a c = (Done a, c).
Proof. reflexivity. Qed.

Lemma raise_run {A : Type} (t : trouble) (c : console) :
  @throw A t c = (Raised t, c).
Proof. reflexivity. Qed.

Ltac try_done :=
  match goal with
  | |- context [@try ?A (@pure _ ?a) ?h ?c] => rewrite (@try_ret A a h c)
  | |- context [@try ?A (@throw _ ?t) ?h ?c] => rewrite (@try_raise A t h c)
  end.

(** One statement of the program on a console that is known. *)
Ltac run_step :=
  first [ rewrite print_then | rewrite try_print | rewrite emit_then
        | rewrite try_input | rewrite try_input_end
        | rewrite input_then | rewrite input_end
        | try_done
        | rewrite ret_then | rewrite raise_then
        | rewrite ret_run | rewrite raise_run | rewrite print_last ];
  cbv beta iota.

Ltac run := cbv beta iota; repeat run_step.

(** *** The display functions only print *)

Lemma printer (m : IO unit) (es : list event) :
  (forall c, m c = (Done tt, mkConsole (unread c) (consumed c) (log c ++ es))) ->
  forall c,
    m c = (Done tt, mkConsole (unread c) (consumed c) (log c ++ lines_of m)).
Proof.
  intros H c. unfold lines_of. rewrite (H (start [])). cbn [snd log start app].
  apply H.
Qed.

Ltac printer_lines f :=
  eapply (printer f); intros [u n lg];
  unfold f; rewrite !print_then, print_last;
  cbn [unread consumed log]; rewrite <- !app_assoc; reflexivity.

Lemma display_menu_lines (c : console) :
  display_menu c
  = (Done tt, mkConsole (unread c) (consumed c) (log c ++ lines_of display_menu)).
Proof. revert c. printer_lines display_menu. Qed.

Lemma display_sen0308_stream_menu_lines (c : console) :
  display_sen0308_stream_menu c
  = (Done tt, mkConsole (unread c) (consumed c)
                (log c ++ lines_of display_sen0308_stream_menu)).
Proof. revert c. printer_lines display_sen0308_stream_menu. Qed.

Lemma display_time_range_menu_lines (c : console) :
  display_time_range_menu c
  = (Done tt, mkConsole (unread c) (consumed c)
                (log c ++ lines_of display_time_range_menu)).
Proof. revert c. printer_lines display_time_range_menu. Qed.

Lemma menu_then {A : Type} (m : IO unit) (k : IO A) (c : console) :
  (forall c, m c = (Done tt, mkConsole (unread c) (consumed c)
                               (log c ++ lines_of m))) ->
  (m ;; k) c = k (mkConsole (unread c) (consumed c) (log c ++ lines_of m)).
Proof. intros H. unfold andthen. now rewrite H. Qed.

Section MenuFacts.

Variable env : request -> http_result.
Variable astimezone_utc : Z -> option Z.
Variable to_datetime_utc : list cell -> option (list (option Z)).
Variable pacific_offset : Z -> Z.
Variable fmt_mean fmt_max : list cell -> option string.
Variable now_ca : nat -> aware.
Variable now_local : nat -> Z.
Variable localize : Z -> Z.
Variable frame_of_other : exn + DataFrame.
Variable requests_ValueError : failure -> bool.
Variable pandas_ValueError : string -> bool.
Variable exn_text : exn -> string.

(** X15. A custom time window that is no positive integer: the turn answers
    with a message, sends nothing, and the menu comes again without the
    question whether to go on. *)
Theorem custom_window_must_be_positive (choice window : string)
  (rest : list string) (n : nat) (lg : list event) :
  Py.int choice = Some 4 ->
  custom_time_window window = None ->
  stream_turn env astimezone_utc to_datetime_utc pacific_offset fmt_mean fmt_max
    now_local frame_of_other requests_ValueError pandas_ValueError exn_text
    (mkConsole (choice :: window :: rest) n lg)
  = (Done Continue,
     mkConsole rest (S (S n))
       (lg ++ lines_of display_sen0308_stream_menu
        ++ [Asked (Py.LF ++ "Enter your choice (1-5): ");
            Asked "Enter time window in seconds: ";
            Said (match Py.int window with
                  | Some _ => "Time window must be positive"
                  | None => "Please enter a valid number"
                  end)])%list).
Proof.
  intros Hc Hw. unfold stream_turn.
  rewrite (menu_then _ _ _ display_sen0308_stream_menu_lines).
  cbn [unread consumed log].
  unfold andthen at 1. rewrite try_input, (try_int _ 4) by exact Hc.
  cbn [Z.eqb Pos.eqb]. rewrite try_bind, try_input.
  unfold custom_time_window in Hw.
  destruct (Py.int window) as [w | ] eqn:Hi.
  - rewrite (try_int _ w) by exact Hi.
    destruct (w <=? 0); [ | discriminate].
    run. now rewrite <- !app_assoc.
  - rewrite try_int_fails by exact Hi. run. now rewrite <- !app_assoc.
Qed.

(** X16. A number that is not on the stream menu is taken as choice 1: any
    choice other than 2, 3, 4 and 5 streams the last 10 seconds. *)
Theorem unlisted_stream_choice_is_choice_1 (line : string) (choice : Z)
  (rest : list string) (n : nat) (lg : list event) :
  Py.int line = Some choice ->
  ~ In choice [2; 3; 4; 5] ->
  stream_turn env astimezone_utc to_datetime_utc pacific_offset fmt_mean fmt_max
    now_local frame_of_other requests_ValueError pandas_ValueError exn_text
    (mkConsole (line :: rest) n lg)
  = stream_turn env astimezone_utc to_datetime_utc pacific_offset fmt_mean fmt_max
      now_local frame_of_other requests_ValueError pandas_ValueError exn_text
      (mkConsole ("1" :: rest) n lg).
Proof.
  intros Hc Hno.
  assert (H5 : (choice =? 5) = false) by (apply Z.eqb_neq; intros ->; apply Hno; cbn; auto 6).
  assert (H4 : (choice =? 4) = false) by (apply Z.eqb_neq; intros ->; apply Hno; cbn; auto 6).
  assert (Hw : time_windows choice = 10).
  { unfold time_windows. destruct (choice =? 1); [reflexivity | ].
    destruct (Z.eqb_spec choice 2) as [-> | _]; [exfalso; apply Hno; cbn; auto 6 | ].
    destruct (Z.eqb_spec choice 3) as [-> | _]; [exfalso; apply Hno; cbn; auto 6 | ].
    reflexivity. }
  match goal with |- _ = ?R => set (rhs := R) end.
  unfold stream_turn.
  rewrite (menu_then _ _ _ display_sen0308_stream_menu_lines).
  cbn [unread consumed log].
  unfold andthen at 1. rewrite try_input, (try_int _ choice) by exact Hc.
  rewrite H5, H4, Hw.
  subst rhs. symmetry.
  match goal with |- _ = ?R => set (rhs := R) end.
  unfold stream_turn.
  rewrite (menu_then _ _ _ display_sen0308_stream_menu_lines).
  cbn [unread consumed log].
  unfold andthen at 1. rewrite try_input, (try_int _ 1) by reflexivity.
  reflexivity.
Qed.

(** X20. A number that is not on the main menu: the turn answers with a
    message, sends nothing, and the menu comes again without the question
    whether to go on. *)
Theorem unlisted_main_choice (line : string) (choice : Z)
  (rest : list string) (n : nat) (lg : list event) :
  Py.int line = Some choice ->
  choice < 1 \/ 6 < choice ->
  main_turn env astimezone_utc to_datetime_utc pacific_offset fmt_mean fmt_max
    now_ca now_local localize frame_of_other requests_ValueError
    pandas_ValueError exn_text
    (mkConsole (line :: rest) n lg)
  = (Done Continue,
     mkConsole rest (S n)
       (lg ++ lines_of display_menu
        ++ [Asked (Py.LF ++ "Enter your choice (1-6): ");
            Said "Invalid choice. Please try again."])%list).
Proof.
  intros Hc Hout. unfold main_turn.
  rewrite (menu_then _ _ _ display_menu_lines). cbn [unread consumed log].
  unfold andthen at 1. rewrite try_input, (try_int _ choice) by exact Hc.
  assert (H6 : (choice =? 6) = false) by (apply Z.eqb_neq; lia).
  assert (H4 : (choice =? 4) = false) by (apply Z.eqb_neq; lia).
  assert (H5 : (choice =? 5) = false) by (apply Z.eqb_neq; lia).
  assert (Hi : get_cell_info choice = None).
  { unfold get_cell_info.
    destruct (Z.eqb_spec choice 1); [lia | ].
    destruct (Z.eqb_spec choice 2); [lia | ].
    destruct (Z.eqb_spec choice 3); [lia | reflexivity]. }
  rewrite H6, H4, H5, Hi. rewrite try_bind. run.
  now rewrite <- !app_assoc.
Qed.

Lemma while_true_step {A : Type} (body : IO (verdict A)) (c : console) :
  while_true body c =
  match body c with
  | (Done (Break a), c') => (Done a, c')
  | (Done Continue, c') => iterate (List.length (unread c)) body c'
  | (Raised t, c') => (Raised t, c')
  | (Starved, c') => (Starved, c')
  end.
Proof.
  unfold while_true. cbn [iterate]. unfold andthen.
  now destruct (body c) as [[[a | ] | t | ] c'].
Qed.

Lemma turns_again {A : Type} (body : IO (verdict A)) (rest : list string)
  (n : nat) (lg : list event) :
  iterate (S (List.length rest)) body (mkConsole rest n lg)
  = while_true body (mkConsole rest n lg).
Proof. reflexivity. Qed.

(** A typed date ends [get_valid_date] at once, with the midnight of that
    day in Los Angeles. *)
Lemma get_valid_datetime_typed (prompt line : string) (y m d : Z)
  (rest : list string) (n : nat) (lg : list event) :
  typed line y m d ->
  get_valid_datetime now_ca localize prompt (mkConsole (line :: rest) n lg)
  = (Done (local_midnight localize y m d),
     mkConsole rest (S n) (lg ++ [Asked prompt])).
Proof.
  intros (Hne & Hp & Hb & Hd). unfold get_valid_datetime.
  rewrite while_true_step, input_then.
  destruct (String.eqb_spec line "") as [E | _]; [contradiction | ].
  rewrite Hp, Hb. unfold localized. rewrite Hd. cbn [year month day].
  rewrite try_bind, ret_run. cbv beta iota. now rewrite try_ret.
Qed.

(** [get_valid_date] on the console and [get_valid_date] on the list of
    lines agree: the same prompts and messages, the end of the input in
    the same place, and the same day returned. *)
Lemma get_valid_datetime_agrees (today : date) (prompt : string)
  (inputs : list string) (n : nat) (lg : list event) :
  let r := get_valid_datetime now_ca localize prompt (mkConsole inputs n lg) in
  let r0 := get_valid_date today prompt inputs in
  log (snd r) = (lg ++ map event_of_io (snd r0))%list
  /\ match fst r0 with
     | EOFError => fst r = Raised EndOfInput
     | Returned d =>
         exists a, fst r = Done a
           /\ (a = local_midnight localize (year d) (month d) (day d)
               \/ (d = today /\ exists k, a = midnight (now_ca k)))
     end.
Proof.
  cbv zeta. revert n lg. induction inputs as [ | line rest IH]; intros n lg.
  - unfold get_valid_datetime. rewrite while_true_step, input_end. now split.
  - assert (Next : forall msg,
              let c' := mkConsole rest (S n)
                          ((lg ++ [Asked prompt]) ++ [Said msg])%list in
              let r := get_valid_datetime now_ca localize prompt c' in
              let r0 := get_valid_date today prompt rest in
              log (snd r)
              = (lg ++ Asked prompt :: Said msg :: map event_of_io (snd r0))%list
              /\ match fst r0 with
                 | EOFError => fst r = Raised EndOfInput
                 | Returned d =>
                     exists a, fst r = Done a
                       /\ (a = local_midnight localize (year d) (month d) (day d)
                           \/ (d = today /\ exists k, a = midnight (now_ca k)))
                 end).
    { intros msg. cbv zeta.
      destruct (IH (S n) ((lg ++ [Asked prompt]) ++ [Said msg])%list) as [Hl Hr]. split; [ | exact Hr].
      rewrite Hl, <- !app_assoc. reflexivity. }
    unfold get_valid_datetime in *. rewrite while_true_step, input_then.
    cbn [get_valid_date unread List.length].
    destruct (String.eqb line "").
    + unfold datetime_now_ca, andthen, pure. cbn [fst snd log map event_of_io].
      split; [reflexivity | ]. eexists. split; [reflexivity | ]. right. eauto.
    + destruct (parse_date line) as [[[y m] d] | ].
      * destruct (out_of_bounds y m d).
        -- rewrite try_print, try_ret.
           rewrite (turns_again _ rest).
           destruct (get_valid_date today prompt rest) as [r0 o0] eqn:E0.
           cbn [fst snd map event_of_io]. apply (Next values_message).
        -- unfold localized. destruct (datetime_ymd y m d) as [dt | ] eqn:Hd.
           ++ rewrite try_bind, ret_run. cbv beta iota. rewrite try_ret.
              cbn [fst snd log map event_of_io].
              split; [reflexivity | ]. eexists. split; [reflexivity | ].
              left. unfold local_midnight. unfold datetime_ymd in Hd.
              destruct (_ && _); [ | discriminate]. now injection Hd as <-.
           ++ rewrite try_bind, raise_run. cbv beta iota.
              rewrite print_then, ret_run.
              rewrite (turns_again _ rest).
              destruct (get_valid_date today prompt rest) as [r0 o0] eqn:E0.
              cbn [fst snd map event_of_io]. apply (Next format_message).
      * rewrite try_raise. rewrite print_then, ret_run.
        rewrite (turns_again _ rest).
        destruct (get_valid_date today prompt rest) as [r0 o0] eqn:E0.
        cbn [fst snd map event_of_io]. apply (Next format_message).
Qed.

(** X19. The custom range is returned as typed, from the first midnight to the
    last second of the second day; the two dates are not compared. *)
Theorem custom_range_is_returned_as_typed (choice first second : string)
  (y1 m1 d1 y2 m2 d2 : Z) (rest : list string) (n : nat) (lg : list event) :
  Py.int choice = Some 3 ->
  typed first y1 m1 d1 ->
  typed second y2 m2 d2 ->
  get_time_range now_ca localize (mkConsole (choice :: first :: second :: rest) n lg)
  = (Done (local_midnight localize y1 m1 d1,
           end_of_day (local_midnight localize y2 m2 d2)),
     mkConsole rest (S (S (S n)))
       (lg ++ lines_of display_time_range_menu
        ++ [Asked (Py.LF ++ "Enter your choice (1-3): ");
            Asked "Enter start date (YYYY-MM-DD): ";
            Asked "Enter end date (YYYY-MM-DD): "])%list).
Proof.
  intros Hc H1 H2. unfold get_time_range.
  rewrite (menu_then _ _ _ display_time_range_menu_lines).
  cbn [unread consumed log].
  rewrite while_true_step, try_input, (try_int _ 3) by exact Hc.
  rewrite try_bind. unfold datetime_now_ca at 1. cbv beta iota. cbn [Z.eqb Pos.eqb].
  rewrite try_bind, (get_valid_datetime_typed _ _ _ _ _ _ _ _ H1).
  rewrite try_bind, (get_valid_datetime_typed _ _ _ _ _ _ _ _ H2).
  rewrite try_ret. now rewrite <- !app_assoc.
Qed.

Lemma get_time_range_today (choice : string) (rest : list string) (n : nat)
  (lg : list event) :
  Py.int choice = Some 1 ->
  get_time_range now_ca localize (mkConsole (choice :: rest) n lg)
  = (Done (midnight (now_ca (S n)), now_ca (S n)),
     mkConsole rest (S n)
       (lg ++ lines_of display_time_range_menu
        ++ [Asked (Py.LF ++ "Enter your choice (1-3): ")])%list).
Proof.
  intros Hc. unfold get_time_range.
  rewrite (menu_then _ _ _ display_time_range_menu_lines).
  cbn [unread consumed log].
  rewrite while_true_step, try_input, (try_int _ 1) by exact Hc.
  rewrite try_bind. unfold datetime_now_ca at 1. cbv beta iota. cbn [Z.eqb Pos.eqb].
  rewrite try_ret. cbn [consumed]. now rewrite <- !app_assoc.
Qed.

Lemma astimezone_UTC_run (a : aware) (c : console) :
  representable (instant a) -> astimezone_UTC a c = (Done (instant a), c).
Proof.
  intros [H1 H2]. unfold astimezone_UTC.
  apply Z.leb_le in H1, H2. now rewrite H1, H2.
Qed.

(** [get_sensor_data] for a range [datetime] can hold in UTC: one request,
    and the answer of the API or the exception made of it. *)
Lemma sensor_data_run (name measurement : string) (cellId : Z)
  (start end_ : aware) (u : list string) (n : nat) (lg : list event) :
  representable (instant start) ->
  representable (instant end_) ->
  let q := sensor_request name measurement cellId
             (Some (instant start)) (Some (instant end_)) in
  sensor_data env name measurement cellId start end_ (mkConsole u n lg)
  = (match env q with
     | Refused f => Raised (Requests f)
     | Responds response =>
         match raise_for_status response with
         | Raise _ => Raised (HTTPError (reason response) (text response))
         | Val _ =>
             match json response with
             | inl f => Raised (Requests f)
             | inr body => Done body
             end
         end
     end,
     mkConsole u n (lg ++ [Requested q])).
Proof.
  intros Hs He q. unfold sensor_data.
  unfold andthen at 1. rewrite (astimezone_UTC_run _ _ Hs).
  unfold andthen at 1. rewrite (astimezone_UTC_run _ _ He).
  rewrite emit_then. fold q.
  destruct (env q) as [response | f]; [ | reflexivity].
  destruct (raise_for_status response); [ | reflexivity].
  now destruct (json response).
Qed.

Lemma emit_all_run (es : list event) (u : list string) (n : nat)
  (lg : list event) :
  emit_all es (mkConsole u n lg) = (Done tt, mkConsole u n (lg ++ es)).
Proof.
  revert lg. induction es as [ | e es IH]; intros lg; cbn [emit_all].
  - now rewrite app_nil_r.
  - rewrite emit_then, IH, <- app_assoc. reflexivity.
Qed.

Lemma display_run (df : DataFrame) (cell_id : Z) (measurement_type : string)
  (u : list string) (n : nat) (lg : list event) :
  let shown := format_data_display to_datetime_utc pacific_offset fmt_mean fmt_max
                 df cell_id measurement_type in
  display to_datetime_utc pacific_offset fmt_mean fmt_max df cell_id
    measurement_type (mkConsole u n lg)
  = (match snd shown with
     | None => Done tt
     | Some e => Raised (Pandas e)
     end,
     mkConsole u n (lg ++ map event_of_output (fst shown))).
Proof.
  cbv zeta. unfold display.
  destruct (format_data_display _ _ _ _ df cell_id measurement_type) as [out e].
  unfold andthen. rewrite emit_all_run. now destruct e.
Qed.

Lemma preset_choice (choice : Z) (cell : cell_info) :
  get_cell_info choice = Some cell ->
  (choice =? 6) = false /\ (choice =? 4) = false /\ (choice =? 5) = false.
Proof.
  unfold get_cell_info.
  destruct (Z.eqb_spec choice 1) as [-> | _]; [now repeat split | ].
  destruct (Z.eqb_spec choice 2) as [-> | _]; [now repeat split | ].
  destruct (Z.eqb_spec choice 3) as [-> | _]; [now repeat split | discriminate].
Qed.

(** X21. A preset and today's data, answered by the API with an error status:
    the turn sends one request, for the sensor, the measurement and the
    cell of the preset and the time from the last midnight in Los Angeles
    until now; it prints the error and the first 500 characters of the
    body, and asks whether to go on. *)
Theorem http_error_is_reported (choice range answer : string) (k : Z)
  (cell : cell_info) (response : DirtViz.response)
  (rest : list string) (n : nat) (lg : list event) :
  let now := now_ca (S (S n)) in
  let q := sensor_request (sensor_name cell) (measurement cell) (cell_id cell)
             (Some (instant (midnight now))) (Some (instant now)) in
  Py.int choice = Some k ->
  get_cell_info k = Some cell ->
  Py.int range = Some 1 ->
  representable (instant (midnight now)) ->
  representable (instant now) ->
  env q = Responds response ->
  400 <= status_code response < 600 ->
  main_turn env astimezone_utc to_datetime_utc pacific_offset fmt_mean fmt_max
    now_ca now_local localize frame_of_other requests_ValueError
    pandas_ValueError exn_text
    (mkConsole (choice :: range :: answer :: rest) n lg)
  = (Done (if String.eqb (Py.lower answer) "y" then Continue else Break tt),
     mkConsole rest (S (S (S n)))
       (lg ++ lines_of display_menu
        ++ [Asked (Py.LF ++ "Enter your choice (1-6): ");
            Said (Py.LF ++ "Fetching " ++ measurement cell ++ " data for cell "
                  ++ Py.str_int (cell_id cell) ++ "...")]
        ++ lines_of display_time_range_menu
        ++ [Asked (Py.LF ++ "Enter your choice (1-3): ");
            Requested q;
            Said (Py.LF ++ "HTTP Error: " ++ reason response);
            Said ("Response: " ++ String.substring 0 500 (text response) ++ "...");
            Asked (Py.LF ++ "Would you like to view another cell? (y/n): ")]
        ++ (if String.eqb (Py.lower answer) "y" then []
            else [Said "Exiting program. Goodbye!"]))%list).
Proof.
  intros now q Hc Hcell Hr Hs He Henv Hstatus.
  destruct (preset_choice k cell Hcell) as (H6 & H4 & H5).
  unfold main_turn.
  rewrite (menu_then _ _ _ display_menu_lines). cbn [unread consumed log].
  unfold andthen at 1. rewrite try_input, (try_int _ k) by exact Hc.
  rewrite H6, H4, H5. rewrite try_bind, ret_run, Hcell. cbv beta iota.
  rewrite try_print, try_bind, (get_time_range_today _ _ _ _ Hr).
  cbn [fst snd]. rewrite try_bind, (sensor_data_run _ _ _ _ _ _ _ _ Hs He).
  fold now q. rewrite Henv. unfold raise_for_status.
  assert (Hst : (400 <=? status_code response) && (status_code response <? 600) = true).
  { apply andb_true_intro. split; [apply Z.leb_le | apply Z.ltb_lt]; lia. }
  rewrite Hst. rewrite !print_then, ret_run. cbv beta iota.
  rewrite input_then.
  destruct (String.eqb (Py.lower answer) "y").
  - rewrite ret_run, app_nil_r. now rewrite <- !app_assoc.
  - rewrite print_then, ret_run. now rewrite <- !app_assoc.
Qed.

(** X22. A preset and today's data, answered by the API with readings: the
    turn sends the same request and prints what [format_data_display]
    prints for the frame of the readings, under the cell and the
    measurement of the preset, and asks whether to go on. *)
Theorem readings_are_displayed (choice range answer : string) (k : Z)
  (cell : cell_info) (response : DirtViz.response) (rs : list record)
  (out : list output)
  (rest : list string) (n : nat) (lg : list event) :
  let now := now_ca (S (S n)) in
  let q := sensor_request (sensor_name cell) (measurement cell) (cell_id cell)
             (Some (instant (midnight now))) (Some (instant now)) in
  Py.int choice = Some k ->
  get_cell_info k = Some cell ->
  Py.int range = Some 1 ->
  representable (instant (midnight now)) ->
  representable (instant now) ->
  env q = Responds response ->
  status_code response < 400 \/ 600 <= status_code response ->
  json response = inr (Records rs) ->
  rs <> [] ->
  format_data_display to_datetime_utc pacific_offset fmt_mean fmt_max
    (DataFrame_of rs) (cell_id cell) (measurement cell) = (out, None) ->
  main_turn env astimezone_utc to_datetime_utc pacific_offset fmt_mean fmt_max
    now_ca now_local localize frame_of_other requests_ValueError
    pandas_ValueError exn_text
    (mkConsole (choice :: range :: answer :: rest) n lg)
  = (Done (if String.eqb (Py.lower answer) "y" then Continue else Break tt),
     mkConsole rest (S (S (S n)))
       (lg ++ lines_of display_menu
        ++ [Asked (Py.LF ++ "Enter your choice (1-6): ");
            Said (Py.LF ++ "Fetching " ++ measurement cell ++ " data for cell "
                  ++ Py.str_int (cell_id cell) ++ "...")]
        ++ lines_of display_time_range_menu
        ++ [Asked (Py.LF ++ "Enter your choice (1-3): "); Requested q]
        ++ map event_of_output out
        ++ [Asked (Py.LF ++ "Would you like to view another cell? (y/n): ")]
        ++ (if String.eqb (Py.lower answer) "y" then []
            else [Said "Exiting program. Goodbye!"]))%list).
Proof.
  intros now q Hc Hcell Hr Hs He Henv Hstatus Hjson Hrs Hout.
  destruct (preset_choice k cell Hcell) as (H6 & H4 & H5).
  unfold main_turn.
  rewrite (menu_then _ _ _ display_menu_lines). cbn [unread consumed log].
  unfold andthen at 1. rewrite try_input, (try_int _ k) by exact Hc.
  rewrite H6, H4, H5. rewrite try_bind, ret_run, Hcell. cbv beta iota.
  rewrite try_print, try_bind, (get_time_range_today _ _ _ _ Hr).
  cbn [fst snd]. rewrite try_bind, (sensor_data_run _ _ _ _ _ _ _ _ Hs He).
  fold now q. rewrite Henv. unfold raise_for_status.
  assert (Hst : (400 <=? status_code response) && (status_code response <? 600) = false).
  { apply andb_false_iff. destruct Hstatus; [left; apply Z.leb_gt | right; apply Z.ltb_ge]; lia. }
  rewrite Hst, Hjson.
  destruct rs as [ | r0 rs']; [contradiction | ]. cbn [has_data].
  rewrite try_bind. unfold andthen at 1. unfold frame at 1. rewrite ret_run.
  rewrite display_run, Hout. cbn [fst snd]. rewrite try_ret.
  rewrite input_then.
  destruct (String.eqb (Py.lower answer) "y").
  - rewrite ret_run, app_nil_r. now rewrite <- !app_assoc.
  - rewrite print_then, ret_run. now rewrite <- !app_assoc.
Qed.


End MenuFacts.

Lemma custom_window_must_be_positive_witness :
  fst (stream_turn offline eight_behind sample_to_datetime pdt (always "41.00")
         (always "41.00") noon_local no_frame never never_pandas repr_text
         (start ["4"; "0"; "y"]))
  = Done Continue.
Proof.
  unfold start.
  rewrite (custom_window_must_be_positive offline eight_behind sample_to_datetime
             pdt (always "41.00") (always "41.00") noon_local no_frame never
             never_pandas repr_text "4" "0" ["y"] 0 [] eq_refl eq_refl).
  reflexivity.
Defined.

Lemma unlisted_stream_choice_is_choice_1_witness :
  stream_turn offline eight_behind sample_to_datetime pdt (always "41.00")
    (always "41.00") noon_local no_frame never never_pandas repr_text
    (start ["7"; "n"])
  = stream_turn offline eight_behind sample_to_datetime pdt (always "41.00")
      (always "41.00") noon_local no_frame never never_pandas repr_text
      (start ["1"; "n"]).
Proof.
  unfold start.
  apply (unlisted_stream_choice_is_choice_1 offline eight_behind sample_to_datetime
           pdt (always "41.00") (always "41.00") noon_local no_frame never
           never_pandas repr_text "7" 7 ["n"] 0 [] eq_refl).
  cbn. intros [H | [H | [H | [H | []]]]]; discriminate H.
Defined.

Lemma unlisted_main_choice_witness :
  fst (main_turn offline eight_behind sample_to_datetime pdt (always "41.00")
         (always "41.00") noon noon_local summer no_frame never never_pandas
         repr_text (start ["9"; "6"]))
  = Done Continue.
Proof.
  unfold start.
  rewrite (unlisted_main_choice offline eight_behind sample_to_datetime
             pdt (always "41.00") (always "41.00") noon noon_local summer no_frame
             never never_pandas repr_text "9" 9 ["6"] 0 [] eq_refl);
    [reflexivity | right; lia].
Defined.

(** A custom range whose end precedes its start is returned. *)
Lemma custom_range_is_returned_as_typed_witness :
  fst (get_time_range noon summer (start ["3"; "2025-08-21"; "2025-08-01"]))
  = Done (mkAware 1755734400 (-25200), mkAware 1754092799 (-25200)).
Proof.
  unfold start.
  rewrite (custom_range_is_returned_as_typed noon summer
             "3" "2025-08-21" "2025-08-01" 2025 8 21 2025 8 1 [] 0 [] eq_refl).
  - reflexivity.
  - unfold typed. repeat split; discriminate.
  - unfold typed. repeat split; discriminate.
Defined.

Lemma http_error_is_reported_witness :
  fst (main_turn not_found eight_behind sample_to_datetime pdt (always "41.00")
         (always "41.00") noon noon_local summer no_frame never never_pandas
         repr_text (start ["1"; "1"; "n"]))
  = Done (Break tt).
Proof.
  unfold start.
  rewrite (http_error_is_reported not_found eight_behind sample_to_datetime
             pdt (always "41.00") (always "41.00") noon noon_local summer no_frame
             never never_pandas repr_text "1" "1" "n" 1
             (mkInfo 1350 "sen0257" "pressure")
             (mkResponse 404 "no such cell" "404 Client Error: NOT FOUND"
                (inl (OtherException "Expecting value")))
             [] 0 [] eq_refl eq_refl eq_refl).
  - reflexivity.
  - split; discriminate.
  - split; discriminate.
  - reflexivity.
  - cbn. lia.
Defined.

Lemma readings_are_displayed_witness :
  fst (main_turn (serving two_readings) eight_behind sample_to_datetime pdt
         (always "42.00") (always "43.00") noon noon_local summer no_frame never
         never_pandas repr_text (start ["3"; "1"; "y"]))
  = Done Continue.
Proof.
  unfold start.
  rewrite (readings_are_displayed (serving two_readings) eight_behind
             sample_to_datetime pdt (always "42.00") (always "43.00") noon
             noon_local summer no_frame never never_pandas repr_text
             "3" "1" "y" 3 (mkInfo 1448 "sen0308" "humidity")
             (mkResponse 200 "" "OK" (inr (Records two_readings))) two_readings
             (fst (format_data_display sample_to_datetime pdt (always "42.00")
                     (always "43.00") (DataFrame_of two_readings) 1448 "humidity"))
             [] 0 [] eq_refl eq_refl eq_refl).
  - reflexivity.
  - split; discriminate.
  - split; discriminate.
  - reflexivity.
  - left. cbn. lia.
  - reflexivity.
  - discriminate.
  - reflexivity.
Defined.


End DirtVizMenuFacts.

(* ------------------------------------------------------------------ *)
(** ** demoPullRequests.py: the loops *)

Module DirtVizLoops.
Import Http DirtViz DirtVizMenu DirtVizMenuSpec DirtVizMenuFacts.
Local Open Scope menu_scope.

(** *** Consoles in sequence *)

Lemma after_refl (P : event -> Prop) (c : console) : after P c c.
Proof. exists [], []. cbn. rewrite app_nil_r. repeat split; [lia | constructor]. Qed.

Lemma after_trans (P : event -> Prop) (c1 c2 c3 : console) :
  after P c1 c2 -> after P c2 c3 -> after P c1 c3.
Proof.
  intros (l1 & e1 & Hu1 & Hn1 & Hl1 & Hp1) (l2 & e2 & Hu2 & Hn2 & Hl2 & Hp2).
  exists (l1 ++ l2)%list, (e1 ++ e2)%list. repeat split.
  - now rewrite Hu1, Hu2, app_assoc.
  - rewrite Hn2, Hn1, length_app. lia.
  - now rewrite Hl2, Hl1, app_assoc.
  - apply Forall_app. now split.
Qed.

Lemma after_weaken (P P' : event -> Prop) (c c' : console) :
  (forall e, P e -> P' e) -> after P c c' -> after P' c c'.
Proof.
  intros H (l & es & Hu & Hn & Hl & Hp). exists l, es. repeat split; auto.
  eapply Forall_impl; eauto.
Qed.

Lemma wrote_after (P : event -> Prop) (c c' : console) :
  wrote P c c' -> after P c c'.
Proof.
  intros (Hu & Hn & es & Hl & Hp). exists [], es. cbn.
  repeat split; auto; lia.
Qed.

Lemma wrote_refl (P : event -> Prop) (c : console) : wrote P c c.
Proof.
  repeat split. exists []. rewrite app_nil_r. split; [reflexivity | constructor].
Qed.

Lemma wrote_trans (P : event -> Prop) (c1 c2 c3 : console) :
  wrote P c1 c2 -> wrote P c2 c3 -> wrote P c1 c3.
Proof.
  intros (Hu1 & Hn1 & e1 & Hl1 & Hp1) (Hu2 & Hn2 & e2 & Hl2 & Hp2).
  split; [congruence | ]. split; [congruence | ].
  exists (e1 ++ e2)%list. split.
  - now rewrite Hl2, Hl1, app_assoc.
  - apply Forall_app. now split.
Qed.

Lemma wrote_weaken (P P' : event -> Prop) (c c' : console) :
  (forall e, P e -> P' e) -> wrote P c c' -> wrote P' c c'.
Proof.
  intros H (Hu & Hn & es & Hl & Hp). repeat split; auto.
  exists es. split; [exact Hl | ]. eapply Forall_impl; eauto.
Qed.

Lemma wrote_say (P : event -> Prop) (c : console) (e : event) :
  P e -> wrote P c (say c e).
Proof.
  intros H. repeat split. exists [e]. split; [reflexivity | now constructor].
Qed.

Lemma after_say (P : event -> Prop) (c0 c : console) (e : event) :
  P e -> after P c0 c -> after P c0 (say c e).
Proof.
  intros H H0. eapply after_trans; [exact H0 | ].
  apply wrote_after. now apply wrote_say.
Qed.

Lemma after_next (P : event -> Prop) (c0 c : console) (p line : string)
  (rest : list string) :
  P (Asked p) -> unread c = line :: rest -> after P c0 c -> after P c0 (next c p).
Proof.
  intros H Hu H0. eapply after_trans; [exact H0 | ].
  exists [line], [Asked p]. unfold next. cbn. rewrite Hu. cbn.
  repeat split; [lia | now constructor].
Qed.

Lemma after_consumed (P : event -> Prop) (c c' : console) :
  after P c c' -> (consumed c <= consumed c')%nat.
Proof. intros (l & es & _ & Hn & _). lia. Qed.

Lemma after_shorter (P : event -> Prop) (c c' : console) :
  after P c c' -> (consumed c < consumed c')%nat ->
  (List.length (unread c') < List.length (unread c))%nat.
Proof.
  intros (l & es & Hu & Hn & _) H. rewrite Hu, length_app.
  destruct l; cbn in *; lia.
Qed.

Lemma after_length (P : event -> Prop) (c c' : console) :
  after P c c' -> (List.length (unread c') <= List.length (unread c))%nat.
Proof. intros (l & es & Hu & _). rewrite Hu, length_app. lia. Qed.

Lemma consumed_say (c : console) (e : event) : consumed (say c e) = consumed c.
Proof. reflexivity. Qed.

Lemma unread_say (c : console) (e : event) : unread (say c e) = unread c.
Proof. reflexivity. Qed.

Lemma consumed_next (c : console) (p : string) :
  consumed (next c p) = S (consumed c).
Proof. reflexivity. Qed.

Lemma last_event_say (c : console) (e : event) :
  last_event (log (say c e)) = Some e.
Proof.
  unfold last_event, say. cbn [log]. rewrite map_app. cbn [map].
  apply last_last.
Qed.

(** *** Rules *)

Lemma holds_conseq {A : Type} (m : IO A) (c : console)
  (Post Post' : answer A -> console -> Prop) :
  holds m c Post -> (forall r c', Post r c' -> Post' r c') -> holds m c Post'.
Proof. unfold holds. auto. Qed.

Lemma holds_ret {A : Type} (a : A) (c : console)
  (Post : answer A -> console -> Prop) :
  Post (Done a) c -> holds (pure a) c Post.
Proof. auto. Qed.

Lemma holds_raise {A : Type} (t : trouble) (c : console)
  (Post : answer A -> console -> Prop) :
  Post (Raised t) c -> holds (throw t) c Post.
Proof. auto. Qed.

Lemma holds_bind {A B : Type} (m : IO A) (k : A -> IO B) (c : console)
  (Post : answer B -> console -> Prop) :
  holds m c (fun r c' =>
               match r with
               | Done a => holds (k a) c' Post
               | Raised t => Post (Raised t) c'
               | Starved => Post Starved c'
               end) ->
  holds (x <- m ;; k x) c Post.
Proof. unfold holds, andthen. now destruct (m c) as [[a | t | ] c']. Qed.

Lemma holds_try {A : Type} (body : IO A) (h : trouble -> IO A) (c : console)
  (Post : answer A -> console -> Prop) :
  holds body c (fun r c' =>
                  match r with
                  | Raised t => holds (h t) c' Post
                  | Done a => Post (Done a) c'
                  | Starved => Post Starved c'
                  end) ->
  holds (try body h) c Post.
Proof. unfold holds, try. now destruct (body c) as [[a | t | ] c']. Qed.

Lemma holds_emit (e : event) (c : console)
  (Post : answer unit -> console -> Prop) :
  Post (Done tt) (say c e) -> holds (emit e) c Post.
Proof. auto. Qed.

Lemma holds_print (s : string) (c : console)
  (Post : answer unit -> console -> Prop) :
  Post (Done tt) (say c (Said s)) -> holds (print_line s) c Post.
Proof. auto. Qed.

Lemma holds_input (p : string) (c : console)
  (Post : answer string -> console -> Prop) :
  (unread c = [] -> Post (Raised EndOfInput) (say c (Asked p))) ->
  (forall line rest, unread c = line :: rest -> Post (Done line) (next c p)) ->
  holds (input p) c Post.
Proof.
  intros H0 H1. unfold holds, input, say, next in *.
  destruct (unread c) as [ | line rest]; cbn [fst snd].
  - now apply H0.
  - now apply (H1 line rest).
Qed.

Lemma holds_int (s : string) (c : console)
  (Post : answer Z -> console -> Prop) :
  (forall z, Py.int s = Some z -> Post (Done z) c) ->
  (Py.int s = None -> Post (Raised ValueError) c) ->
  holds (to_int s) c Post.
Proof.
  intros H1 H0. unfold holds, to_int.
  destruct (Py.int s) as [z | ]; [now apply H1 | now apply H0].
Qed.

Lemma holds_emit_all (P : event -> Prop) (es : list event) (c : console)
  (Post : answer unit -> console -> Prop) :
  Forall P es ->
  (forall c', wrote P c c' -> Post (Done tt) c') ->
  holds (emit_all es) c Post.
Proof.
  intros Hes. revert c. induction Hes as [ | e es He Hes IH]; intros c H.
  - apply holds_ret. apply H. apply wrote_refl.
  - cbn [emit_all]. apply holds_bind. apply holds_emit. apply IH.
    intros c' Hc'. apply H. eapply wrote_trans; [ | exact Hc'].
    now apply wrote_say.
Qed.

(** [while True]: when every turn that leads to the next has read a line,
    the loop ends, in a [break] or [return] of a turn or in an exception
    of a turn. *)
Lemma holds_while {A : Type} (P : event -> Prop) (body : IO (verdict A))
  (Post : answer A -> console -> Prop) (c : console) :
  (forall c1, after P c c1 ->
     holds body c1 (fun r c2 =>
       after P c1 c2
       /\ match r with
          | Done (Break a) => Post (Done a) c2
          | Done Continue => (consumed c1 < consumed c2)%nat
          | Raised t => Post (Raised t) c2
          | Starved => False
          end)) ->
  holds (while_true body) c (fun r c' => after P c c' /\ r <> Starved /\ Post r c').
Proof.
  intros Hbody. unfold holds, while_true.
  assert (G : forall fuel c1,
            after P c c1 -> (List.length (unread c1) < fuel)%nat ->
            after P c (snd (iterate fuel body c1))
            /\ fst (iterate fuel body c1) <> Starved
            /\ Post (fst (iterate fuel body c1)) (snd (iterate fuel body c1))).
  { induction fuel as [ | fuel IH]; intros c1 H1 Hlen; [lia | ].
    cbn [iterate]. unfold andthen. specialize (Hbody c1 H1). unfold holds in Hbody.
    destruct (body c1) as [[[a | ] | t | ] c2]; cbn [fst snd] in *;
      destruct Hbody as [H12 Hr].
    - split; [eapply after_trans; eauto | ]. split; [discriminate | exact Hr].
    - apply IH; [eapply after_trans; eauto | ].
      pose proof (after_shorter P c1 c2 H12 Hr). lia.
    - split; [eapply after_trans; eauto | ]. split; [discriminate | exact Hr].
    - contradiction. }
  apply G; [apply after_refl | lia].
Qed.

(** *** What the pieces do to the console *)

Lemma wall_midnight (a : aware) : wall (midnight a) mod 86400 = 0.
Proof.
  unfold midnight. cbn [wall].
  rewrite Zminus_mod, Zmod_mod, Z.sub_diag. reflexivity.
Qed.

Lemma wall_end_of_day (a : aware) : wall (end_of_day a) mod 86400 = 86399.
Proof.
  unfold end_of_day. cbn [wall].
  rewrite Zplus_mod, Zminus_mod, Zmod_mod, Z.sub_diag. reflexivity.
Qed.

Lemma silent_stream (e : event) : silent e -> stream_event e.
Proof. now destruct e. Qed.

Lemma silent_known (e : event) : silent e -> known_event e.
Proof. now destruct e. Qed.

Lemma stream_known (e : event) : stream_event e -> known_event e.
Proof. destruct e; cbn; auto. Qed.

Lemma silent_lines (m : IO unit) (es : list event) (c : console) :
  Forall silent es ->
  (forall c, m c = (Done tt, mkConsole (unread c) (consumed c) (log c ++ es))) ->
  forall Post : answer unit -> console -> Prop,
    (forall c', wrote silent c c' -> Post (Done tt) c') -> holds m c Post.
Proof.
  intros Hes Hm Post H. unfold holds. rewrite Hm. cbn [fst snd]. apply H.
  repeat split. exists es. now split.
Qed.

Ltac silent_menu f :=
  intros Post H; eapply (silent_lines f); [ | | exact H];
  [ | intros [u n lg]; unfold f; rewrite !print_then, print_last;
      cbn [unread consumed log]; rewrite <- !app_assoc; reflexivity ];
  cbn [app]; repeat constructor.

Lemma holds_display_menu (c : console) (Post : answer unit -> console -> Prop) :
  (forall c', wrote silent c c' -> Post (Done tt) c') -> holds display_menu c Post.
Proof. revert Post. silent_menu display_menu. Qed.

Lemma holds_display_sen0308_stream_menu (c : console)
  (Post : answer unit -> console -> Prop) :
  (forall c', wrote silent c c' -> Post (Done tt) c') ->
  holds display_sen0308_stream_menu c Post.
Proof. revert Post. silent_menu display_sen0308_stream_menu. Qed.

Lemma holds_display_time_range_menu (c : console)
  (Post : answer unit -> console -> Prop) :
  (forall c', wrote silent c c' -> Post (Done tt) c') ->
  holds display_time_range_menu c Post.
Proof. revert Post. silent_menu display_time_range_menu. Qed.

Lemma after_wrote (P : event -> Prop) (c0 c c' : console) :
  wrote P c c' -> after P c0 c -> after P c0 c'.
Proof. intros H H0. eapply after_trans; [exact H0 | now apply wrote_after]. Qed.

Lemma after_then (P : event -> Prop) (c0 c c' : console) :
  after P c c' -> after P c0 c -> after P c0 c'.
Proof. intros H H0. eapply after_trans; eauto. Qed.

Lemma after_silent_wrote (P : event -> Prop) (c0 c c' : console) :
  (forall e, silent e -> P e) -> wrote silent c c' -> after P c0 c -> after P c0 c'.
Proof.
  intros HP H H0. eapply after_wrote; [ | exact H0].
  eapply wrote_weaken; eauto.
Qed.

(** The chain of consoles of a run, from the facts collected on the way. *)
Ltac chain :=
  repeat first
    [ apply after_refl
    | assumption
    | apply after_say; [exact I | ]
    | eapply after_next; [exact I | eassumption | ]
    | match goal with
      | H : wrote ?P ?c ?c' |- after ?P _ ?c' => apply (after_wrote P _ c c' H)
      | H : after ?P ?c ?c' |- after ?P _ ?c' => apply (after_then P _ c c' H)
      | H : wrote silent ?c ?c' |- after stream_event _ ?c' =>
          apply (after_silent_wrote stream_event _ c c' silent_stream H)
      | H : wrote silent ?c ?c' |- after known_event _ ?c' =>
          apply (after_silent_wrote known_event _ c c' silent_known H)
      | H : after silent ?c ?c' |- after known_event _ ?c' =>
          apply (after_then known_event _ c c'
                   (after_weaken _ _ _ _ silent_known H))
      | H : after stream_event ?c ?c' |- after known_event _ ?c' =>
          apply (after_then known_event _ c c'
                   (after_weaken _ _ _ _ stream_known H))
      end ].

Ltac counts :=
  repeat match goal with
    | H : wrote _ ?a ?b |- _ =>
        lazymatch goal with
        | _ : consumed b = consumed a |- _ => fail
        | _ => assert (consumed b = consumed a) by exact (proj1 (proj2 H))
        end
    | H : after _ ?a ?b |- _ =>
        lazymatch goal with
        | _ : (consumed a <= consumed b)%nat |- _ => fail
        | _ => pose proof (after_consumed _ _ _ H)
        end
    end;
  cbn [consumed say next] in *; try lia.

Lemma holds_datetime_now_ca (now_ca : nat -> aware) (c : console)
  (Post : answer aware -> console -> Prop) :
  Post (Done (now_ca (consumed c))) c -> holds (datetime_now_ca now_ca) c Post.
Proof. auto. Qed.

Lemma holds_datetime_now (now_local : nat -> Z) (c : console)
  (Post : answer Z -> console -> Prop) :
  Post (Done (now_local (consumed c))) c -> holds (datetime_now now_local) c Post.
Proof. auto. Qed.

Ltac hstep :=
  lazymatch goal with
  | |- holds (datetime_now_ca _) _ _ => apply holds_datetime_now_ca
  | |- holds (datetime_now _) _ _ => apply holds_datetime_now
  | |- holds (andthen _ _) _ _ => apply holds_bind
  | |- holds (try _ _) _ _ => apply holds_try
  | |- holds (print_line _) _ _ => apply holds_print
  | |- holds (pure _) _ _ => apply holds_ret
  | |- holds (throw _) _ _ => apply holds_raise
  | |- holds (input _) _ _ =>
      apply holds_input; [intros ?Hend | intros ?line ?rest ?Hline]
  | |- holds (to_int _) _ _ =>
      apply holds_int; [intros ?z ?Hint | intros ?Hint]
  end;
  cbv beta iota.

Section Pieces.

Variable env : request -> http_result.
Variable astimezone_utc : Z -> option Z.
Variable to_datetime_utc : list cell -> option (list (option Z)).
Variable pacific_offset : Z -> Z.
Variable fmt_mean fmt_max : list cell -> option string.
Variable now_ca : nat -> aware.
Variable now_local : nat -> Z.
Variable localize : Z -> Z.
Variable frame_of_other : exn + DataFrame.
Variable requests_ValueError : failure -> bool.
Variable pandas_ValueError : string -> bool.
Variable exn_text : exn -> string.

Lemma stream_requests (now cell_id time_window : Z) :
  Forall stream_event
    (events_of (snd (get_sen0308_stream env astimezone_utc now 1448 time_window))).
Proof.
  unfold get_sen0308_stream.
  destruct (timedelta_seconds time_window) as [delta | f]; [ | constructor].
  destruct (datetime_sub now delta) as [start_time | f]; [ | constructor].
  destruct (astimezone astimezone_utc start_time) as [start_utc | f]; [ | constructor].
  destruct (astimezone astimezone_utc now) as [end_utc | f]; [ | constructor].
  destruct (fetch_json env _) as [body | [e [t | ] | e]]; cbn;
    repeat constructor; cbn; eauto.
Qed.

Lemma holds_stream_data (time_window : Z) (c : console)
  (Post : answer payload -> console -> Prop) :
  (forall r c', wrote stream_event c c' ->
                match r with
                | Done _ => True
                | Raised t => exists msg, t = Overflow msg
                | Starved => False
                end -> Post r c') ->
  holds (stream_data env astimezone_utc now_local time_window) c Post.
Proof.
  intros H. unfold stream_data, datetime_now. apply holds_bind.
  unfold holds at 1. cbn [fst snd].
  pose proof (stream_requests (now_local (consumed c)) 1448 time_window) as Hq.
  destruct (get_sen0308_stream env astimezone_utc (now_local (consumed c)) 1448
              time_window) as [r e].
  cbn [snd] in Hq. apply holds_bind.
  apply (holds_emit_all stream_event _ _ _ Hq). intros c' Hc'.
  destruct r as [data | f].
  - apply holds_ret. now apply H.
  - apply holds_raise. apply H; [exact Hc' | eauto].
Qed.

Lemma holds_display (df : DataFrame) (cell_id : Z) (measurement_type : string)
  (c : console) (Post : answer unit -> console -> Prop) :
  (forall r c', wrote silent c c' ->
                match r with
                | Done _ => True
                | Raised t => exists e, t = Pandas e
                | Starved => False
                end -> Post r c') ->
  holds (display to_datetime_utc pacific_offset fmt_mean fmt_max
           df cell_id measurement_type) c Post.
Proof.
  intros H. unfold display.
  destruct (format_data_display _ _ _ _ df cell_id measurement_type) as [out e].
  apply holds_bind.
  apply (holds_emit_all silent).
  { clear. induction out as [ | [s | d] out IH]; cbn; constructor; auto; exact I. }
  intros c' Hc'. destruct e as [e | ].
  - apply holds_raise. apply H; [exact Hc' | eauto].
  - apply holds_ret. now apply H.
Qed.

Lemma holds_frame (data : payload) (c : console)
  (Post : answer DataFrame -> console -> Prop) :
  (forall r, match r with
             | Done _ => True
             | Raised t => exists e, t = Pandas e
             | Starved => False
             end -> Post r c) ->
  holds (frame frame_of_other data) c Post.
Proof.
  intros H. unfold frame. destruct data as [rs | t].
  - apply holds_ret. now apply H.
  - destruct frame_of_other as [e | df].
    + apply holds_raise. apply H. eauto.
    + apply holds_ret. now apply H.
Qed.

Lemma holds_minus_days (a : aware) (n : Z) (c : console)
  (Post : answer aware -> console -> Prop) :
  (forall s, utcoffset s = utcoffset a -> wall s = wall a - n * 86400 ->
             Post (Done s) c) ->
  Post (Raised (Overflow "date value out of range")) c ->
  holds (minus_days a n) c Post.
Proof.
  intros H1 H2. unfold minus_days.
  destruct (_ && _); [apply holds_ret; now apply H1 | now apply holds_raise].
Qed.

Lemma holds_astimezone_UTC (a : aware) (c : console)
  (Post : answer Z -> console -> Prop) :
  Post (Done (instant a)) c ->
  Post (Raised (Overflow "date value out of range")) c ->
  holds (astimezone_UTC a) c Post.
Proof.
  intros H1 H2. unfold astimezone_UTC.
  destruct (_ && _); [now apply holds_ret | now apply holds_raise].
Qed.

Lemma holds_sensor_data (name measurement : string) (cellId : Z)
  (start end_ : aware) (c : console)
  (Post : answer payload -> console -> Prop) :
  (forall r c', wrote known_event c c' -> r <> Starved -> Post r c') ->
  holds (sensor_data env name measurement cellId start end_) c Post.
Proof.
  intros H. unfold sensor_data.
  apply holds_bind, holds_astimezone_UTC;
    [ | apply H; [apply wrote_refl | discriminate]].
  apply holds_bind, holds_astimezone_UTC;
    [ | apply H; [apply wrote_refl | discriminate]].
  apply holds_bind, holds_emit.
  assert (Hw : wrote known_event c
                 (say c (Requested (sensor_request name measurement cellId
                                      (Some (instant start)) (Some (instant end_)))))).
  { apply wrote_say. right. eauto 10. }
  destruct (env _) as [response | f].
  - destruct (raise_for_status response).
    + destruct (json response) as [f | body].
      * apply holds_raise. now apply H.
      * apply holds_ret. now apply H.
    + apply holds_raise. now apply H.
  - apply holds_raise. now apply H.
Qed.

(** [get_valid_date] on the console returns a midnight, or ends in the
    [EOFError] of its prompt when the input is exhausted; it only prompts
    and prints. *)
Lemma holds_get_valid_datetime (prompt : string) (c : console)
  (Post : answer aware -> console -> Prop) :
  (forall r c', after silent c c' ->
                match r with
                | Done a => wall a mod 86400 = 0
                | Raised t => t = EndOfInput /\ unread c' = []
                | Starved => False
                end -> Post r c') ->
  holds (get_valid_datetime now_ca localize prompt) c Post.
Proof.
  intros H. unfold get_valid_datetime.
  eapply holds_conseq.
  - apply (holds_while silent _
             (fun r c' => match r with
                          | Done a => wall a mod 86400 = 0
                          | Raised t => t = EndOfInput /\ unread c' = []
                          | Starved => False
                          end)).
    intros c1 H1. hstep. hstep.
    + split; [chain | ]. now split.
    + destruct (String.eqb line "").
      * repeat hstep. split; [chain | ]. apply wall_midnight.
      * hstep. destruct (parse_date line) as [[[y m] d] | ].
        -- destruct (out_of_bounds y m d).
           ++ repeat hstep. split; [chain | counts].
           ++ hstep. unfold localized.
              destruct (datetime_ymd y m d) as [dt | ].
              ** repeat hstep. split; [chain | ]. cbn [wall].
                 apply Z_mod_mult.
              ** repeat hstep. split; [chain | counts].
        -- repeat hstep. split; [chain | counts].
  - intros r c' (Ha & Hs & Hr). apply H; [exact Ha | ].
    destruct r; [exact Hr | exact Hr | contradiction].
Qed.

Lemma holds_get_time_range (c : console)
  (Post : answer (aware * aware) -> console -> Prop) :
  (forall r c', after silent c c' ->
                match r with
                | Done range =>
                    (exists n, until_now (now_ca n) range) \/ whole_days range
                | Raised t =>
                    (t = EndOfInput /\ unread c' = [])
                    \/ t = Overflow "date value out of range"
                | Starved => False
                end -> Post r c') ->
  holds (get_time_range now_ca localize) c Post.
Proof.
  intros H. unfold get_time_range.
  apply holds_bind, holds_display_time_range_menu. intros c0 H0.
  eapply holds_conseq.
  - apply (holds_while silent _
             (fun r c' =>
                match r with
                | Done range =>
                    (exists n, until_now (now_ca n) range) \/ whole_days range
                | Raised t =>
                    (t = EndOfInput /\ unread c' = [])
                    \/ t = Overflow "date value out of range"
                | Starved => False
                end)).
    intros c1 H1. do 3 hstep.
    + repeat hstep. split; [chain | ]. left. now split.
    + hstep. hstep.
      * do 2 hstep.
        destruct (z =? 1); cbv beta iota; [repeat hstep; split; [chain | ] | ].
        { left. exists (consumed (next c1 (Py.LF ++ "Enter your choice (1-3): "))).
          unfold until_now. cbn [fst snd midnight utcoffset wall]. auto. }
        destruct (z =? 2); cbv beta iota.
        { hstep. apply holds_minus_days.
          - intros s Ho Hw. repeat hstep. split; [chain | ]. left.
            exists (consumed (next c1 (Py.LF ++ "Enter your choice (1-3): "))).
            unfold until_now. cbn [fst snd]. auto.
          - repeat hstep. split; [chain | ]. now right. }
        destruct (z =? 3); cbv beta iota.
        { hstep. apply holds_get_valid_datetime. intros r1 c2 H2 Hr1.
          destruct r1 as [start | t | ]; [ | | contradiction].
          - hstep. apply holds_get_valid_datetime. intros r2 c3 H3 Hr2.
            destruct r2 as [end_ | t | ]; [ | | contradiction].
            + repeat hstep. split; [chain | ]. right. split; [exact Hr1 | ].
              apply wall_end_of_day.
            + destruct Hr2 as [-> Hu]. repeat hstep. split; [chain | ]. now left.
          - destruct Hr1 as [-> Hu]. repeat hstep. split; [chain | ]. now left. }
        repeat hstep. split; [chain | counts].
      * repeat hstep. split; [chain | counts].
  - intros r c' (Ha & Hs & Hr). apply H.
    + eapply after_trans; [apply wrote_after; exact H0 | exact Ha].
    + destruct r; [exact Hr | exact Hr | contradiction].
Qed.

(** Any exception in the [try] block of a stream turn is answered with one
    line and leads to the question whether to go on. *)
Lemma stream_handler (t : trouble) (c : console)
  (Post : answer (option (verdict unit)) -> console -> Prop) :
  (forall c', wrote silent c c' -> Post (Done None) c') ->
  holds (match as_exception requests_ValueError pandas_ValueError exn_text t with
         | None => print_line "Please enter a valid number" ;; pure None
         | Some e => print_line ("Error: " ++ e) ;; pure None
         end) c Post.
Proof.
  intros H.
  destruct (as_exception _ _ _ t); repeat hstep; apply H; now apply wrote_say.
Qed.

Lemma holds_stream_turn (c : console) :
  holds (stream_turn env astimezone_utc to_datetime_utc pacific_offset fmt_mean
           fmt_max now_local frame_of_other requests_ValueError pandas_ValueError
           exn_text) c (fun r c' =>
    after stream_event c c'
    /\ match r with
       | Done (Break _) => True
       | Done Continue => (consumed c < consumed c')%nat
       | Raised t => t = EndOfInput /\ unread c' = []
       | Starved => False
       end).
Proof.
  unfold stream_turn.
  apply holds_bind, holds_display_sen0308_stream_menu. intros c0 H0.
  set (question := fun left : option (verdict unit) => match left with
                                  | Some v => pure v
                                  | None => _
                                  end).
  assert (Q : forall c1, after stream_event c c1 ->
              holds (question None) c1 (fun r c' =>
                after stream_event c c'
                /\ match r with
                   | Done (Break _) => True
                   | Done Continue => (consumed c < consumed c')%nat
                   | Raised t => t = EndOfInput /\ unread c' = []
                   | Starved => False
                   end)).
  { intros c1 H1. unfold question. repeat hstep.
    - split; [chain | ]. now split.
    - destruct (String.eqb _ "y"); repeat hstep; (split; [chain | counts]); exact I. }
  assert (Hh : forall t c1, after stream_event c c1 ->
            holds (match as_exception requests_ValueError pandas_ValueError
                           exn_text t with
                   | None => print_line "Please enter a valid number" ;; pure None
                   | Some e => print_line ("Error: " ++ e) ;; pure None
                   end) c1
              (fun r c' =>
                 match r with
                 | Done a => holds (question a) c' (fun r c' =>
                     after stream_event c c'
                     /\ match r with
                        | Done (Break _) => True
                        | Done Continue => (consumed c < consumed c')%nat
                        | Raised t => t = EndOfInput /\ unread c' = []
                        | Starved => False
                        end)
                 | Raised t => after stream_event c c' /\ (t = EndOfInput /\ unread c' = [])
                 | Starved => after stream_event c c' /\ False
                 end)).
  { intros t c1 H1. apply stream_handler. intros c' Hc'. apply Q. chain. }
  apply holds_bind. apply holds_try. hstep. hstep.
  - apply Hh. chain.
  - hstep. hstep.
    + destruct (z =? 5); cbv beta iota.
      { repeat hstep. unfold question. repeat hstep. split; [chain | exact I]. }
      hstep.
      assert (Hstream : forall time_window c1, after stream_event c c1 ->
                (consumed c < consumed c1)%nat ->
                holds (data <- stream_data env astimezone_utc now_local time_window ;;
                       (if has_data data then
                          df <- frame frame_of_other data ;;
                          if negb (empty df) then
                            display to_datetime_utc pacific_offset fmt_mean fmt_max
                              df 1448 "humidity"
                          else print_line "No data received from stream"
                        else print_line "Failed to get stream data") ;;
                       pure None) c1
                  (fun r c' =>
                     match r with
                     | Raised t =>
                         holds (match as_exception requests_ValueError
                                        pandas_ValueError exn_text t with
                                | None => print_line "Please enter a valid number" ;; pure None
                                | Some e => print_line ("Error: " ++ e) ;; pure None
                                end) c'
                           (fun r c' =>
                              match r with
                              | Done a => holds (question a) c' (fun r c' =>
                                  after stream_event c c'
                                  /\ match r with
                                     | Done (Break _) => True
                                     | Done Continue => (consumed c < consumed c')%nat
                                     | Raised t => t = EndOfInput /\ unread c' = []
                                     | Starved => False
                                     end)
                              | Raised t =>
                                  after stream_event c c'
                                  /\ (t = EndOfInput /\ unread c' = [])
                              | Starved => after stream_event c c' /\ False
                              end)
                     | Done a => holds (question a) c' (fun r c' =>
                         after stream_event c c'
                         /\ match r with
                            | Done (Break _) => True
                            | Done Continue => (consumed c < consumed c')%nat
                            | Raised t => t = EndOfInput /\ unread c' = []
                            | Starved => False
                            end)
                     | Starved => after stream_event c c' /\ False
                     end)).
      { intros time_window c1 H1 Hn. hstep. apply holds_stream_data.
        intros r c2 H2 Hr. destruct r as [data | t | ]; [ | | contradiction].
        - hstep. destruct (has_data data); cbv beta iota.
          + hstep. apply holds_frame. intros r Hr'.
            destruct r as [df | t | ]; [ | | contradiction].
            * destruct (negb (empty df)); cbv beta iota.
              -- apply holds_display. intros r c3 H3 Hr3.
                 destruct r as [[] | t | ]; [ | | contradiction].
                 ++ repeat hstep. apply Q. chain.
                 ++ apply Hh. chain.
              -- repeat hstep. apply Q. chain.
            * apply Hh. chain.
          + repeat hstep. apply Q. chain.
        - apply Hh. chain. }
      destruct (z =? 4); cbv beta iota.
      * hstep. hstep. hstep.
        -- cbv beta iota. hstep. apply Hh. chain.
        -- hstep. hstep.
           ++ destruct (z0 <=? 0); cbv beta iota.
              ** repeat hstep. unfold question. hstep. split; [chain | counts].
              ** hstep. apply Hstream; [chain | counts].
           ++ repeat hstep. unfold question. hstep. split; [chain | counts].
      * hstep. apply Hstream; [chain | counts].
    + apply Hh. chain.
Qed.

Lemma holds_handle_sen0308_stream (c : console)
  (Post : answer unit -> console -> Prop) :
  (forall r c', after stream_event c c' ->
                match r with
                | Done _ => True
                | Raised t => t = EndOfInput /\ unread c' = []
                | Starved => False
                end -> Post r c') ->
  holds (handle_sen0308_stream env astimezone_utc to_datetime_utc pacific_offset
           fmt_mean fmt_max now_local frame_of_other requests_ValueError
           pandas_ValueError exn_text) c Post.
Proof.
  intros H. unfold handle_sen0308_stream. eapply holds_conseq.
  - apply (holds_while stream_event _
             (fun r c' => match r with
                          | Done _ => True
                          | Raised t => t = EndOfInput /\ unread c' = []
                          | Starved => False
                          end)).
    intros c1 H1. eapply holds_conseq; [apply holds_stream_turn | ].
    intros r c2 [Ha Hr]. split; [exact Ha | ].
    destruct r as [[[] | ] | t | ]; auto.
  - intros r c' (Ha & Hs & Hr). apply H; [exact Ha | ].
    destruct r; auto.
Qed.

(** What a turn of the main loop ends in. *)
Lemma holds_main_turn (c : console) :
  holds (main_turn env astimezone_utc to_datetime_utc pacific_offset fmt_mean
           fmt_max now_ca now_local localize frame_of_other requests_ValueError
           pandas_ValueError exn_text) c (fun r c' =>
    after known_event c c'
    /\ match r with
       | Done (Break _) =>
           last_event (log c') = Some (Said "Exiting program. Goodbye!")
       | Done Continue => (consumed c < consumed c')%nat
       | Raised t =>
           t = EndOfInput /\ unread c' = []
           /\ last_event (log c')
              = Some (Asked (Py.LF ++ "Would you like to view another cell? (y/n): "))
       | Starved => False
       end).
Proof.
  unfold main_turn.
  apply holds_bind, holds_display_menu. intros c0 H0.
  set (question := fun left : option (verdict unit) => match left with
                                  | Some v => pure v
                                  | None => _
                                  end).
  set (Post := fun (r : answer (verdict unit)) (c' : console) =>
    after known_event c c'
    /\ match r with
       | Done (Break _) =>
           last_event (log c') = Some (Said "Exiting program. Goodbye!")
       | Done Continue => (consumed c < consumed c')%nat
       | Raised t =>
           t = EndOfInput /\ unread c' = []
           /\ last_event (log c')
              = Some (Asked (Py.LF ++ "Would you like to view another cell? (y/n): "))
       | Starved => False
       end).
  assert (Q : forall c1, after known_event c c1 -> holds (question None) c1 Post).
  { intros c1 H1. unfold question, Post. repeat hstep.
    - split; [chain | ]. split; [reflexivity | ]. split; [exact Hend | ].
      apply last_event_say.
    - destruct (String.eqb _ "y"); repeat hstep; (split; [chain | ]).
      + counts.
      + apply last_event_say. }
  set (handler := fun t : trouble => match t with
                                     | HTTPError e body => _
                                     | _ => _
                                     end).
  set (Mid := fun (r : answer (option (verdict unit))) (c' : console) =>
                match r with
                | Done a => holds (question a) c' Post
                | Raised t => Post (Raised t) c'
                | Starved => Post Starved c'
                end).
  assert (Hh : forall t c1, after known_event c c1 -> holds (handler t) c1 Mid).
  { intros t c1 H1. unfold handler, Mid.
    destruct t; try (destruct (as_exception _ _ _ _));
      repeat hstep; apply Q; chain. }
  set (Try := fun (r : answer (option (verdict unit))) (c' : console) =>
                match r with
                | Raised t => holds (handler t) c' Mid
                | Done a => Mid (Done a) c'
                | Starved => Mid Starved c'
                end).
  apply holds_bind. apply holds_try. fold Mid. fold Try.
  hstep. hstep.
  - apply Hh. chain.
  - hstep. hstep.
    + destruct (z =? 6); cbv beta iota.
      { repeat hstep. unfold Try, Mid, question. hstep. unfold Post.
        split; [chain | apply last_event_say]. }
      destruct (z =? 4); cbv beta iota.
      { hstep. apply holds_handle_sen0308_stream. intros r c1 H1 Hr.
        destruct r as [[] | t | ]; [ | | contradiction].
        - hstep. unfold Try, Mid, question. hstep. unfold Post.
          split; [chain | counts].
        - apply Hh. chain. }
      hstep.
      assert (Hfetch : forall (cell : cell_info) c1, after known_event c c1 ->
                holds (print_line (Py.LF ++ "Fetching " ++ measurement cell
                              ++ " data for cell " ++ Py.str_int (cell_id cell)
                              ++ "...") ;;
                       range <- get_time_range now_ca localize ;;
                       data <- sensor_data env (sensor_name cell) (measurement cell)
                                 (cell_id cell) (fst range) (snd range) ;;
                       (if has_data data then
                          df <- frame frame_of_other data ;;
                          display to_datetime_utc pacific_offset fmt_mean fmt_max
                            df (cell_id cell) (measurement cell)
                        else print_line "No data received for the specified time range.") ;;
                       pure None) c1 Try).
      { intros cell c1 H1. hstep. hstep. hstep.
        apply holds_get_time_range. intros r c2 H2 Hr.
        destruct r as [range | t | ]; [ | | contradiction].
        - hstep. apply holds_sensor_data. intros r c3 H3 Hr3.
          destruct r as [data | t | ]; [ | | contradiction].
          + hstep. destruct (has_data data); cbv beta iota.
            * hstep. apply holds_frame. intros r Hr'.
              destruct r as [df | t | ]; [ | | contradiction].
              -- apply holds_display. intros r c4 H4 Hr4.
                 destruct r as [[] | t | ]; [ | | contradiction].
                 ++ hstep. unfold Try, Mid. apply Q. chain.
                 ++ apply Hh. chain.
              -- apply Hh. chain.
            * repeat hstep. unfold Try, Mid. apply Q. chain.
          + apply Hh. chain.
        - apply Hh. chain. }
      destruct (z =? 5); cbv beta iota.
      * hstep. hstep.
        -- apply Hh. chain.
        -- hstep. hstep.
           ++ hstep. hstep.
              ** apply Hh. chain.
              ** hstep. hstep.
                 --- apply Hh. chain.
                 --- hstep. apply Hfetch. chain.
           ++ apply Hh. chain.
      * hstep. destruct (get_cell_info z) as [cell | ].
        -- apply Hfetch. chain.
        -- repeat hstep. unfold Try, Mid, question. hstep. unfold Post.
           split; [chain | counts].
    + apply Hh. chain.
Qed.

(** The main loop ends: with the goodbye line, or in the [EOFError] of the
    question whether to go on, at the end of the input. *)
Lemma holds_main (c : console) :
  holds (main_loop env astimezone_utc to_datetime_utc pacific_offset fmt_mean fmt_max
           now_ca now_local localize frame_of_other requests_ValueError
           pandas_ValueError exn_text) c (fun r c' =>
    after known_event c c'
    /\ match r with
       | Done _ => last_event (log c') = Some (Said "Exiting program. Goodbye!")
       | Raised t =>
           t = EndOfInput /\ unread c' = []
           /\ last_event (log c')
              = Some (Asked (Py.LF ++ "Would you like to view another cell? (y/n): "))
       | Starved => False
       end).
Proof.
  unfold main_loop. eapply holds_conseq.
  - apply (holds_while known_event _
             (fun r c' =>
                match r with
                | Done _ => last_event (log c') = Some (Said "Exiting program. Goodbye!")
                | Raised t =>
                    t = EndOfInput /\ unread c' = []
                    /\ last_event (log c')
                       = Some (Asked (Py.LF
                                      ++ "Would you like to view another cell? (y/n): "))
                | Starved => False
                end)).
    intros c1 H1. eapply holds_conseq; [apply holds_main_turn | ].
    intros r c2 [Ha Hr]. split; [exact Ha | ].
    destruct r as [[[] | ] | t | ]; auto.
  - intros r c' (Ha & Hs & Hr). split; [exact Ha | ]. destruct r; auto.
Qed.

(** X18. The ranges [get_time_range] returns and the exceptions it lets
    through.  A range until now starts at the last midnight, or seven days
    before it, and never after its end; a custom range runs from a
    midnight to a last second of a day.  Besides the [EOFError] of a
    prompt at the end of the input, only the [OverflowError] of the
    subtraction of seven days leaves the function; it only prompts and
    prints. *)
Theorem time_range_outcomes (c : console) :
  let r := get_time_range now_ca localize c in
  after silent c (snd r)
  /\ match fst r with
     | Done range =>
         (exists n, until_now (now_ca n) range
                    /\ instant (fst range) <= instant (snd range))
         \/ whole_days range
     | Raised t =>
         (t = EndOfInput /\ unread (snd r) = [])
         \/ t = Overflow "date value out of range"
     | Starved => False
     end.
Proof.
  cbv zeta. apply (holds_get_time_range c (fun r c' =>
    after silent c c'
    /\ match r with
       | Done range =>
           (exists n, until_now (now_ca n) range
                      /\ instant (fst range) <= instant (snd range))
           \/ whole_days range
       | Raised t =>
           (t = EndOfInput /\ unread c' = [])
           \/ t = Overflow "date value out of range"
       | Starved => False
       end)).
  intros r c' Ha Hr. split; [exact Ha | ].
  destruct r as [range | t | ]; [ | exact Hr | exact Hr].
  destruct Hr as [(n & Hn) | Hw]; [left | now right].
  exists n. split; [exact Hn | ].
  destruct Hn as (He & Ho & Hs). unfold instant. rewrite He, Ho.
  pose proof (Z.mod_pos_bound (wall (now_ca n)) 86400 eq_refl) as Hm.
  unfold midnight in Hs. cbn [wall] in Hs. lia.
Qed.

(** X17. The stream menu ends: [handle_sen0308_stream] returns, or it ends in
    the [EOFError] of a prompt when the input is exhausted.  No other
    exception leaves it, and every request it sends is a stream request
    for cell 1448 with a timeout of 15 seconds. *)
Theorem stream_menu_ends (c : console) :
  let r := handle_sen0308_stream env astimezone_utc to_datetime_utc pacific_offset
             fmt_mean fmt_max now_local frame_of_other requests_ValueError
             pandas_ValueError exn_text c in
  after stream_event c (snd r)
  /\ (fst r = Done tt \/ (fst r = Raised EndOfInput /\ unread (snd r) = [])).
Proof.
  cbv zeta. apply (holds_handle_sen0308_stream c (fun r c' =>
    after stream_event c c'
    /\ (r = Done tt \/ (r = Raised EndOfInput /\ unread c' = [])))).
  intros r c' Ha Hr. split; [exact Ha | ].
  destruct r as [[] | t | ]; [now left | | contradiction].
  destruct Hr as [-> Hu]. now right.
Qed.

(** X23. The main loop ends, whatever is typed: after the goodbye line, or in
    the [EOFError] of the question whether to go on, when the input is
    exhausted.  Every other exception is caught inside the loop, and every
    request is one of the stream menu or a request for a time range. *)
Theorem main_loop_ends (inputs : list string) :
  let r := main_loop env astimezone_utc to_datetime_utc pacific_offset fmt_mean fmt_max
             now_ca now_local localize frame_of_other requests_ValueError
             pandas_ValueError exn_text (start inputs) in
  after known_event (start inputs) (snd r)
  /\ ((fst r = Done tt
       /\ last_event (log (snd r)) = Some (Said "Exiting program. Goodbye!"))
      \/ (fst r = Raised EndOfInput
          /\ unread (snd r) = []
          /\ last_event (log (snd r))
             = Some (Asked (Py.LF ++ "Would you like to view another cell? (y/n): ")))).
Proof.
  cbv zeta. eapply holds_conseq; [apply holds_main | ].
  intros r c' [Ha Hr]. split; [exact Ha | ].
  destruct r as [[] | t | ]; [now left | | contradiction].
  destruct Hr as (-> & Hu & Hl). now right.
Qed.

End Pieces.

End DirtVizLoops.

(* ------------------------------------------------------------------ *)
(** ** demoPullRequests.py: two more turns *)

Module DirtVizTurns.
Import Http DirtViz DirtVizSpec DirtVizMenu DirtVizMenuSpec DirtVizMenuFacts.
Local Open Scope menu_scope.

Lemma silent_outputs (out : list output) : Forall silent (map event_of_output out).
Proof. induction out as [ | [s | d] out IH]; cbn; constructor; auto; exact I. Qed.

Section TurnFacts.

Variable env : request -> http_result.
Variable astimezone_utc : Z -> option Z.
Variable to_datetime_utc : list cell -> option (list (option Z)).
Variable pacific_offset : Z -> Z.
Variable fmt_mean fmt_max : list cell -> option string.
Variable now_ca : nat -> aware.
Variable now_local : nat -> Z.
Variable localize : Z -> Z.
Variable frame_of_other : exn + DataFrame.
Variable requests_ValueError : failure -> bool.
Variable pandas_ValueError : string -> bool.
Variable exn_text : exn -> string.

Lemma stream_data_run (time_window : Z) (u : list string) (n : nat)
  (lg : list event) :
  let r := get_sen0308_stream env astimezone_utc (now_local n) 1448 time_window in
  stream_data env astimezone_utc now_local time_window (mkConsole u n lg)
  = (match fst r with
     | Val data => Done data
     | Raise f => Raised (Overflow (message f))
     end,
     mkConsole u n (lg ++ events_of (snd r))).
Proof.
  cbv zeta. unfold stream_data, datetime_now. unfold andthen at 1.
  cbn [consumed].
  destruct (get_sen0308_stream env astimezone_utc (now_local n) 1448 time_window)
    as [r e].
  unfold andthen. rewrite emit_all_run. now destruct r.
Qed.

(** X25. A stream that brings no data is reported as a failure.  When
    [get_sen0308_stream] returns an empty list, because the request failed
    or because the API had no readings for the window, the turn prints
    what the client printed and then "Failed to get stream data", and asks
    whether to get another stream. *)
Theorem stream_without_data (line answer : string) (choice : Z)
  (data : payload) (e : effects)
  (rest : list string) (n : nat) (lg : list event) :
  Py.int line = Some choice ->
  ~ In choice [4; 5] ->
  get_sen0308_stream env astimezone_utc (now_local (S n)) 1448 (time_windows choice)
  = (Val data, e) ->
  has_data data = false ->
  stream_turn env astimezone_utc to_datetime_utc pacific_offset fmt_mean fmt_max
    now_local frame_of_other requests_ValueError pandas_ValueError exn_text
    (mkConsole (line :: answer :: rest) n lg)
  = (Done (if String.eqb (Py.lower answer) "y" then Continue else Break tt),
     mkConsole rest (S (S n))
       (lg ++ lines_of display_sen0308_stream_menu
        ++ [Asked (Py.LF ++ "Enter your choice (1-5): ")]
        ++ events_of e
        ++ [Said "Failed to get stream data";
            Asked (Py.LF ++ "Would you like to get another stream? (y/n): ")])%list).
Proof.
  intros Hc Hno Hs Hd.
  assert (H5 : (choice =? 5) = false)
    by (apply Z.eqb_neq; intros ->; apply Hno; cbn; auto).
  assert (H4 : (choice =? 4) = false)
    by (apply Z.eqb_neq; intros ->; apply Hno; cbn; auto).
  unfold stream_turn.
  rewrite (menu_then _ _ _ display_sen0308_stream_menu_lines).
  cbn [unread consumed log].
  unfold andthen at 1. rewrite try_input, (try_int _ choice) by exact Hc.
  rewrite H5, H4. rewrite try_bind, ret_run. cbv beta iota.
  rewrite try_bind, stream_data_run, Hs. cbn [fst snd].
  rewrite Hd. rewrite try_print, try_ret. rewrite input_then.
  destruct (String.eqb (Py.lower answer) "y"); rewrite ret_run;
    now rewrite <- !app_assoc.
Qed.

(** X26. A custom cell is requested as typed.  With choice 5 the cell id, the
    sensor name and the measurement go into the one request of the turn
    as they were typed, the id as the integer read from it, for today's
    range; whatever the API answers, nothing else is sent in the turn. *)
Theorem custom_cell_is_requested_as_typed (choice id name kind range : string)
  (cellId : Z) (rest : list string) (n : nat) (lg : list event) :
  let now := now_ca (S (S (S (S (S n))))) in
  let q := sensor_request name kind cellId
             (Some (instant (midnight now))) (Some (instant now)) in
  Py.int choice = Some 5 ->
  Py.int id = Some cellId ->
  Py.int range = Some 1 ->
  representable (instant (midnight now)) ->
  representable (instant now) ->
  exists es,
    log (snd (main_turn env astimezone_utc to_datetime_utc pacific_offset fmt_mean
                fmt_max now_ca now_local localize frame_of_other
                requests_ValueError pandas_ValueError exn_text
                (mkConsole (choice :: id :: name :: kind :: range :: rest) n lg)))
    = (lg ++ lines_of display_menu
       ++ [Asked (Py.LF ++ "Enter your choice (1-6): ");
           Asked "Enter cell ID: ";
           Asked "Enter sensor name (e.g., sen0257, yfs210c, etc.): ";
           Asked "Enter measurement type (e.g., pressure, humidity): ";
           Said (Py.LF ++ "Fetching " ++ kind ++ " data for cell "
                 ++ Py.str_int cellId ++ "...")]
       ++ lines_of display_time_range_menu
       ++ [Asked (Py.LF ++ "Enter your choice (1-3): "); Requested q]
       ++ es)%list
    /\ Forall silent es.
Proof.
  intros now q Hc Hi Hr Hs He.
  set (before := (lg ++ lines_of display_menu
       ++ [Asked (Py.LF ++ "Enter your choice (1-6): ");
           Asked "Enter cell ID: ";
           Asked "Enter sensor name (e.g., sen0257, yfs210c, etc.): ";
           Asked "Enter measurement type (e.g., pressure, humidity): ";
           Said (Py.LF ++ "Fetching " ++ kind ++ " data for cell "
                 ++ Py.str_int cellId ++ "...")]
       ++ lines_of display_time_range_menu
       ++ [Asked (Py.LF ++ "Enter your choice (1-3): "); Requested q])%list).
  enough (G : exists es,
            log (snd (main_turn env astimezone_utc to_datetime_utc pacific_offset
                        fmt_mean fmt_max now_ca now_local localize frame_of_other
                        requests_ValueError pandas_ValueError exn_text
                        (mkConsole (choice :: id :: name :: kind :: range :: rest) n lg)))
            = (before ++ es)%list /\ Forall silent es).
  { destruct G as (es & E & F). exists es. split; [ | exact F].
    rewrite E. unfold before. now rewrite <- !app_assoc. }
  unfold main_turn.
  rewrite (menu_then _ _ _ display_menu_lines). cbn [unread consumed log].
  unfold andthen at 1. rewrite try_input, (try_int _ 5) by exact Hc.
  cbn [Z.eqb Pos.eqb]. rewrite try_bind, input_then, (int_then _ cellId) by exact Hi.
  rewrite !input_then, ret_run. cbv beta iota. cbn [measurement cell_id sensor_name].
  rewrite try_print, try_bind, (get_time_range_today _ _ _ _ _ _ Hr).
  cbn [fst snd]. rewrite try_bind, (sensor_data_run _ _ _ _ _ _ _ _ _ Hs He).
  fold now q.
  match goal with
  | |- context [mkConsole rest ?k ?l] =>
      replace l with before by (unfold before; now rewrite <- !app_assoc)
  end.
  clearbody before.
  assert (Q : forall (es : list event) k,
            Forall silent es ->
            exists es',
              log (snd ((continue_choice <-
                           input (Py.LF ++ "Would you like to view another cell? (y/n): ") ;;
                         if String.eqb (Py.lower continue_choice) "y"
                         then pure (@Continue unit)
                         else print_line "Exiting program. Goodbye!" ;;
                              pure (Break tt))
                          (mkConsole rest k (before ++ es)%list)))
              = (before ++ es')%list /\ Forall silent es').
  { intros es k Hes. destruct rest as [ | answer rest'].
    - rewrite input_end. cbn [snd log]. rewrite <- app_assoc.
      eexists. split; [reflexivity | ].
      apply Forall_app. split; [exact Hes | repeat constructor].
    - rewrite input_then. destruct (String.eqb (Py.lower answer) "y").
      + rewrite ret_run. cbn [snd log]. rewrite <- app_assoc.
        eexists. split; [reflexivity | ].
        apply Forall_app. split; [exact Hes | repeat constructor].
      + rewrite print_then, ret_run. cbn [snd log]. rewrite <- !app_assoc.
        eexists. split; [reflexivity | ].
        apply Forall_app. split; [exact Hes | repeat constructor]. }
  assert (Q1 : forall (s : string) k,
            exists es',
              log (snd ((continue_choice <-
                           input (Py.LF ++ "Would you like to view another cell? (y/n): ") ;;
                         if String.eqb (Py.lower continue_choice) "y"
                         then pure (@Continue unit)
                         else print_line "Exiting program. Goodbye!" ;;
                              pure (Break tt))
                          (mkConsole rest k (before ++ [Said s])%list)))
              = (before ++ es')%list /\ Forall silent es').
  { intros s k. apply Q. repeat constructor. }
  assert (Hh : forall (t : trouble) k,
            exists es',
              log (snd (match
                          (match t with
                           | HTTPError e body =>
                               print_line (Py.LF ++ "HTTP Error: " ++ e) ;;
                               print_line ("Response: " ++ String.substring 0 500 body
                                           ++ "...") ;;
                               pure (@None (verdict unit))
                           | _ =>
                               match as_exception requests_ValueError pandas_ValueError
                                       exn_text t with
                               | None =>
                                   print_line "Please enter a valid number." ;; pure None
                               | Some e =>
                                   print_line (Py.LF ++ "Unexpected error: " ++ e) ;;
                                   pure None
                               end
                           end) (mkConsole rest k before)
                        with
                        | (Done a, c') =>
                            match a with
                            | Some v => pure v
                            | None =>
                                continue_choice <-
                                  input (Py.LF
                                         ++ "Would you like to view another cell? (y/n): ") ;;
                                if String.eqb (Py.lower continue_choice) "y"
                                then pure Continue
                                else print_line "Exiting program. Goodbye!" ;;
                                     pure (Break tt)
                            end c'
                        | (Raised t, c') => (Raised t, c')
                        | (Starved, c') => (Starved, c')
                        end))
              = (before ++ es')%list /\ Forall silent es').
  { intros t k.
    destruct t as [ | | msg | msg body | f | e0];
      try (destruct (as_exception requests_ValueError pandas_ValueError exn_text _));
      rewrite ?print_then, ?ret_run; cbv beta iota;
      first [ apply Q1
            | rewrite <- app_assoc; apply Q; repeat constructor ]. }
  destruct (env q) as [response | f].
  - destruct (raise_for_status response).
    + destruct (json response) as [f | body].
      * apply (Hh (Requests f)).
      * cbv beta iota. destruct (has_data body) eqn:Hb.
        -- rewrite try_bind. unfold andthen at 1. unfold frame at 1.
           destruct body as [rs | t].
           ++ rewrite ret_run, display_run.
              pose proof (silent_outputs
                            (fst (format_data_display to_datetime_utc pacific_offset
                                    fmt_mean fmt_max (DataFrame_of rs) cellId kind)))
                as Hout.
              destruct (snd (format_data_display to_datetime_utc pacific_offset
                               fmt_mean fmt_max (DataFrame_of rs) cellId kind))
                as [e0 | ].
              ** cbv beta iota.
                 destruct (as_exception requests_ValueError pandas_ValueError
                             exn_text (Pandas e0));
                   rewrite print_then, ret_run; cbv beta iota;
                   rewrite <- app_assoc; apply Q;
                   (apply Forall_app; split; [exact Hout | repeat constructor]).
              ** rewrite try_ret. cbv beta iota. now apply Q.
           ++ destruct frame_of_other as [e0 | df].
              ** rewrite raise_run. apply (Hh (Pandas e0)).
              ** rewrite ret_run, display_run.
                 pose proof (silent_outputs
                               (fst (format_data_display to_datetime_utc pacific_offset
                                       fmt_mean fmt_max df cellId kind)))
                   as Hout.
                 destruct (snd (format_data_display to_datetime_utc pacific_offset
                                  fmt_mean fmt_max df cellId kind))
                   as [e0 | ].
                 --- cbv beta iota.
                     destruct (as_exception requests_ValueError pandas_ValueError
                                 exn_text (Pandas e0));
                       rewrite print_then, ret_run; cbv beta iota;
                       rewrite <- app_assoc; apply Q;
                       (apply Forall_app; split; [exact Hout | repeat constructor]).
                 --- rewrite try_ret. cbv beta iota. now apply Q.
        -- rewrite try_print, try_ret. cbv beta iota. apply Q1.
    + apply (Hh (HTTPError (reason response) (text response))).
  - apply (Hh (Requests f)).
Qed.

End TurnFacts.

Lemma stream_without_data_witness :
  fst (stream_turn offline eight_behind sample_to_datetime pdt (always "41.00")
         (always "41.00") noon_local no_frame never never_pandas repr_text
         (start ["1"; "n"]))
  = Done (Break tt).
Proof.
  unfold start.
  rewrite (stream_without_data offline eight_behind sample_to_datetime pdt
             (always "41.00") (always "41.00") noon_local no_frame never
             never_pandas repr_text "1" "n" 1 (Records [])
             (snd (get_sen0308_stream offline eight_behind (noon_local 1) 1448 10))
             [] 0 [] eq_refl).
  - reflexivity.
  - cbn. intros [H | [H | []]]; discriminate H.
  - reflexivity.
  - reflexivity.
Defined.

Lemma custom_cell_is_requested_as_typed_witness :
  exists es,
    requests_of
      (log (snd (main_turn not_found eight_behind sample_to_datetime pdt
                   (always "41.00") (always "41.00") noon noon_local summer no_frame
                   never never_pandas repr_text
                   (start ["5"; "1350"; "sen 0257"; "pressure"; "1"; "n"]))))
    = [sensor_request "sen 0257" "pressure" 1350
         (Some (instant (midnight (noon 5)))) (Some (instant (noon 5)))]
    /\ Forall silent es.
Proof.
  unfold start.
  destruct (custom_cell_is_requested_as_typed not_found eight_behind
              sample_to_datetime pdt (always "41.00") (always "41.00") noon
              noon_local summer no_frame never never_pandas repr_text
              "5" "1350" "sen 0257" "pressure" "1" 1350 ["n"] 0 []
              eq_refl eq_refl eq_refl)
    as (es & E & F).
  - split; discriminate.
  - split; discriminate.
  - exists es. split; [ | exact F]. reflexivity.
Defined.

End DirtVizTurns.
